(** * Xiaomi Miio fan platform: capability-gated command dispatch

    A shallow embedding of [homeassistant/components/xiaomi_miio/fan.py]:
    the feature bitsets and attribute tables, the entity classes with their
    command methods, the poll ([async_update]), the model resolution done by
    [async_setup_entry] and the constructors, and the broadcast service
    handler.  Python objects are records, exceptions are a result type, and
    every call into the vendor library and every log record is appended to a
    per-entity trace. *)

From Stdlib Require Import ZArith String Ascii List Bool Lia.
From stdpp Require Import base option list gmap strings fin_maps.

Local Open Scope Z_scope.
Local Open Scope string_scope.

(** ** Python values and exceptions *)

(** The Python values that cross the boundary with the vendor library.
    [VEnum cls name value] is the member [name] of the [enum.Enum] subclass
    [cls]; [value] is what its [.value] attribute returns. *)
#[warnings="-register-all"]
Inductive PyVal : Type :=
| VNone
| VBool (b : bool)
| VInt (n : Z)
| VStr (s : string)
| VList (xs : list PyVal)
| VEnum (cls name : string) (value : PyVal).

(** Python's [==] on these values.  [bool] is a subclass of [int], so
    [True == 1]; enumeration members compare by identity. *)
Fixpoint py_eqb (a b : PyVal) {struct a} : bool :=
  match a, b with
  | VNone, VNone => true
  | VBool x, VBool y => Bool.eqb x y
  | VBool x, VInt y => Z.eqb (Z.b2z x) y
  | VInt x, VBool y => Z.eqb x (Z.b2z y)
  | VInt x, VInt y => Z.eqb x y
  | VStr x, VStr y => String.eqb x y
  | VList xs, VList ys =>
      (fix all2 (xs ys : list PyVal) {struct xs} : bool :=
         match xs, ys with
         | [], [] => true
         | x :: xs', y :: ys' => py_eqb x y && all2 xs' ys'
         | _, _ => false
         end) xs ys
  | VEnum c n _, VEnum c' n' _ => String.eqb c c' && String.eqb n n'
  | _, _ => false
  end.

(** Plain scalars: what the generic reporting sink understands. *)
Definition is_scalar (v : PyVal) : bool :=
  match v with
  | VNone | VBool _ | VInt _ | VStr _ => true
  | VList _ | VEnum _ _ _ => false
  end.

Inductive PyExc : Type :=
| DeviceException
| KeyError (key : string)
| ValueError
| AttributeError (name : string)
| TypeError
| Invalid
| OSError.

Definition is_DeviceException (e : PyExc) : bool :=
  match e with DeviceException => true | _ => false end.

(** The outcome of evaluating a Python expression or call. *)
Inductive Res (A : Type) : Type :=
| Ret (a : A)
| Raise (e : PyExc).
Arguments Ret {A} a.
Arguments Raise {A} e.

(** ** enum.Enum *)

(** An enumeration class: its name and its members in declaration order. *)
Record PyEnum : Type := { enum_name : string; members : list (string * PyVal) }.

Definition member_of (E : PyEnum) (nv : string * PyVal) : PyVal :=
  VEnum (enum_name E) nv.1 nv.2.

(** [E[name]]: lookup by member name, [KeyError] when there is none. *)
Definition enum_getitem (E : PyEnum) (name : string) : Res PyVal :=
  match find (fun nv => String.eqb nv.1 name) (members E) with
  | Some nv => Ret (member_of E nv)
  | None => Raise (KeyError name)
  end.

(** [E(value)]: lookup by value, [ValueError] when there is none. *)
Definition enum_call (E : PyEnum) (v : PyVal) : Res PyVal :=
  match find (fun nv => py_eqb nv.2 v) (members E) with
  | Some nv => Ret (member_of E nv)
  | None => Raise ValueError
  end.

(** [E.Name]: attribute access on the class. *)
Definition enum_attr (E : PyEnum) (name : string) : PyVal :=
  match find (fun nv => String.eqb nv.1 name) (members E) with
  | Some nv => member_of E nv
  | None => VNone
  end.

(** [member.name]. *)
Definition enum_member_name (member : PyVal) : string :=
  match member with
  | VEnum _ name _ => name
  | _ => ""
  end.

(** ** str.title *)

Definition is_lower (c : ascii) : bool :=
  let n := nat_of_ascii c in (97 <=? n)%nat && (n <=? 122)%nat.
Definition is_upper (c : ascii) : bool :=
  let n := nat_of_ascii c in (65 <=? n)%nat && (n <=? 90)%nat.
Definition to_upper (c : ascii) : ascii :=
  if is_lower c then ascii_of_nat (nat_of_ascii c - 32) else c.
Definition to_lower (c : ascii) : ascii :=
  if is_upper c then ascii_of_nat (nat_of_ascii c + 32) else c.

(** [str.title()] on ASCII text: a cased character is upper-cased when the
    previous character is uncased and lower-cased otherwise.  A string is a
    sequence of bytes here, and a byte outside ASCII is taken as uncased;
    Python maps the case of characters outside ASCII too, so what is said
    about the case of a name is said of ASCII names. *)
Fixpoint title_from (previous_is_cased : bool) (s : string) : string :=
  match s with
  | EmptyString => EmptyString
  | String c rest =>
      if is_lower c then
        String (if previous_is_cased then c else to_upper c) (title_from true rest)
      else if is_upper c then
        String (if previous_is_cased then to_lower c else c) (title_from true rest)
      else String c (title_from false rest)
  end.
Definition title (s : string) : string := title_from false s.

(** ** The vendor library (python-miio) *)

Module miio.

(** Members of the enumerations imported from [miio.airpurifier],
    [miio.airpurifier_miot], [miio.airhumidifier], [miio.airhumidifier_miot]
    and [miio.airfresh]. *)
Definition AirpurifierOperationMode : PyEnum :=
  {| enum_name := "miio.airpurifier.OperationMode";
     members := [("Auto", VStr "auto"); ("Silent", VStr "silent");
                 ("Favorite", VStr "favorite"); ("Idle", VStr "idle");
                 ("Medium", VStr "medium"); ("High", VStr "high");
                 ("Strong", VStr "strong")] |}.
Definition AirpurifierLedBrightness : PyEnum :=
  {| enum_name := "miio.airpurifier.LedBrightness";
     members := [("Bright", VInt 0); ("Dim", VInt 1); ("Off", VInt 2)] |}.

Definition AirpurifierMiotOperationMode : PyEnum :=
  {| enum_name := "miio.airpurifier_miot.OperationMode";
     members := [("Unknown", VInt (-1)); ("Auto", VInt 0); ("Silent", VInt 1);
                 ("Favorite", VInt 2); ("Fan", VInt 3)] |}.
Definition AirpurifierMiotLedBrightness : PyEnum :=
  {| enum_name := "miio.airpurifier_miot.LedBrightness";
     members := [("Bright", VInt 0); ("Dim", VInt 1); ("Off", VInt 2)] |}.

Definition AirhumidifierOperationMode : PyEnum :=
  {| enum_name := "miio.airhumidifier.OperationMode";
     members := [("Silent", VStr "silent"); ("Medium", VStr "medium");
                 ("High", VStr "high"); ("Auto", VStr "auto");
                 ("Strong", VStr "strong")] |}.
Definition AirhumidifierLedBrightness : PyEnum :=
  {| enum_name := "miio.airhumidifier.LedBrightness";
     members := [("Bright", VInt 0); ("Dim", VInt 1); ("Off", VInt 2)] |}.

Definition AirhumidifierMiotOperationMode : PyEnum :=
  {| enum_name := "miio.airhumidifier_miot.OperationMode";
     members := [("Auto", VInt 0); ("Low", VInt 1); ("Mid", VInt 2);
                 ("High", VInt 3)] |}.
Definition AirhumidifierMiotLedBrightness : PyEnum :=
  {| enum_name := "miio.airhumidifier_miot.LedBrightness";
     members := [("Off", VInt 0); ("Dim", VInt 1); ("Bright", VInt 2)] |}.

Definition AirfreshOperationMode : PyEnum :=
  {| enum_name := "miio.airfresh.OperationMode";
     members := [("Auto", VStr "auto"); ("Silent", VStr "silent");
                 ("Interval", VStr "interval"); ("Low", VStr "low");
                 ("Middle", VStr "middle"); ("Strong", VStr "strong")] |}.
Definition AirfreshLedBrightness : PyEnum :=
  {| enum_name := "miio.airfresh.LedBrightness";
     members := [("Bright", VInt 0); ("Dim", VInt 1); ("Off", VInt 2)] |}.

Definition AirhumidifierPressedButton : PyEnum :=
  {| enum_name := "miio.airhumidifier_miot.PressedButton";
     members := [("No", VInt 0); ("Led", VInt 1); ("Power", VInt 2)] |}.

(** The device classes instantiated by the platform setup. *)
Inductive DeviceClass : Type :=
| AirPurifierMB4 | AirPurifierMiot | AirPurifier
| AirHumidifierMiot | AirHumidifier | AirFresh.

(** The device methods the entities call, with their arguments. *)
Inductive Call : Type :=
| on
| off
| set_buzzer (buzzer : bool)
| set_child_lock (lock : bool)
| set_mode (mode : PyVal)
| set_led (led : bool)
| set_led_brightness (brightness : PyVal)
| set_favorite_level (level : Z)
| set_fan_level (level : Z)
| set_auto_detect (auto_detect : bool)
| set_learn_mode (learn_mode : bool)
| set_volume (volume : Z)
| set_extra_features (value : Z)
| reset_filter
| set_target_humidity (humidity : Z)
| set_dry (dry : bool)
| set_speed (speed : Z).

(** The object returned by [device.status()]: [is_on] and the properties
    that [getattr] can read; a property the status class does not have is
    absent from [fields]. *)
Record Status : Type := { is_on : bool; fields : gmap string PyVal }.

(** One device as seen from the integration: what each command returns or
    raises, and what [status()] returns or raises. *)
Record Device : Type := {
  command : Call -> Res PyVal;
  status : Res Status;
}.

End miio.

(** ** Traces *)

Inductive Level : Type := DEBUG | WARNING | ERROR.

(** What an entity does to the outside world, in order. *)
Inductive Event : Type :=
| Command (c : miio.Call) (r : Res PyVal)
| StatusRead (r : Res miio.Status)
| Log (lvl : Level) (msg : string).

Definition is_vendor_call (ev : Event) : bool :=
  match ev with Command _ _ | StatusRead _ => true | Log _ _ => false end.
Definition is_error_line (ev : Event) : bool :=
  match ev with Log ERROR _ => true | _ => false end.

(** The records that reach the log at the default level of the logger: a
    debug record is written only when debugging is switched on. *)
Definition is_log_line (ev : Event) : bool :=
  match ev with
  | Log DEBUG _ => false
  | Log _ _ => true
  | _ => false
  end.

Definition vendor_calls (t : list Event) : list Event := List.filter is_vendor_call t.
Definition error_lines (t : list Event) : list Event := List.filter is_error_line t.
Definition log_lines (t : list Event) : list Event := List.filter is_log_line t.

(** ** voluptuous validators *)

Module vol.

(** The validators that the service schemas apply to an argument after
    [vol.Coerce(int)]; arguments are integers here, on which the coercion
    is the identity. *)
Inductive Validator : Type :=
| Clamp (min max : Z)
| In (container : list Z)
| Range (min : Z).

(** [Clamp] moves a value outside [min, max] to the nearest bound and never
    fails; [In] and [Range] raise [Invalid] for a value outside. *)
Definition validate (v : Validator) (x : Z) : Res Z :=
  match v with
  | Clamp min max =>
      let x := if (x <? min)%Z then min else x in
      let x := if (max <? x)%Z then max else x in
      Ret x
  | In container =>
      if existsb (Z.eqb x) container then Ret x else Raise Invalid
  | Range min =>
      if (x <? min)%Z then Raise Invalid else Ret x
  end.

End vol.

(** ** Constants imported from modules of the platform that are not part of
    this file *)

(** The names [fan.py] imports from [homeassistant.const],
    [homeassistant.components.fan], [homeassistant.helpers.config_validation]
    ([cv.positive_int]) and [.const]; their values are fixed by those
    modules, so the development is parametric in them. *)
Record Consts : Type := {
  positive_int : vol.Validator;
  ATTR_MODE : string;
  ATTR_TEMPERATURE : string;
  SPEED_LOW : string;
  SPEED_MEDIUM : string;
  SPEED_HIGH : string;
  SUPPORT_SET_SPEED : Z;
  MODEL_AIRHUMIDIFIER_CA1 : string;
  MODEL_AIRHUMIDIFIER_CA4 : string;
  MODEL_AIRHUMIDIFIER_CB1 : string;
  MODEL_AIRPURIFIER_2S : string;
  MODEL_AIRPURIFIER_3 : string;
  MODEL_AIRPURIFIER_3C : string;
  MODEL_AIRPURIFIER_3H : string;
  MODEL_AIRPURIFIER_PRO : string;
  MODEL_AIRPURIFIER_PRO_V7 : string;
  MODEL_AIRPURIFIER_V3 : string;
  MODELS_HUMIDIFIER_MIOT : list string;
  MODELS_PURIFIER_MIOT : list string;
}.

(** The service names of [.const], the keys of [SERVICE_TO_METHOD]. *)
Inductive Service : Type :=
| SERVICE_SET_BUZZER_ON | SERVICE_SET_BUZZER_OFF
| SERVICE_SET_FAN_LED_ON | SERVICE_SET_FAN_LED_OFF
| SERVICE_SET_CHILD_LOCK_ON | SERVICE_SET_CHILD_LOCK_OFF
| SERVICE_SET_AUTO_DETECT_ON | SERVICE_SET_AUTO_DETECT_OFF
| SERVICE_SET_LEARN_MODE_ON | SERVICE_SET_LEARN_MODE_OFF
| SERVICE_RESET_FILTER
| SERVICE_SET_LED_BRIGHTNESS
| SERVICE_SET_FAVORITE_LEVEL
| SERVICE_SET_FAN_LEVEL
| SERVICE_SET_VOLUME
| SERVICE_SET_EXTRA_FEATURES
| SERVICE_SET_TARGET_HUMIDITY
| SERVICE_SET_DRY_ON | SERVICE_SET_DRY_OFF
| SERVICE_SET_MOTOR_SPEED.

(** ** Module-level tables of fan.py *)

Definition ATTR_MODEL := "model".

Definition ATTR_HUMIDITY := "humidity".
Definition ATTR_AIR_QUALITY_INDEX := "aqi".
Definition ATTR_FILTER_HOURS_USED := "filter_hours_used".
Definition ATTR_FILTER_LIFE := "filter_life_remaining".
Definition ATTR_FAVORITE_LEVEL := "favorite_level".
Definition ATTR_BUZZER := "buzzer".
Definition ATTR_CHILD_LOCK := "child_lock".
Definition ATTR_LED := "led".
Definition ATTR_LED_BRIGHTNESS := "led_brightness".
Definition ATTR_MOTOR_SPEED := "motor_speed".
Definition ATTR_AVERAGE_AIR_QUALITY_INDEX := "average_aqi".
Definition ATTR_PURIFY_VOLUME := "purify_volume".
Definition ATTR_BRIGHTNESS := "brightness".
Definition ATTR_LEVEL := "level".
Definition ATTR_FAN_LEVEL := "fan_level".
Definition ATTR_MOTOR2_SPEED := "motor2_speed".
Definition ATTR_ILLUMINANCE := "illuminance".
Definition ATTR_FILTER_RFID_PRODUCT_ID := "filter_rfid_product_id".
Definition ATTR_FILTER_RFID_TAG := "filter_rfid_tag".
Definition ATTR_FILTER_TYPE := "filter_type".
Definition ATTR_LEARN_MODE := "learn_mode".
Definition ATTR_SLEEP_TIME := "sleep_time".
Definition ATTR_SLEEP_LEARN_COUNT := "sleep_mode_learn_count".
Definition ATTR_EXTRA_FEATURES := "extra_features".
Definition ATTR_FEATURES := "features".
Definition ATTR_TURBO_MODE_SUPPORTED := "turbo_mode_supported".
Definition ATTR_AUTO_DETECT := "auto_detect".
Definition ATTR_SLEEP_MODE := "sleep_mode".
Definition ATTR_VOLUME := "volume".
Definition ATTR_USE_TIME := "use_time".
Definition ATTR_BUTTON_PRESSED := "button_pressed".

Definition ATTR_TARGET_HUMIDITY := "target_humidity".
Definition ATTR_TRANS_LEVEL := "trans_level".
Definition ATTR_HARDWARE_VERSION := "hardware_version".

Definition ATTR_DEPTH := "depth".
Definition ATTR_DRY := "dry".

Definition ATTR_ACTUAL_MOTOR_SPEED := "actual_speed".
Definition ATTR_FAHRENHEIT := "fahrenheit".
Definition ATTR_FAULT := "fault".

Definition ATTR_CO2 := "co2".

(** A dict display [{**base, k1: v1, k2: v2, ...}]: the items are stored
    from left to right, a later item replacing an earlier one with the same
    key. *)
Definition dict_display {V : Type} (base : gmap string V)
    (items : list (string * V)) : gmap string V :=
  foldl (fun d kv => <[kv.1 := kv.2]> d) base items.

Section Tables.
Context (K : Consts).

Definition AVAILABLE_ATTRIBUTES_AIRPURIFIER_COMMON : gmap string string :=
  dict_display ∅ [
    (ATTR_TEMPERATURE K, "temperature");
    (ATTR_HUMIDITY, "humidity");
    (ATTR_AIR_QUALITY_INDEX, "aqi");
    (ATTR_MODE K, "mode");
    (ATTR_FILTER_HOURS_USED, "filter_hours_used");
    (ATTR_FILTER_LIFE, "filter_life_remaining");
    (ATTR_FAVORITE_LEVEL, "favorite_level");
    (ATTR_CHILD_LOCK, "child_lock");
    (ATTR_LED, "led");
    (ATTR_MOTOR_SPEED, "motor_speed");
    (ATTR_AVERAGE_AIR_QUALITY_INDEX, "average_aqi");
    (ATTR_LEARN_MODE, "learn_mode");
    (ATTR_EXTRA_FEATURES, "extra_features");
    (ATTR_TURBO_MODE_SUPPORTED, "turbo_mode_supported");
    (ATTR_BUTTON_PRESSED, "button_pressed")].

Definition AVAILABLE_ATTRIBUTES_AIRPURIFIER : gmap string string :=
  dict_display AVAILABLE_ATTRIBUTES_AIRPURIFIER_COMMON [
    (ATTR_PURIFY_VOLUME, "purify_volume");
    (ATTR_SLEEP_TIME, "sleep_time");
    (ATTR_SLEEP_LEARN_COUNT, "sleep_mode_learn_count");
    (ATTR_AUTO_DETECT, "auto_detect");
    (ATTR_USE_TIME, "use_time");
    (ATTR_BUZZER, "buzzer");
    (ATTR_LED_BRIGHTNESS, "led_brightness");
    (ATTR_SLEEP_MODE, "sleep_mode")].

Definition AVAILABLE_ATTRIBUTES_AIRPURIFIER_PRO : gmap string string :=
  dict_display AVAILABLE_ATTRIBUTES_AIRPURIFIER_COMMON [
    (ATTR_PURIFY_VOLUME, "purify_volume");
    (ATTR_USE_TIME, "use_time");
    (ATTR_FILTER_RFID_PRODUCT_ID, "filter_rfid_product_id");
    (ATTR_FILTER_RFID_TAG, "filter_rfid_tag");
    (ATTR_FILTER_TYPE, "filter_type");
    (ATTR_ILLUMINANCE, "illuminance");
    (ATTR_MOTOR2_SPEED, "motor2_speed");
    (ATTR_VOLUME, "volume");
    (ATTR_AUTO_DETECT, "auto_detect");
    (ATTR_SLEEP_TIME, "sleep_time");
    (ATTR_SLEEP_LEARN_COUNT, "sleep_mode_learn_count")].

Definition AVAILABLE_ATTRIBUTES_AIRPURIFIER_PRO_V7 : gmap string string :=
  dict_display AVAILABLE_ATTRIBUTES_AIRPURIFIER_COMMON [
    (ATTR_FILTER_RFID_PRODUCT_ID, "filter_rfid_product_id");
    (ATTR_FILTER_RFID_TAG, "filter_rfid_tag");
    (ATTR_FILTER_TYPE, "filter_type");
    (ATTR_ILLUMINANCE, "illuminance");
    (ATTR_MOTOR2_SPEED, "motor2_speed");
    (ATTR_VOLUME, "volume")].

Definition AVAILABLE_ATTRIBUTES_AIRPURIFIER_2S : gmap string string :=
  dict_display AVAILABLE_ATTRIBUTES_AIRPURIFIER_COMMON [
    (ATTR_BUZZER, "buzzer");
    (ATTR_FILTER_RFID_PRODUCT_ID, "filter_rfid_product_id");
    (ATTR_FILTER_RFID_TAG, "filter_rfid_tag");
    (ATTR_FILTER_TYPE, "filter_type");
    (ATTR_ILLUMINANCE, "illuminance")].

Definition AVAILABLE_ATTRIBUTES_AIRPURIFIER_3 : gmap string string :=
  dict_display ∅ [
    (ATTR_TEMPERATURE K, "temperature");
    (ATTR_HUMIDITY, "humidity");
    (ATTR_AIR_QUALITY_INDEX, "aqi");
    (ATTR_MODE K, "mode");
    (ATTR_FILTER_HOURS_USED, "filter_hours_used");
    (ATTR_FILTER_LIFE, "filter_life_remaining");
    (ATTR_FAVORITE_LEVEL, "favorite_level");
    (ATTR_CHILD_LOCK, "child_lock");
    (ATTR_LED, "led");
    (ATTR_MOTOR_SPEED, "motor_speed");
    (ATTR_AVERAGE_AIR_QUALITY_INDEX, "average_aqi");
    (ATTR_PURIFY_VOLUME, "purify_volume");
    (ATTR_USE_TIME, "use_time");
    (ATTR_BUZZER, "buzzer");
    (ATTR_LED_BRIGHTNESS, "led_brightness");
    (ATTR_FILTER_RFID_PRODUCT_ID, "filter_rfid_product_id");
    (ATTR_FILTER_RFID_TAG, "filter_rfid_tag");
    (ATTR_FILTER_TYPE, "filter_type");
    (ATTR_FAN_LEVEL, "fan_level")].

Definition AVAILABLE_ATTRIBUTES_AIRPURIFIER_3C : gmap string string :=
  dict_display ∅ [
    (ATTR_AIR_QUALITY_INDEX, "aqi");
    (ATTR_MODE K, "mode");
    (ATTR_FILTER_HOURS_USED, "filter_hours_used");
    (ATTR_FILTER_LIFE, "filter_life_remaining");
    (ATTR_FAVORITE_LEVEL, "favorite_rpm");
    (ATTR_CHILD_LOCK, "child_lock");
    (ATTR_MOTOR_SPEED, "motor_speed");
    (ATTR_BUZZER, "buzzer");
    (ATTR_LED_BRIGHTNESS, "led_brightness_level")].

Definition AVAILABLE_ATTRIBUTES_AIRPURIFIER_V3 : gmap string string :=
  dict_display ∅ [
    (ATTR_AIR_QUALITY_INDEX, "aqi");
    (ATTR_MODE K, "mode");
    (ATTR_LED, "led");
    (ATTR_BUZZER, "buzzer");
    (ATTR_CHILD_LOCK, "child_lock");
    (ATTR_ILLUMINANCE, "illuminance");
    (ATTR_FILTER_HOURS_USED, "filter_hours_used");
    (ATTR_FILTER_LIFE, "filter_life_remaining");
    (ATTR_MOTOR_SPEED, "motor_speed");
    (ATTR_AVERAGE_AIR_QUALITY_INDEX, "average_aqi");
    (ATTR_VOLUME, "volume");
    (ATTR_MOTOR2_SPEED, "motor2_speed");
    (ATTR_FILTER_RFID_PRODUCT_ID, "filter_rfid_product_id");
    (ATTR_FILTER_RFID_TAG, "filter_rfid_tag");
    (ATTR_FILTER_TYPE, "filter_type");
    (ATTR_PURIFY_VOLUME, "purify_volume");
    (ATTR_LEARN_MODE, "learn_mode");
    (ATTR_SLEEP_TIME, "sleep_time");
    (ATTR_SLEEP_LEARN_COUNT, "sleep_mode_learn_count");
    (ATTR_EXTRA_FEATURES, "extra_features");
    (ATTR_AUTO_DETECT, "auto_detect");
    (ATTR_USE_TIME, "use_time");
    (ATTR_BUTTON_PRESSED, "button_pressed")].

Definition AVAILABLE_ATTRIBUTES_AIRHUMIDIFIER_COMMON : gmap string string :=
  dict_display ∅ [
    (ATTR_TEMPERATURE K, "temperature");
    (ATTR_HUMIDITY, "humidity");
    (ATTR_MODE K, "mode");
    (ATTR_BUZZER, "buzzer");
    (ATTR_CHILD_LOCK, "child_lock");
    (ATTR_TARGET_HUMIDITY, "target_humidity");
    (ATTR_LED_BRIGHTNESS, "led_brightness");
    (ATTR_USE_TIME, "use_time")].

Definition AVAILABLE_ATTRIBUTES_AIRHUMIDIFIER : gmap string string :=
  dict_display AVAILABLE_ATTRIBUTES_AIRHUMIDIFIER_COMMON [
    (ATTR_TRANS_LEVEL, "trans_level");
    (ATTR_BUTTON_PRESSED, "button_pressed");
    (ATTR_HARDWARE_VERSION, "hardware_version")].

Definition AVAILABLE_ATTRIBUTES_AIRHUMIDIFIER_CA_AND_CB : gmap string string :=
  dict_display AVAILABLE_ATTRIBUTES_AIRHUMIDIFIER_COMMON [
    (ATTR_MOTOR_SPEED, "motor_speed");
    (ATTR_DEPTH, "depth");
    (ATTR_DRY, "dry");
    (ATTR_HARDWARE_VERSION, "hardware_version")].

Definition AVAILABLE_ATTRIBUTES_AIRHUMIDIFIER_CA4 : gmap string string :=
  dict_display AVAILABLE_ATTRIBUTES_AIRHUMIDIFIER_COMMON [
    (ATTR_ACTUAL_MOTOR_SPEED, "actual_speed");
    (ATTR_BUTTON_PRESSED, "button_pressed");
    (ATTR_DRY, "dry");
    (ATTR_FAHRENHEIT, "fahrenheit");
    (ATTR_MOTOR_SPEED, "motor_speed")].

Definition AVAILABLE_ATTRIBUTES_AIRFRESH : gmap string string :=
  dict_display ∅ [
    (ATTR_TEMPERATURE K, "temperature");
    (ATTR_AIR_QUALITY_INDEX, "aqi");
    (ATTR_AVERAGE_AIR_QUALITY_INDEX, "average_aqi");
    (ATTR_CO2, "co2");
    (ATTR_HUMIDITY, "humidity");
    (ATTR_MODE K, "mode");
    (ATTR_LED, "led");
    (ATTR_LED_BRIGHTNESS, "led_brightness");
    (ATTR_BUZZER, "buzzer");
    (ATTR_CHILD_LOCK, "child_lock");
    (ATTR_FILTER_LIFE, "filter_life_remaining");
    (ATTR_FILTER_HOURS_USED, "filter_hours_used");
    (ATTR_USE_TIME, "use_time");
    (ATTR_MOTOR_SPEED, "motor_speed");
    (ATTR_EXTRA_FEATURES, "extra_features")].

End Tables.

Definition OPERATION_MODES_AIRPURIFIER := ["Auto"; "Silent"; "Favorite"; "Idle"].
Definition OPERATION_MODES_AIRPURIFIER_PRO := ["Auto"; "Silent"; "Favorite"].
Definition OPERATION_MODES_AIRPURIFIER_PRO_V7 := OPERATION_MODES_AIRPURIFIER_PRO.
Definition OPERATION_MODES_AIRPURIFIER_2S := ["Auto"; "Silent"; "Favorite"].
Definition OPERATION_MODES_AIRPURIFIER_3 := ["Auto"; "Silent"; "Favorite"; "Fan"].
Definition OPERATION_MODES_AIRPURIFIER_V3 :=
  ["Auto"; "Silent"; "Favorite"; "Idle"; "Medium"; "High"; "Strong"].
Definition OPERATION_MODES_AIRPURIFIER_3C := ["Auto"; "Silent"; "Favorite"].
Definition OPERATION_MODES_AIRFRESH :=
  ["Auto"; "Silent"; "Interval"; "Low"; "Middle"; "Strong"].

Definition SUCCESS : PyVal := VList [VStr "ok"].

Definition FEATURE_SET_BUZZER := 1.
Definition FEATURE_SET_LED := 2.
Definition FEATURE_SET_CHILD_LOCK := 4.
Definition FEATURE_SET_LED_BRIGHTNESS := 8.
Definition FEATURE_SET_FAVORITE_LEVEL := 16.
Definition FEATURE_SET_AUTO_DETECT := 32.
Definition FEATURE_SET_LEARN_MODE := 64.
Definition FEATURE_SET_VOLUME := 128.
Definition FEATURE_RESET_FILTER := 256.
Definition FEATURE_SET_EXTRA_FEATURES := 512.
Definition FEATURE_SET_TARGET_HUMIDITY := 1024.
Definition FEATURE_SET_DRY := 2048.
Definition FEATURE_SET_FAN_LEVEL := 4096.
Definition FEATURE_SET_MOTOR_SPEED := 8192.

Infix "|'" := Z.lor (at level 50, left associativity).
Infix "&'" := Z.land (at level 40, left associativity).

Definition FEATURE_FLAGS_AIRPURIFIER :=
  FEATURE_SET_BUZZER
  |' FEATURE_SET_CHILD_LOCK
  |' FEATURE_SET_LED
  |' FEATURE_SET_LED_BRIGHTNESS
  |' FEATURE_SET_FAVORITE_LEVEL
  |' FEATURE_SET_LEARN_MODE
  |' FEATURE_RESET_FILTER
  |' FEATURE_SET_EXTRA_FEATURES.

Definition FEATURE_FLAGS_AIRPURIFIER_PRO :=
  FEATURE_SET_CHILD_LOCK
  |' FEATURE_SET_LED
  |' FEATURE_SET_FAVORITE_LEVEL
  |' FEATURE_SET_AUTO_DETECT
  |' FEATURE_SET_VOLUME.

Definition FEATURE_FLAGS_AIRPURIFIER_PRO_V7 :=
  FEATURE_SET_CHILD_LOCK
  |' FEATURE_SET_LED
  |' FEATURE_SET_FAVORITE_LEVEL
  |' FEATURE_SET_VOLUME.

Definition FEATURE_FLAGS_AIRPURIFIER_2S :=
  FEATURE_SET_BUZZER
  |' FEATURE_SET_CHILD_LOCK
  |' FEATURE_SET_LED
  |' FEATURE_SET_FAVORITE_LEVEL.

Definition FEATURE_FLAGS_AIRPURIFIER_3 :=
  FEATURE_SET_BUZZER
  |' FEATURE_SET_CHILD_LOCK
  |' FEATURE_SET_LED
  |' FEATURE_SET_FAVORITE_LEVEL
  |' FEATURE_SET_FAN_LEVEL
  |' FEATURE_SET_LED_BRIGHTNESS.

Definition FEATURE_FLAGS_AIRPURIFIER_3C :=
  FEATURE_SET_BUZZER
  |' FEATURE_SET_CHILD_LOCK
  |' FEATURE_SET_LED
  |' FEATURE_SET_FAVORITE_LEVEL
  |' FEATURE_SET_FAN_LEVEL
  |' FEATURE_SET_LED_BRIGHTNESS.

Definition FEATURE_FLAGS_AIRPURIFIER_V3 :=
  FEATURE_SET_BUZZER |' FEATURE_SET_CHILD_LOCK |' FEATURE_SET_LED.

Definition FEATURE_FLAGS_AIRHUMIDIFIER :=
  FEATURE_SET_BUZZER
  |' FEATURE_SET_CHILD_LOCK
  |' FEATURE_SET_LED
  |' FEATURE_SET_LED_BRIGHTNESS
  |' FEATURE_SET_TARGET_HUMIDITY.

Definition FEATURE_FLAGS_AIRHUMIDIFIER_CA_AND_CB :=
  FEATURE_FLAGS_AIRHUMIDIFIER |' FEATURE_SET_DRY.

Definition FEATURE_FLAGS_AIRHUMIDIFIER_CA4 :=
  FEATURE_SET_BUZZER
  |' FEATURE_SET_CHILD_LOCK
  |' FEATURE_SET_LED_BRIGHTNESS
  |' FEATURE_SET_TARGET_HUMIDITY
  |' FEATURE_SET_DRY
  |' FEATURE_SET_MOTOR_SPEED.

Definition FEATURE_FLAGS_AIRFRESH :=
  FEATURE_SET_BUZZER
  |' FEATURE_SET_CHILD_LOCK
  |' FEATURE_SET_LED
  |' FEATURE_SET_LED_BRIGHTNESS
  |' FEATURE_RESET_FILTER
  |' FEATURE_SET_EXTRA_FEATURES.

(** ** Entities *)

(** The entity classes defined by fan.py that the setup instantiates. *)
Inductive EntityClass : Type :=
| XiaomiAirPurifier
| XiaomiAirPurifierMiot
| XiaomiAirHumidifier
| XiaomiAirHumidifierMiot
| XiaomiAirFresh.

(** The instance attributes of an entity.  [_state] is [None] until the
    first successful poll. *)
Record Entity : Type := {
  class_ : EntityClass;
  entity_id : string;
  _device : miio.Device;
  _model : string;
  _available : bool;
  _state : option bool;
  _state_attrs : gmap string PyVal;
  _device_features : Z;
  _skip_update : bool;
  _available_attributes : gmap string string;
  _speed_list : list string;
}.

Definition set__available (b : bool) (e : Entity) : Entity :=
  {| class_ := class_ e; entity_id := entity_id e; _device := _device e;
     _model := _model e; _available := b; _state := _state e;
     _state_attrs := _state_attrs e; _device_features := _device_features e;
     _skip_update := _skip_update e;
     _available_attributes := _available_attributes e;
     _speed_list := _speed_list e |}.

Definition set__state (s : option bool) (e : Entity) : Entity :=
  {| class_ := class_ e; entity_id := entity_id e; _device := _device e;
     _model := _model e; _available := _available e; _state := s;
     _state_attrs := _state_attrs e; _device_features := _device_features e;
     _skip_update := _skip_update e;
     _available_attributes := _available_attributes e;
     _speed_list := _speed_list e |}.

Definition set__state_attrs (a : gmap string PyVal) (e : Entity) : Entity :=
  {| class_ := class_ e; entity_id := entity_id e; _device := _device e;
     _model := _model e; _available := _available e; _state := _state e;
     _state_attrs := a; _device_features := _device_features e;
     _skip_update := _skip_update e;
     _available_attributes := _available_attributes e;
     _speed_list := _speed_list e |}.

Definition set__skip_update (b : bool) (e : Entity) : Entity :=
  {| class_ := class_ e; entity_id := entity_id e; _device := _device e;
     _model := _model e; _available := _available e; _state := _state e;
     _state_attrs := _state_attrs e; _device_features := _device_features e;
     _skip_update := b;
     _available_attributes := _available_attributes e;
     _speed_list := _speed_list e |}.

(** The device behind an entity answers differently over time; replacing it
    stands for that change of the outside world between two operations. *)
Definition with_device (d : miio.Device) (e : Entity) : Entity :=
  {| class_ := class_ e; entity_id := entity_id e; _device := d;
     _model := _model e; _available := _available e; _state := _state e;
     _state_attrs := _state_attrs e; _device_features := _device_features e;
     _skip_update := _skip_update e;
     _available_attributes := _available_attributes e;
     _speed_list := _speed_list e |}.

(** ** The monad of entity methods

    A method runs on [self] and appends to the trace of vendor calls and log
    records; it returns a value or raises, and the mutations made before an
    exception stay. *)
Record Run : Type := { self : Entity; trace : list Event }.

Definition M (A : Type) : Type := Run -> Res A * Run.

Definition ret {A} (a : A) : M A := fun r => (Ret a, r).
Definition raise {A} (e : PyExc) : M A := fun r => (Raise e, r).
Definition bind {A B} (m : M A) (k : A -> M B) : M B :=
  fun r => match m r with
           | (Ret a, r') => k a r'
           | (Raise e, r') => (Raise e, r')
           end.
Definition lift {A} (x : Res A) : M A := fun r => (x, r).

Notation "'let!' x ':=' m 'in' k" := (bind m (fun x => k))
  (at level 10, x name, m at level 100, k at level 200).
Notation "m ';;;' k" := (bind m (fun _ => k))
  (at level 100, right associativity).

Definition get {A} (field : Entity -> A) : M A := fun r => (Ret (field (self r)), r).
Definition modify (f : Entity -> Entity) : M unit :=
  fun r => (Ret tt, {| self := f (self r); trace := trace r |}).
Definition emit (ev : Event) : M unit :=
  fun r => (Ret tt, {| self := self r; trace := trace r ++ [ev] |}).

(** [try: body except E as exc: handler], for the exceptions selected by
    [catches]. *)
Definition try_except {A} (body : M A) (catches : PyExc -> bool)
    (handler : PyExc -> M A) : M A :=
  fun r => match body r with
           | (Raise e, r') => if catches e then handler e r' else (Raise e, r')
           | done => done
           end.

Module _LOGGER.
Definition debug (msg : string) : M unit := emit (Log DEBUG msg).
Definition error (msg : string) : M unit := emit (Log ERROR msg).
End _LOGGER.

(** [await self.hass.async_add_executor_job(partial(func, *args))]: the
    blocking vendor call is run and its result or exception comes back to the
    caller. *)
Definition async_add_executor_job (func : miio.Call) : M PyVal :=
  let! device := get _device in
  let result := miio.command device func in
  emit (Command func result) ;;;
  lift result.

(** [await self.hass.async_add_executor_job(self._device.status)]. *)
Definition async_add_executor_job_status : M miio.Status :=
  let! device := get _device in
  let result := miio.status device in
  emit (StatusRead result) ;;;
  lift result.

(** ** class XiaomiGenericDevice *)

Module XiaomiGenericDevice.

(** [XiaomiGenericDevice.__init__].

    Modelled from the spec: the base class [XiaomiMiioEntity] of [.device]
    is not part of this file; the variant of an entity is chosen "at
    device-entity construction from a model string", so its constructor is
    taken to store the model string of the config entry as [_model]. *)
Definition __init__ (cls : EntityClass) (id : string)
    (device : miio.Device) (model : string) : Entity :=
  {| class_ := cls; entity_id := id; _device := device; _model := model;
     _available := false;
     _state := None;
     _state_attrs := dict_display ∅ [(ATTR_MODEL, VStr model)];
     _device_features := FEATURE_SET_CHILD_LOCK;
     _skip_update := false;
     _available_attributes := ∅;
     _speed_list := [] |}.

Definition supported_features (K : Consts) : M Z := ret (SUPPORT_SET_SPEED K).

Definition _extract_value_from_attribute (state : miio.Status)
    (attribute : string) : Res PyVal :=
  match miio.fields state !! attribute with
  | None => Raise (AttributeError attribute)
  | Some (VEnum _ _ value) => Ret value
  | Some value => Ret value
  end.

Definition _try_command (mask_error : string) (func : miio.Call) : M bool :=
  try_except
    (let! result := async_add_executor_job func in
     _LOGGER.debug "Response received from miio device: %s" ;;;
     ret (py_eqb result SUCCESS))
    is_DeviceException
    (fun exc =>
       let! available := get _available in
       (if available then
          _LOGGER.error mask_error ;;;
          modify (set__available false)
        else ret tt) ;;;
       ret false).

(** Truth value of the [result] tested by [async_turn_on]. *)
Definition truthy (v : PyVal) : bool :=
  match v with
  | VNone => false
  | VBool b => b
  | VInt n => negb (n =? 0)%Z
  | VStr s => negb (String.eqb s "")
  | VList xs => match xs with [] => false | _ => true end
  | VEnum _ _ _ => true
  end.

(** [async_set_speed] is the method of the entity's own class; none of its
    definitions has a [return] statement, so the call evaluates to [None]. *)
Definition async_turn_on (async_set_speed : string -> M unit)
    (speed : option string) : M unit :=
  let! result :=
    match speed with
    | Some (String _ _ as speed) =>
        async_set_speed speed ;;;
        ret VNone
    | _ =>
        let! result :=
          _try_command "Turning the miio device on failed." miio.on in
        ret (VBool result)
    end in
  if truthy result then
    modify (set__state (Some true)) ;;;
    modify (set__skip_update true)
  else ret tt.

Definition async_turn_off : M unit :=
  let! result := _try_command "Turning the miio device off failed." miio.off in
  if result then
    modify (set__state (Some false)) ;;;
    modify (set__skip_update true)
  else ret tt.

Definition async_set_buzzer_on : M unit :=
  let! features := get _device_features in
  if (features &' FEATURE_SET_BUZZER =? 0)%Z then ret tt
  else
    _try_command "Turning the buzzer of the miio device on failed."
      (miio.set_buzzer true) ;;;
    ret tt.

Definition async_set_buzzer_off : M unit :=
  let! features := get _device_features in
  if (features &' FEATURE_SET_BUZZER =? 0)%Z then ret tt
  else
    _try_command "Turning the buzzer of the miio device off failed."
      (miio.set_buzzer false) ;;;
    ret tt.

Definition async_set_child_lock_on : M unit :=
  let! features := get _device_features in
  if (features &' FEATURE_SET_CHILD_LOCK =? 0)%Z then ret tt
  else
    _try_command "Turning the child lock of the miio device on failed."
      (miio.set_child_lock true) ;;;
    ret tt.

Definition async_set_child_lock_off : M unit :=
  let! features := get _device_features in
  if (features &' FEATURE_SET_CHILD_LOCK =? 0)%Z then ret tt
  else
    _try_command "Turning the child lock of the miio device off failed."
      (miio.set_child_lock false) ;;;
    ret tt.

End XiaomiGenericDevice.

(** A bound method as the service handler sees it: no parameter, or one
    keyword parameter with its default value. *)
Inductive Method : Type :=
| Method0 (body : M unit)
| Method1 (param : string) (default : Z) (body : Z -> M unit).

(** [d.update(other)]. *)
Definition dict_update {V : Type} (other d : gmap string V) : gmap string V :=
  other ∪ d.

(** [{key: f(value) for key, value in items}], evaluated from left to
    right; the first exception ends the evaluation. *)
Fixpoint dict_comprehension {A B : Type} (f : A -> Res B)
    (items : list (string * A)) (acc : gmap string B) : Res (gmap string B) :=
  match items with
  | [] => Ret acc
  | (key, value) :: rest =>
      match f value with
      | Ret v => dict_comprehension f rest (<[key := v]> acc)
      | Raise e => Raise e
      end
  end.

(** [x in [a, b, ...]] and [x in LIST] on strings. *)
Definition py_in (x : string) (l : list string) : bool :=
  existsb (String.eqb x) l.

(** ** class XiaomiAirPurifier *)

Module XiaomiAirPurifier.

Definition __init__ (K : Consts) (cls : EntityClass) (id : string)
    (device : miio.Device) (model : string) : Entity :=
  let self := XiaomiGenericDevice.__init__ cls id device model in
  let '(features, attributes, speeds) :=
    if String.eqb (_model self) (MODEL_AIRPURIFIER_PRO K) then
      (FEATURE_FLAGS_AIRPURIFIER_PRO,
       AVAILABLE_ATTRIBUTES_AIRPURIFIER_PRO K,
       OPERATION_MODES_AIRPURIFIER_PRO)
    else if String.eqb (_model self) (MODEL_AIRPURIFIER_PRO_V7 K) then
      (FEATURE_FLAGS_AIRPURIFIER_PRO_V7,
       AVAILABLE_ATTRIBUTES_AIRPURIFIER_PRO_V7 K,
       OPERATION_MODES_AIRPURIFIER_PRO_V7)
    else if String.eqb (_model self) (MODEL_AIRPURIFIER_2S K) then
      (FEATURE_FLAGS_AIRPURIFIER_2S,
       AVAILABLE_ATTRIBUTES_AIRPURIFIER_2S K,
       OPERATION_MODES_AIRPURIFIER_2S)
    else if String.eqb (_model self) (MODEL_AIRPURIFIER_3 K)
            || String.eqb (_model self) (MODEL_AIRPURIFIER_3H K) then
      (FEATURE_FLAGS_AIRPURIFIER_3,
       AVAILABLE_ATTRIBUTES_AIRPURIFIER_3 K,
       OPERATION_MODES_AIRPURIFIER_3)
    else if String.eqb (_model self) (MODEL_AIRPURIFIER_V3 K) then
      (FEATURE_FLAGS_AIRPURIFIER_V3,
       AVAILABLE_ATTRIBUTES_AIRPURIFIER_V3 K,
       OPERATION_MODES_AIRPURIFIER_V3)
    else if String.eqb (_model self) (MODEL_AIRPURIFIER_3C K) then
      (FEATURE_FLAGS_AIRPURIFIER_3C,
       AVAILABLE_ATTRIBUTES_AIRPURIFIER_3C K,
       OPERATION_MODES_AIRPURIFIER_3C)
    else
      (FEATURE_FLAGS_AIRPURIFIER,
       AVAILABLE_ATTRIBUTES_AIRPURIFIER K,
       OPERATION_MODES_AIRPURIFIER) in
  {| class_ := class_ self; entity_id := entity_id self;
     _device := _device self; _model := _model self;
     _available := _available self; _state := _state self;
     _state_attrs :=
       dict_update ((fun _ => VNone) <$> attributes) (_state_attrs self);
     _device_features := features;
     _skip_update := _skip_update self;
     _available_attributes := attributes;
     _speed_list := speeds |}.

Definition async_update : M unit :=
  let! skip := get _skip_update in
  if skip then modify (set__skip_update false)
  else
    try_except
      (let! state := async_add_executor_job_status in
       _LOGGER.debug "Got new state: %s" ;;;
       modify (set__available true) ;;;
       modify (set__state (Some (miio.is_on state))) ;;;
       let! attributes := get _available_attributes in
       let! values :=
         lift (dict_comprehension
                 (XiaomiGenericDevice._extract_value_from_attribute state)
                 (map_to_list attributes) ∅) in
       let! attrs := get _state_attrs in
       modify (set__state_attrs (dict_update values attrs)))
      is_DeviceException
      (fun ex =>
         let! available := get _available in
         if available then
           modify (set__available false) ;;;
           _LOGGER.error "Got exception while fetching the state: %s"
         else ret tt).

Definition async_set_speed (K : Consts) (speed : string) : M unit :=
  let! supported := XiaomiGenericDevice.supported_features K in
  if (supported &' SUPPORT_SET_SPEED K =? 0)%Z then ret tt
  else
    _LOGGER.debug "Setting the operation mode to: %s" ;;;
    let! mode := lift (enum_getitem miio.AirpurifierOperationMode (title speed)) in
    XiaomiGenericDevice._try_command
      "Setting operation mode of the miio device failed."
      (miio.set_mode mode) ;;;
    ret tt.

Definition async_set_led_on : M unit :=
  let! features := get _device_features in
  if (features &' FEATURE_SET_LED =? 0)%Z then ret tt
  else
    XiaomiGenericDevice._try_command
      "Turning the led of the miio device off failed." (miio.set_led true) ;;;
    ret tt.

Definition async_set_led_off : M unit :=
  let! features := get _device_features in
  if (features &' FEATURE_SET_LED =? 0)%Z then ret tt
  else
    XiaomiGenericDevice._try_command
      "Turning the led of the miio device off failed." (miio.set_led false) ;;;
    ret tt.

Definition async_set_led_brightness (brightness : Z) : M unit :=
  let! features := get _device_features in
  if (features &' FEATURE_SET_LED_BRIGHTNESS =? 0)%Z then ret tt
  else
    let! level :=
      lift (enum_call miio.AirpurifierLedBrightness (VInt brightness)) in
    XiaomiGenericDevice._try_command
      "Setting the led brightness of the miio device failed."
      (miio.set_led_brightness level) ;;;
    ret tt.

Definition async_set_favorite_level (level : Z) : M unit :=
  let! features := get _device_features in
  if (features &' FEATURE_SET_FAVORITE_LEVEL =? 0)%Z then ret tt
  else
    XiaomiGenericDevice._try_command
      "Setting the favorite level of the miio device failed."
      (miio.set_favorite_level level) ;;;
    ret tt.

Definition async_set_fan_level (level : Z) : M unit :=
  let! features := get _device_features in
  if (features &' FEATURE_SET_FAN_LEVEL =? 0)%Z then ret tt
  else
    XiaomiGenericDevice._try_command
      "Setting the fan level of the miio device failed."
      (miio.set_fan_level level) ;;;
    ret tt.

Definition async_set_auto_detect_on : M unit :=
  let! features := get _device_features in
  if (features &' FEATURE_SET_AUTO_DETECT =? 0)%Z then ret tt
  else
    XiaomiGenericDevice._try_command
      "Turning the auto detect of the miio device on failed."
      (miio.set_auto_detect true) ;;;
    ret tt.

Definition async_set_auto_detect_off : M unit :=
  let! features := get _device_features in
  if (features &' FEATURE_SET_AUTO_DETECT =? 0)%Z then ret tt
  else
    XiaomiGenericDevice._try_command
      "Turning the auto detect of the miio device off failed."
      (miio.set_auto_detect false) ;;;
    ret tt.

Definition async_set_learn_mode_on : M unit :=
  let! features := get _device_features in
  if (features &' FEATURE_SET_LEARN_MODE =? 0)%Z then ret tt
  else
    XiaomiGenericDevice._try_command
      "Turning the learn mode of the miio device on failed."
      (miio.set_learn_mode true) ;;;
    ret tt.

Definition async_set_learn_mode_off : M unit :=
  let! features := get _device_features in
  if (features &' FEATURE_SET_LEARN_MODE =? 0)%Z then ret tt
  else
    XiaomiGenericDevice._try_command
      "Turning the learn mode of the miio device off failed."
      (miio.set_learn_mode false) ;;;
    ret tt.

Definition async_set_volume (volume : Z) : M unit :=
  let! features := get _device_features in
  if (features &' FEATURE_SET_VOLUME =? 0)%Z then ret tt
  else
    XiaomiGenericDevice._try_command
      "Setting the sound volume of the miio device failed."
      (miio.set_volume volume) ;;;
    ret tt.

Definition async_set_extra_features (features : Z) : M unit :=
  let! device_features := get _device_features in
  if (device_features &' FEATURE_SET_EXTRA_FEATURES =? 0)%Z then ret tt
  else
    XiaomiGenericDevice._try_command
      "Setting the extra features of the miio device failed."
      (miio.set_extra_features features) ;;;
    ret tt.

Definition async_reset_filter : M unit :=
  let! features := get _device_features in
  if (features &' FEATURE_RESET_FILTER =? 0)%Z then ret tt
  else
    XiaomiGenericDevice._try_command
      "Resetting the filter lifetime of the miio device failed."
      miio.reset_filter ;;;
    ret tt.

(** The [speed] property: the name of the mode reported by the last poll
    while the device is on, [None] otherwise. *)
Definition speed (K : Consts) (self : Entity) : Res PyVal :=
  match _state self with
  | Some true =>
      match _state_attrs self !! ATTR_MODE K with
      | None => Raise (KeyError (ATTR_MODE K))
      | Some mode =>
          match enum_call miio.AirpurifierOperationMode mode with
          | Ret member => Ret (VStr (enum_member_name member))
          | Raise e => Raise e
          end
      end
  | _ => Ret VNone
  end.

(** The [speed_list] property. *)
Definition speed_list (self : Entity) : list string := _speed_list self.

End XiaomiAirPurifier.

(** ** class XiaomiAirPurifierMiot(XiaomiAirPurifier) *)

Module XiaomiAirPurifierMiot.

Definition async_set_speed (K : Consts) (speed : string) : M unit :=
  let! supported := XiaomiGenericDevice.supported_features K in
  if (supported &' SUPPORT_SET_SPEED K =? 0)%Z then ret tt
  else
    _LOGGER.debug "Setting the operation mode to: %s" ;;;
    let! mode :=
      lift (enum_getitem miio.AirpurifierMiotOperationMode (title speed)) in
    XiaomiGenericDevice._try_command
      "Setting operation mode of the miio device failed."
      (miio.set_mode mode) ;;;
    ret tt.

Definition async_set_led_brightness (brightness : Z) : M unit :=
  let! features := get _device_features in
  if (features &' FEATURE_SET_LED_BRIGHTNESS =? 0)%Z then ret tt
  else
    let! level :=
      lift (enum_call miio.AirpurifierMiotLedBrightness (VInt brightness)) in
    XiaomiGenericDevice._try_command
      "Setting the led brightness of the miio device failed."
      (miio.set_led_brightness level) ;;;
    ret tt.

(** The [speed] property: the name of the mode reported by the last poll
    while the device is on, [None] otherwise. *)
Definition speed (K : Consts) (self : Entity) : Res PyVal :=
  match _state self with
  | Some true =>
      match _state_attrs self !! ATTR_MODE K with
      | None => Raise (KeyError (ATTR_MODE K))
      | Some mode =>
          match enum_call miio.AirpurifierMiotOperationMode mode with
          | Ret member => Ret (VStr (enum_member_name member))
          | Raise e => Raise e
          end
      end
  | _ => Ret VNone
  end.

End XiaomiAirPurifierMiot.

(** ** class XiaomiAirHumidifier *)

Module XiaomiAirHumidifier.

(** [[mode.name for mode in E if mode is not E.Excluded]]. *)
Definition names_except (E : PyEnum) (excluded : string) : list string :=
  map fst
    (List.filter
       (fun nv => negb (py_eqb (member_of E nv) (enum_attr E excluded)))
       (members E)).

Definition __init__ (K : Consts) (cls : EntityClass) (id : string)
    (device : miio.Device) (model : string) : Entity :=
  let self := XiaomiGenericDevice.__init__ cls id device model in
  let '(features, attributes, speeds) :=
    if py_in (_model self)
         [MODEL_AIRHUMIDIFIER_CA1 K; MODEL_AIRHUMIDIFIER_CB1 K] then
      (FEATURE_FLAGS_AIRHUMIDIFIER_CA_AND_CB,
       AVAILABLE_ATTRIBUTES_AIRHUMIDIFIER_CA_AND_CB K,
       names_except miio.AirhumidifierOperationMode "Strong")
    else if py_in (_model self) [MODEL_AIRHUMIDIFIER_CA4 K] then
      (FEATURE_FLAGS_AIRHUMIDIFIER_CA4,
       AVAILABLE_ATTRIBUTES_AIRHUMIDIFIER_CA4 K,
       [SPEED_LOW K; SPEED_MEDIUM K; SPEED_HIGH K])
    else
      (FEATURE_FLAGS_AIRHUMIDIFIER,
       AVAILABLE_ATTRIBUTES_AIRHUMIDIFIER K,
       names_except miio.AirhumidifierOperationMode "Auto") in
  {| class_ := class_ self; entity_id := entity_id self;
     _device := _device self; _model := _model self;
     _available := _available self; _state := _state self;
     _state_attrs :=
       dict_update ((fun _ => VNone) <$> attributes) (_state_attrs self);
     _device_features := features;
     _skip_update := _skip_update self;
     _available_attributes := attributes;
     _speed_list := speeds |}.

Definition async_update : M unit :=
  let! skip := get _skip_update in
  if skip then modify (set__skip_update false)
  else
    try_except
      (let! state := async_add_executor_job_status in
       _LOGGER.debug "Got new state: %s" ;;;
       modify (set__available true) ;;;
       modify (set__state (Some (miio.is_on state))) ;;;
       let! attributes := get _available_attributes in
       let! values :=
         lift (dict_comprehension
                 (XiaomiGenericDevice._extract_value_from_attribute state)
                 (map_to_list attributes) ∅) in
       let! attrs := get _state_attrs in
       modify (set__state_attrs (dict_update values attrs)))
      is_DeviceException
      (fun ex =>
         let! available := get _available in
         if available then
           modify (set__available false) ;;;
           _LOGGER.error "Got exception while fetching the state: %s"
         else ret tt).

Definition async_set_speed (K : Consts) (speed : string) : M unit :=
  let! supported := XiaomiGenericDevice.supported_features K in
  if (supported &' SUPPORT_SET_SPEED K =? 0)%Z then ret tt
  else
    _LOGGER.debug "Setting the operation mode to: %s" ;;;
    let! mode :=
      lift (enum_getitem miio.AirhumidifierOperationMode (title speed)) in
    XiaomiGenericDevice._try_command
      "Setting operation mode of the miio device failed."
      (miio.set_mode mode) ;;;
    ret tt.

Definition async_set_led_brightness (brightness : Z) : M unit :=
  let! features := get _device_features in
  if (features &' FEATURE_SET_LED_BRIGHTNESS =? 0)%Z then ret tt
  else
    let! level :=
      lift (enum_call miio.AirhumidifierLedBrightness (VInt brightness)) in
    XiaomiGenericDevice._try_command
      "Setting the led brightness of the miio device failed."
      (miio.set_led_brightness level) ;;;
    ret tt.

Definition async_set_target_humidity (humidity : Z) : M unit :=
  let! features := get _device_features in
  if (features &' FEATURE_SET_TARGET_HUMIDITY =? 0)%Z then ret tt
  else
    XiaomiGenericDevice._try_command
      "Setting the target humidity of the miio device failed."
      (miio.set_target_humidity humidity) ;;;
    ret tt.

Definition async_set_dry_on : M unit :=
  let! features := get _device_features in
  if (features &' FEATURE_SET_DRY =? 0)%Z then ret tt
  else
    XiaomiGenericDevice._try_command
      "Turning the dry mode of the miio device off failed."
      (miio.set_dry true) ;;;
    ret tt.

Definition async_set_dry_off : M unit :=
  let! features := get _device_features in
  if (features &' FEATURE_SET_DRY =? 0)%Z then ret tt
  else
    XiaomiGenericDevice._try_command
      "Turning the dry mode of the miio device off failed."
      (miio.set_dry false) ;;;
    ret tt.

(** The [speed] property: the name of the mode reported by the last poll
    while the device is on, [None] otherwise. *)
Definition speed (K : Consts) (self : Entity) : Res PyVal :=
  match _state self with
  | Some true =>
      match _state_attrs self !! ATTR_MODE K with
      | None => Raise (KeyError (ATTR_MODE K))
      | Some mode =>
          match enum_call miio.AirhumidifierOperationMode mode with
          | Ret member => Ret (VStr (enum_member_name member))
          | Raise e => Raise e
          end
      end
  | _ => Ret VNone
  end.

(** The [speed_list] property. *)
Definition speed_list (self : Entity) : list string := _speed_list self.

End XiaomiAirHumidifier.

(** ** class XiaomiAirHumidifierMiot(XiaomiAirHumidifier) *)

Module XiaomiAirHumidifierMiot.

Definition MODE_MAPPING (K : Consts) : list (PyVal * string) :=
  [(enum_attr miio.AirhumidifierMiotOperationMode "Low", SPEED_LOW K);
   (enum_attr miio.AirhumidifierMiotOperationMode "Mid", SPEED_MEDIUM K);
   (enum_attr miio.AirhumidifierMiotOperationMode "High", SPEED_HIGH K)].

(** [{v: k for k, v in MODE_MAPPING.items()}]. *)
Definition REVERSE_MODE_MAPPING (K : Consts) : gmap string PyVal :=
  foldl (fun d kv => <[kv.2 := kv.1]> d) ∅ (MODE_MAPPING K).

Definition async_set_speed (K : Consts) (speed : string) : M unit :=
  let! mode :=
    lift (match REVERSE_MODE_MAPPING K !! speed with
          | Some mode => Ret mode
          | None => Raise (KeyError speed)
          end) in
  XiaomiGenericDevice._try_command
    "Setting operation mode of the miio device failed."
    (miio.set_mode mode) ;;;
  ret tt.

Definition async_set_led_brightness (brightness : Z) : M unit :=
  let! features := get _device_features in
  if (features &' FEATURE_SET_LED_BRIGHTNESS =? 0)%Z then ret tt
  else
    let! level :=
      lift (enum_call miio.AirhumidifierMiotLedBrightness (VInt brightness)) in
    XiaomiGenericDevice._try_command
      "Setting the led brightness of the miio device failed."
      (miio.set_led_brightness level) ;;;
    ret tt.

Definition async_set_motor_speed (motor_speed : Z) : M unit :=
  let! features := get _device_features in
  if (features &' FEATURE_SET_MOTOR_SPEED =? 0)%Z then ret tt
  else
    XiaomiGenericDevice._try_command
      "Setting the target motor speed of the miio device failed."
      (miio.set_speed motor_speed) ;;;
    ret tt.

(** The [speed] property: [MODE_MAPPING.get] of the mode reported by the
    last poll while the device is on, [None] otherwise. *)
Definition speed (K : Consts) (self : Entity) : Res PyVal :=
  match _state self with
  | Some true =>
      match _state_attrs self !! ATTR_MODE K with
      | None => Raise (KeyError (ATTR_MODE K))
      | Some mode =>
          match enum_call miio.AirhumidifierMiotOperationMode mode with
          | Ret member =>
              Ret (match find (fun kv => py_eqb kv.1 member) (MODE_MAPPING K)
                   with
                   | Some kv => VStr kv.2
                   | None => VNone
                   end)
          | Raise e => Raise e
          end
      end
  | _ => Ret VNone
  end.

(** The [button_pressed] property. *)
Definition button_pressed (self : Entity) : Res PyVal :=
  match _state self with
  | Some true =>
      match _state_attrs self !! ATTR_BUTTON_PRESSED with
      | None => Raise (KeyError ATTR_BUTTON_PRESSED)
      | Some button =>
          match enum_call miio.AirhumidifierPressedButton button with
          | Ret member => Ret (VStr (enum_member_name member))
          | Raise e => Raise e
          end
      end
  | _ => Ret VNone
  end.

End XiaomiAirHumidifierMiot.

(** ** class XiaomiAirFresh *)

Module XiaomiAirFresh.

Definition __init__ (K : Consts) (cls : EntityClass) (id : string)
    (device : miio.Device) (model : string) : Entity :=
  let self := XiaomiGenericDevice.__init__ cls id device model in
  let attributes := AVAILABLE_ATTRIBUTES_AIRFRESH K in
  {| class_ := class_ self; entity_id := entity_id self;
     _device := _device self; _model := _model self;
     _available := _available self; _state := _state self;
     _state_attrs :=
       dict_update ((fun _ => VNone) <$> attributes) (_state_attrs self);
     _device_features := FEATURE_FLAGS_AIRFRESH;
     _skip_update := _skip_update self;
     _available_attributes := attributes;
     _speed_list := OPERATION_MODES_AIRFRESH |}.

Definition async_update : M unit :=
  let! skip := get _skip_update in
  if skip then modify (set__skip_update false)
  else
    try_except
      (let! state := async_add_executor_job_status in
       _LOGGER.debug "Got new state: %s" ;;;
       modify (set__available true) ;;;
       modify (set__state (Some (miio.is_on state))) ;;;
       let! attributes := get _available_attributes in
       let! values :=
         lift (dict_comprehension
                 (XiaomiGenericDevice._extract_value_from_attribute state)
                 (map_to_list attributes) ∅) in
       let! attrs := get _state_attrs in
       modify (set__state_attrs (dict_update values attrs)))
      is_DeviceException
      (fun ex =>
         let! available := get _available in
         if available then
           modify (set__available false) ;;;
           _LOGGER.error "Got exception while fetching the state: %s"
         else ret tt).

Definition async_set_speed (K : Consts) (speed : string) : M unit :=
  let! supported := XiaomiGenericDevice.supported_features K in
  if (supported &' SUPPORT_SET_SPEED K =? 0)%Z then ret tt
  else
    _LOGGER.debug "Setting the operation mode to: %s" ;;;
    let! mode := lift (enum_getitem miio.AirfreshOperationMode (title speed)) in
    XiaomiGenericDevice._try_command
      "Setting operation mode of the miio device failed."
      (miio.set_mode mode) ;;;
    ret tt.

Definition async_set_led_on : M unit :=
  let! features := get _device_features in
  if (features &' FEATURE_SET_LED =? 0)%Z then ret tt
  else
    XiaomiGenericDevice._try_command
      "Turning the led of the miio device off failed." (miio.set_led true) ;;;
    ret tt.

Definition async_set_led_off : M unit :=
  let! features := get _device_features in
  if (features &' FEATURE_SET_LED =? 0)%Z then ret tt
  else
    XiaomiGenericDevice._try_command
      "Turning the led of the miio device off failed." (miio.set_led false) ;;;
    ret tt.

Definition async_set_led_brightness (brightness : Z) : M unit :=
  let! features := get _device_features in
  if (features &' FEATURE_SET_LED_BRIGHTNESS =? 0)%Z then ret tt
  else
    let! level :=
      lift (enum_call miio.AirfreshLedBrightness (VInt brightness)) in
    XiaomiGenericDevice._try_command
      "Setting the led brightness of the miio device failed."
      (miio.set_led_brightness level) ;;;
    ret tt.

Definition async_set_extra_features (features : Z) : M unit :=
  let! device_features := get _device_features in
  if (device_features &' FEATURE_SET_EXTRA_FEATURES =? 0)%Z then ret tt
  else
    XiaomiGenericDevice._try_command
      "Setting the extra features of the miio device failed."
      (miio.set_extra_features features) ;;;
    ret tt.

Definition async_reset_filter : M unit :=
  let! features := get _device_features in
  if (features &' FEATURE_RESET_FILTER =? 0)%Z then ret tt
  else
    XiaomiGenericDevice._try_command
      "Resetting the filter lifetime of the miio device failed."
      miio.reset_filter ;;;
    ret tt.

(** The [speed] property: the name of the mode reported by the last poll
    while the device is on, [None] otherwise. *)
Definition speed (K : Consts) (self : Entity) : Res PyVal :=
  match _state self with
  | Some true =>
      match _state_attrs self !! ATTR_MODE K with
      | None => Raise (KeyError (ATTR_MODE K))
      | Some mode =>
          match enum_call miio.AirfreshOperationMode mode with
          | Ret member => Ret (VStr (enum_member_name member))
          | Raise e => Raise e
          end
      end
  | _ => Ret VNone
  end.

(** The [speed_list] property. *)
Definition speed_list (self : Entity) : list string := _speed_list self.

End XiaomiAirFresh.

(** ** Attribute lookup and dynamic dispatch on entities *)

Module entity.

(** The class bodies, restricted to the methods that [SERVICE_TO_METHOD]
    can name, with the defaults of their keyword parameters. *)
Definition XiaomiGenericDevice_dict : list (string * Method) :=
  [("async_set_buzzer_on", Method0 XiaomiGenericDevice.async_set_buzzer_on);
   ("async_set_buzzer_off", Method0 XiaomiGenericDevice.async_set_buzzer_off);
   ("async_set_child_lock_on",
    Method0 XiaomiGenericDevice.async_set_child_lock_on);
   ("async_set_child_lock_off",
    Method0 XiaomiGenericDevice.async_set_child_lock_off)].

Definition XiaomiAirPurifier_dict : list (string * Method) :=
  [("async_set_led_on", Method0 XiaomiAirPurifier.async_set_led_on);
   ("async_set_led_off", Method0 XiaomiAirPurifier.async_set_led_off);
   ("async_set_led_brightness",
    Method1 "brightness" 2 XiaomiAirPurifier.async_set_led_brightness);
   ("async_set_favorite_level",
    Method1 "level" 1 XiaomiAirPurifier.async_set_favorite_level);
   ("async_set_fan_level",
    Method1 "level" 1 XiaomiAirPurifier.async_set_fan_level);
   ("async_set_auto_detect_on",
    Method0 XiaomiAirPurifier.async_set_auto_detect_on);
   ("async_set_auto_detect_off",
    Method0 XiaomiAirPurifier.async_set_auto_detect_off);
   ("async_set_learn_mode_on",
    Method0 XiaomiAirPurifier.async_set_learn_mode_on);
   ("async_set_learn_mode_off",
    Method0 XiaomiAirPurifier.async_set_learn_mode_off);
   ("async_set_volume", Method1 "volume" 50 XiaomiAirPurifier.async_set_volume);
   ("async_set_extra_features",
    Method1 "features" 1 XiaomiAirPurifier.async_set_extra_features);
   ("async_reset_filter", Method0 XiaomiAirPurifier.async_reset_filter)].

Definition XiaomiAirPurifierMiot_dict : list (string * Method) :=
  [("async_set_led_brightness",
    Method1 "brightness" 2 XiaomiAirPurifierMiot.async_set_led_brightness)].

Definition XiaomiAirHumidifier_dict : list (string * Method) :=
  [("async_set_led_brightness",
    Method1 "brightness" 2 XiaomiAirHumidifier.async_set_led_brightness);
   ("async_set_target_humidity",
    Method1 "humidity" 40 XiaomiAirHumidifier.async_set_target_humidity);
   ("async_set_dry_on", Method0 XiaomiAirHumidifier.async_set_dry_on);
   ("async_set_dry_off", Method0 XiaomiAirHumidifier.async_set_dry_off)].

Definition XiaomiAirHumidifierMiot_dict : list (string * Method) :=
  [("async_set_led_brightness",
    Method1 "brightness" 2 XiaomiAirHumidifierMiot.async_set_led_brightness);
   ("async_set_motor_speed",
    Method1 "motor_speed" 400 XiaomiAirHumidifierMiot.async_set_motor_speed)].

Definition XiaomiAirFresh_dict : list (string * Method) :=
  [("async_set_led_on", Method0 XiaomiAirFresh.async_set_led_on);
   ("async_set_led_off", Method0 XiaomiAirFresh.async_set_led_off);
   ("async_set_led_brightness",
    Method1 "brightness" 2 XiaomiAirFresh.async_set_led_brightness);
   ("async_set_extra_features",
    Method1 "features" 1 XiaomiAirFresh.async_set_extra_features);
   ("async_reset_filter", Method0 XiaomiAirFresh.async_reset_filter)].

(** The method resolution order of each class, most derived first. *)
Definition mro (cls : EntityClass) : list (list (string * Method)) :=
  match cls with
  | XiaomiAirPurifier => [XiaomiAirPurifier_dict; XiaomiGenericDevice_dict]
  | XiaomiAirPurifierMiot =>
      [XiaomiAirPurifierMiot_dict; XiaomiAirPurifier_dict;
       XiaomiGenericDevice_dict]
  | XiaomiAirHumidifier => [XiaomiAirHumidifier_dict; XiaomiGenericDevice_dict]
  | XiaomiAirHumidifierMiot =>
      [XiaomiAirHumidifierMiot_dict; XiaomiAirHumidifier_dict;
       XiaomiGenericDevice_dict]
  | XiaomiAirFresh => [XiaomiAirFresh_dict; XiaomiGenericDevice_dict]
  end.

Definition lookup_dict (name : string) (d : list (string * Method))
    : option Method :=
  option_map snd (find (fun nm => String.eqb nm.1 name) d).

Fixpoint lookup_mro (name : string) (dicts : list (list (string * Method)))
    : option Method :=
  match dicts with
  | [] => None
  | d :: rest =>
      match lookup_dict name d with
      | Some m => Some m
      | None => lookup_mro name rest
      end
  end.

(** [getattr(entity, name, None)]. *)
Definition getattr (cls : EntityClass) (name : string) : option Method :=
  lookup_mro name (mro cls).

(** The call of [entity_method] with [params] as keyword arguments. *)
Definition call (m : Method) (params : list (string * Z)) : M unit :=
  match m, params with
  | Method0 body, [] => body
  | Method1 _ default body, [] => body default
  | Method1 param _ body, [(key, value)] =>
      if String.eqb key param then body value else raise TypeError
  | _, _ => raise TypeError
  end.

(** [self.async_set_speed(speed)]. *)
Definition async_set_speed (K : Consts) (speed : string) : M unit :=
  let! cls := get class_ in
  match cls with
  | XiaomiAirPurifier => XiaomiAirPurifier.async_set_speed K speed
  | XiaomiAirPurifierMiot => XiaomiAirPurifierMiot.async_set_speed K speed
  | XiaomiAirHumidifier => XiaomiAirHumidifier.async_set_speed K speed
  | XiaomiAirHumidifierMiot => XiaomiAirHumidifierMiot.async_set_speed K speed
  | XiaomiAirFresh => XiaomiAirFresh.async_set_speed K speed
  end.

(** [self.async_update()]. *)
Definition async_update : M unit :=
  let! cls := get class_ in
  match cls with
  | XiaomiAirPurifier | XiaomiAirPurifierMiot => XiaomiAirPurifier.async_update
  | XiaomiAirHumidifier | XiaomiAirHumidifierMiot =>
      XiaomiAirHumidifier.async_update
  | XiaomiAirFresh => XiaomiAirFresh.async_update
  end.

(** [self.async_turn_on(speed)] and [self.async_turn_off()], inherited by
    every class from [XiaomiGenericDevice]. *)
Definition async_turn_on (K : Consts) (speed : option string) : M unit :=
  XiaomiGenericDevice.async_turn_on (async_set_speed K) speed.

Definition async_turn_off : M unit := XiaomiGenericDevice.async_turn_off.

(** [self.speed]. *)
Definition speed (K : Consts) (e : Entity) : Res PyVal :=
  match class_ e with
  | XiaomiAirPurifier => XiaomiAirPurifier.speed K e
  | XiaomiAirPurifierMiot => XiaomiAirPurifierMiot.speed K e
  | XiaomiAirHumidifier => XiaomiAirHumidifier.speed K e
  | XiaomiAirHumidifierMiot => XiaomiAirHumidifierMiot.speed K e
  | XiaomiAirFresh => XiaomiAirFresh.speed K e
  end.

(** A new entity before its first operation. *)
Definition start (e : Entity) : Run := {| self := e; trace := [] |}.

End entity.

(** ** async_setup_entry *)

(** The branch of [async_setup_entry] for one device: the vendor class and
    the entity it constructs for [model], or the error record and no entity.
    [device] stands for the connection to the host of the config entry. *)
Definition async_setup_entry (K : Consts) (id : string) (device : miio.Device)
    (model : string) : option (miio.DeviceClass * Entity) * list Event :=
  if String.eqb model (MODEL_AIRPURIFIER_3C K) then
    (Some (miio.AirPurifierMB4,
           XiaomiAirPurifier.__init__ K XiaomiAirPurifierMiot id device model),
     [])
  else if py_in model (MODELS_PURIFIER_MIOT K) then
    (Some (miio.AirPurifierMiot,
           XiaomiAirPurifier.__init__ K XiaomiAirPurifierMiot id device model),
     [])
  else if String.prefix "zhimi.airpurifier." model then
    (Some (miio.AirPurifier,
           XiaomiAirPurifier.__init__ K XiaomiAirPurifier id device model),
     [])
  else if py_in model (MODELS_HUMIDIFIER_MIOT K) then
    (Some (miio.AirHumidifierMiot,
           XiaomiAirHumidifier.__init__ K XiaomiAirHumidifierMiot id device
             model),
     [])
  else if String.prefix "zhimi.humidifier." model then
    (Some (miio.AirHumidifier,
           XiaomiAirHumidifier.__init__ K XiaomiAirHumidifier id device model),
     [])
  else if String.prefix "zhimi.airfresh." model then
    (Some (miio.AirFresh,
           XiaomiAirFresh.__init__ K XiaomiAirFresh id device model),
     [])
  else
    (None,
     [Log ERROR
        ("Unsupported device found! Please create an issue at "
         ++ "https://github.com/syssi/xiaomi_airpurifier/issues "
         ++ "and provide the following data: %s")]).

(** ** Services *)

(** A schema: the base schema accepts no parameter; [extend] adds required
    keys with their validators. *)
Record Schema : Type := { required : list (string * vol.Validator) }.

Definition AIRPURIFIER_SERVICE_SCHEMA : Schema := {| required := [] |}.

Definition extend (s : Schema) (items : list (string * vol.Validator)) : Schema :=
  {| required := required s ++ items |}.

Definition SERVICE_SCHEMA_LED_BRIGHTNESS :=
  extend AIRPURIFIER_SERVICE_SCHEMA [(ATTR_BRIGHTNESS, vol.Clamp 0 2)].
Definition SERVICE_SCHEMA_FAVORITE_LEVEL :=
  extend AIRPURIFIER_SERVICE_SCHEMA [(ATTR_LEVEL, vol.Clamp 0 17)].
Definition SERVICE_SCHEMA_FAN_LEVEL :=
  extend AIRPURIFIER_SERVICE_SCHEMA [(ATTR_LEVEL, vol.Clamp 1 3)].
Definition SERVICE_SCHEMA_VOLUME :=
  extend AIRPURIFIER_SERVICE_SCHEMA [(ATTR_VOLUME, vol.Clamp 0 100)].
Definition SERVICE_SCHEMA_EXTRA_FEATURES (K : Consts) :=
  extend AIRPURIFIER_SERVICE_SCHEMA [(ATTR_FEATURES, positive_int K)].
Definition SERVICE_SCHEMA_TARGET_HUMIDITY :=
  extend AIRPURIFIER_SERVICE_SCHEMA
    [(ATTR_HUMIDITY, vol.In [30; 40; 50; 60; 70; 80])].
Definition SERVICE_SCHEMA_MOTOR_SPEED :=
  extend AIRPURIFIER_SERVICE_SCHEMA [(ATTR_MOTOR_SPEED, vol.Clamp 200 2000)].

(** [SERVICE_TO_METHOD[service]]: the method name and the schema, if any. *)
Definition SERVICE_TO_METHOD (K : Consts) (service : Service)
    : string * option Schema :=
  match service with
  | SERVICE_SET_BUZZER_ON => ("async_set_buzzer_on", None)
  | SERVICE_SET_BUZZER_OFF => ("async_set_buzzer_off", None)
  | SERVICE_SET_FAN_LED_ON => ("async_set_led_on", None)
  | SERVICE_SET_FAN_LED_OFF => ("async_set_led_off", None)
  | SERVICE_SET_CHILD_LOCK_ON => ("async_set_child_lock_on", None)
  | SERVICE_SET_CHILD_LOCK_OFF => ("async_set_child_lock_off", None)
  | SERVICE_SET_AUTO_DETECT_ON => ("async_set_auto_detect_on", None)
  | SERVICE_SET_AUTO_DETECT_OFF => ("async_set_auto_detect_off", None)
  | SERVICE_SET_LEARN_MODE_ON => ("async_set_learn_mode_on", None)
  | SERVICE_SET_LEARN_MODE_OFF => ("async_set_learn_mode_off", None)
  | SERVICE_RESET_FILTER => ("async_reset_filter", None)
  | SERVICE_SET_LED_BRIGHTNESS =>
      ("async_set_led_brightness", Some SERVICE_SCHEMA_LED_BRIGHTNESS)
  | SERVICE_SET_FAVORITE_LEVEL =>
      ("async_set_favorite_level", Some SERVICE_SCHEMA_FAVORITE_LEVEL)
  | SERVICE_SET_FAN_LEVEL =>
      ("async_set_fan_level", Some SERVICE_SCHEMA_FAN_LEVEL)
  | SERVICE_SET_VOLUME => ("async_set_volume", Some SERVICE_SCHEMA_VOLUME)
  | SERVICE_SET_EXTRA_FEATURES =>
      ("async_set_extra_features", Some (SERVICE_SCHEMA_EXTRA_FEATURES K))
  | SERVICE_SET_TARGET_HUMIDITY =>
      ("async_set_target_humidity", Some SERVICE_SCHEMA_TARGET_HUMIDITY)
  | SERVICE_SET_DRY_ON => ("async_set_dry_on", None)
  | SERVICE_SET_DRY_OFF => ("async_set_dry_off", None)
  | SERVICE_SET_MOTOR_SPEED =>
      ("async_set_motor_speed", Some SERVICE_SCHEMA_MOTOR_SPEED)
  end.

(** A service call: [service.service] and [service.data], the latter split
    into the value under [ATTR_ENTITY_ID] (if present) and the other items. *)
Record ServiceCall : Type := {
  service : Service;
  entity_ids : option (list string);
  data : list (string * Z);
}.

(** [schema(data)]: a key outside the schema or a missing required key is
    [Invalid]; the values come back validated. *)
Fixpoint validate_items (required : list (string * vol.Validator))
    (data : list (string * Z)) : Res (list (string * Z)) :=
  match data with
  | [] => Ret []
  | (key, value) :: rest =>
      match find (fun kv => String.eqb kv.1 key) required with
      | None => Raise Invalid
      | Some (_, validator) =>
          match vol.validate validator value with
          | Raise e => Raise e
          | Ret value' =>
              match validate_items required rest with
              | Raise e => Raise e
              | Ret rest' => Ret ((key, value') :: rest')
              end
          end
      end
  end.

Definition apply_schema (s : Schema) (data : list (string * Z))
    : Res (list (string * Z)) :=
  if forallb (fun kv => existsb (fun item => String.eqb item.1 kv.1) data)
       (required s)
  then validate_items (required s) data
  else Raise Invalid.

(** The registry [hass.data[DATA_KEY]]: host to entity, in insertion order.
    Each entity carries its own trace. *)
Definition Registry : Type := list (string * Run).

(** Modelled from the spec: [Entity.async_update_ha_state] of the host
    framework is not part of this file; the handler "requests one fresh
    poll" per target, run as a task of its own, so an exception of the poll
    stays in the task and the mutations made by the poll remain. *)
Definition async_update_ha_state (r : Run) : Run := (entity.async_update r).2.

(** The [for entity in entities] loop of [async_service_handler].  An entry
    comes back with [true] when an update task was created for it; an
    exception raised by a method ends the loop. *)
Fixpoint for_entity_in (method : string) (params : list (string * Z))
    (selected : Entity -> bool) (entities : Registry)
    : Res unit * list (string * Run * bool) :=
  match entities with
  | [] => (Ret tt, [])
  | (host, r) :: rest =>
      if selected (self r) then
        match entity.getattr (class_ (self r)) method with
        | None =>
            let '(res, rest') := for_entity_in method params selected rest in
            (res, (host, r, false) :: rest')
        | Some entity_method =>
            match entity.call entity_method params r with
            | (Raise e, r') =>
                (Raise e,
                 (host, r', false) :: map (fun hr => (hr, false)) rest)
            | (Ret _, r') =>
                let '(res, rest') := for_entity_in method params selected rest in
                (res, (host, r', true) :: rest')
            end
        end
      else
        let '(res, rest') := for_entity_in method params selected rest in
        (res, (host, r, false) :: rest')
  end.

(** [async_service_handler(service)].  The update tasks created by the loop
    run after it, one per entity; each entity has a state of its own, so the
    order in which the event loop interleaves them does not show in any
    entity. *)
Definition async_service_handler (K : Consts) (call : ServiceCall)
    (registry : Registry) : Res unit * Registry :=
  let method := (SERVICE_TO_METHOD K (service call)).1 in
  let params := data call in
  let selected :=
    match entity_ids call with
    | Some ((_ :: _) as entity_ids) =>
        fun e => py_in (entity_id e) entity_ids
    | _ => fun _ => true
    end in
  let '(res, entities) := for_entity_in method params selected registry in
  (res,
   map (fun hrt : string * Run * bool =>
          let '(host, r, update_task) := hrt in
          (host, if update_task then async_update_ha_state r else r))
       entities).

(** Modelled from the spec: the service registry of the host framework is
    not part of this file; "argument domains are part of the action contract
    and must be validated at the boundary before any downstream call", so a
    call is passed to the handler registered for the service after the
    schema registered with it has accepted and normalised the data. *)
Definition async_call (K : Consts) (call : ServiceCall) (registry : Registry)
    : Res unit * Registry :=
  let schema :=
    default AIRPURIFIER_SERVICE_SCHEMA (SERVICE_TO_METHOD K (service call)).2 in
  match apply_schema schema (data call) with
  | Raise e => (Raise e, registry)
  | Ret data' =>
      async_service_handler K
        {| service := service call; entity_ids := entity_ids call;
           data := data' |}
        registry
  end.

(** ** The values of the imported constants

    The values that Home Assistant gives to the imported names; the
    theorems below hold for any values, these are used to run the code on
    examples. *)
Definition ha_consts : Consts :=
  {| positive_int := vol.Range 0;
     ATTR_MODE := "mode";
     ATTR_TEMPERATURE := "temperature";
     SPEED_LOW := "low";
     SPEED_MEDIUM := "medium";
     SPEED_HIGH := "high";
     SUPPORT_SET_SPEED := 1;
     MODEL_AIRHUMIDIFIER_CA1 := "zhimi.humidifier.ca1";
     MODEL_AIRHUMIDIFIER_CA4 := "zhimi.humidifier.ca4";
     MODEL_AIRHUMIDIFIER_CB1 := "zhimi.humidifier.cb1";
     MODEL_AIRPURIFIER_2S := "zhimi.airpurifier.mc1";
     MODEL_AIRPURIFIER_3 := "zhimi.airpurifier.ma4";
     MODEL_AIRPURIFIER_3C := "zhimi.airpurifier.mb4";
     MODEL_AIRPURIFIER_3H := "zhimi.airpurifier.mb3";
     MODEL_AIRPURIFIER_PRO := "zhimi.airpurifier.v6";
     MODEL_AIRPURIFIER_PRO_V7 := "zhimi.airpurifier.v7";
     MODEL_AIRPURIFIER_V3 := "zhimi.airpurifier.v3";
     MODELS_HUMIDIFIER_MIOT := ["zhimi.humidifier.ca4"];
     MODELS_PURIFIER_MIOT :=
       ["zhimi.airpurifier.ma4"; "zhimi.airpurifier.mb3";
        "zhimi.airpurifier.va1"] |}.

(** Devices used in examples: one that answers every command with ["ok"]
    and reports [state], and one that is unreachable. *)
Definition device_ok (state : miio.Status) : miio.Device :=
  {| miio.command := fun _ => Ret SUCCESS; miio.status := Ret state |}.

Definition device_unreachable : miio.Device :=
  {| miio.command := fun _ => Raise DeviceException;
     miio.status := Raise DeviceException |}.

(** A status object that has every property in [names], each with the
    value [v]. *)
Definition status_with (on : bool) (names : list string) (v : PyVal)
    : miio.Status :=
  {| miio.is_on := on;
     miio.fields := foldl (fun d name => <[name := v]> d) ∅ names |}.

(** ** Vocabulary of the statements *)

Local Open Scope list_scope.

(** The run after the vendor call [c] and the log records [logs]. *)
Definition after_call (r : Run) (c : miio.Call) (logs : list Event) : Run :=
  {| self := self r;
     trace := (trace r ++ [Command c (miio.command (_device (self r)) c)])
              ++ logs |}.

(** An operation that talks to the device: a command sent through
    [_try_command], or a poll. *)
Inductive Operation : Type :=
| command_op (mask_error : string) (func : miio.Call)
| poll_op.

Definition perform (o : Operation) (r : Run) : Run :=
  match o with
  | command_op mask_error func =>
      (XiaomiGenericDevice._try_command mask_error func r).2
  | poll_op => (entity.async_update r).2
  end.

(** The operation reaches the device and the device raises
    [DeviceException]. *)
Definition device_fault (o : Operation) (r : Run) : Prop :=
  match o with
  | command_op _ func =>
      miio.command (_device (self r)) func = Raise DeviceException
  | poll_op =>
      _skip_update (self r) = false
      /\ miio.status (_device (self r)) = Raise DeviceException
  end.

(** A device that cannot be reached: every call raises [DeviceException]. *)
Definition unreachable (d : miio.Device) : Prop :=
  (forall c, miio.command d c = Raise DeviceException)
  /\ miio.status d = Raise DeviceException.

(** The values that a poll computes from the status object [st]. *)
Definition projection (st : miio.Status) (r : Run) : Res (gmap string PyVal) :=
  dict_comprehension (XiaomiGenericDevice._extract_value_from_attribute st)
    (map_to_list (_available_attributes (self r))) ∅.

(** The properties read from the status object of a fresh-air device. *)
Definition airfresh_properties : list string :=
  ["temperature"; "aqi"; "average_aqi"; "co2"; "humidity"; "mode"; "led";
   "led_brightness"; "buzzer"; "child_lock"; "filter_life_remaining";
   "filter_hours_used"; "use_time"; "motor_speed"; "extra_features"].

(** Example entities: a fresh-air device and a purifier 3 as the setup
    builds them, both answering every command with the success token. *)
Definition airfresh_example : Entity :=
  XiaomiAirFresh.__init__ ha_consts XiaomiAirFresh "fan.air_fresh"
    (device_ok (status_with true airfresh_properties (VInt 1)))
    "zhimi.airfresh.va2".

Definition purifier3_properties : list string :=
  ["temperature"; "humidity"; "aqi"; "mode"; "filter_hours_used";
   "filter_life_remaining"; "favorite_level"; "child_lock"; "led";
   "motor_speed"; "average_aqi"; "purify_volume"; "use_time"; "buzzer";
   "led_brightness"; "filter_rfid_product_id"; "filter_rfid_tag";
   "filter_type"; "fan_level"].

Definition purifier3_example : Entity :=
  XiaomiAirPurifier.__init__ ha_consts XiaomiAirPurifierMiot "fan.purifier_3"
    (device_ok (status_with true purifier3_properties (VInt 1)))
    "zhimi.airpurifier.ma4".

(** Scalar normalization, in the words of the specification: a raw value
    of an enumerated type is replaced by its underlying value, any other
    raw value is reported as it is. *)
Definition scalar_normalization (raw : PyVal) : PyVal :=
  match raw with
  | VEnum _ _ value => value
  | _ => raw
  end.

(** What the vendor library stores in a status property: a plain scalar,
    or a member of an enumeration whose value is a plain scalar. *)
Definition status_value (raw : PyVal) : bool :=
  match raw with
  | VEnum _ _ value => is_scalar value
  | VList _ => false
  | _ => true
  end.

(** A fresh-air status object without the property [co2]. *)
Definition status_without_co2 : miio.Status :=
  status_with true
    (List.filter (fun name => negb (String.eqb name "co2")) airfresh_properties)
    (VInt 1).

(** The capability that a named action requires, in the words of the
    interface description: each action belongs to one flag of the bitset. *)
Definition required_capability (service : Service) : Z :=
  match service with
  | SERVICE_SET_BUZZER_ON | SERVICE_SET_BUZZER_OFF => FEATURE_SET_BUZZER
  | SERVICE_SET_FAN_LED_ON | SERVICE_SET_FAN_LED_OFF => FEATURE_SET_LED
  | SERVICE_SET_CHILD_LOCK_ON | SERVICE_SET_CHILD_LOCK_OFF =>
      FEATURE_SET_CHILD_LOCK
  | SERVICE_SET_AUTO_DETECT_ON | SERVICE_SET_AUTO_DETECT_OFF =>
      FEATURE_SET_AUTO_DETECT
  | SERVICE_SET_LEARN_MODE_ON | SERVICE_SET_LEARN_MODE_OFF =>
      FEATURE_SET_LEARN_MODE
  | SERVICE_RESET_FILTER => FEATURE_RESET_FILTER
  | SERVICE_SET_LED_BRIGHTNESS => FEATURE_SET_LED_BRIGHTNESS
  | SERVICE_SET_FAVORITE_LEVEL => FEATURE_SET_FAVORITE_LEVEL
  | SERVICE_SET_FAN_LEVEL => FEATURE_SET_FAN_LEVEL
  | SERVICE_SET_VOLUME => FEATURE_SET_VOLUME
  | SERVICE_SET_EXTRA_FEATURES => FEATURE_SET_EXTRA_FEATURES
  | SERVICE_SET_TARGET_HUMIDITY => FEATURE_SET_TARGET_HUMIDITY
  | SERVICE_SET_DRY_ON | SERVICE_SET_DRY_OFF => FEATURE_SET_DRY
  | SERVICE_SET_MOTOR_SPEED => FEATURE_SET_MOTOR_SPEED
  end.

(** The schema registered for a service. *)
Definition schema_of (K : Consts) (service : Service) : Schema :=
  default AIRPURIFIER_SERVICE_SCHEMA (SERVICE_TO_METHOD K service).2.

(** The parameters that reach the handler of [service]: nothing for an
    action without a schema, the validated argument under the key of the
    schema otherwise. *)
Definition validated (K : Consts) (service : Service)
    (params : list (string * Z)) : Prop :=
  match (SERVICE_TO_METHOD K service).2 with
  | None => params = []
  | Some schema =>
      exists key validator x x',
        required schema = [(key, validator)]
        /\ vol.validate validator x = Ret x'
        /\ params = [(key, x')]
  end.

(** A method body that consists of one [_try_command] whose result is
    dropped. *)
Definition run_command (mask_error : string) (func : miio.Call) (r : Run)
    : Res unit * Run :=
  let out := XiaomiGenericDevice._try_command mask_error func r in
  (match out.1 with Ret _ => Ret tt | Raise e => Raise e end, out.2).

(** The integer argument that a vendor call carries, if it carries one. *)
Definition call_argument (c : miio.Call) : option Z :=
  match c with
  | miio.set_led_brightness (VEnum _ _ (VInt n)) => Some n
  | miio.set_favorite_level n | miio.set_fan_level n | miio.set_volume n
  | miio.set_extra_features n | miio.set_target_humidity n
  | miio.set_speed n => Some n
  | _ => None
  end.

(** The entities that a call targets. *)
Definition selected_by (call : ServiceCall) : Entity -> bool :=
  match entity_ids call with
  | Some ((_ :: _) as entity_ids) =>
      fun e => py_in (entity_id e) entity_ids
  | _ => fun _ => true
  end.

(** One round of the handler's loop on an entity whose method returns: the
    run after the method, and whether an update task was created. *)
Definition round (method : string) (params : list (string * Z))
    (selected : Entity -> bool) (r : Run) : Run * bool :=
  if selected (self r) then
    match entity.getattr (class_ (self r)) method with
    | None => (r, false)
    | Some entity_method => ((entity.call entity_method params r).2, true)
    end
  else (r, false).

(** What a call does to one entity: the round of the loop, then the poll
    of its update task. *)
Definition served (K : Consts) (call : ServiceCall) (r : Run) : Run :=
  let '(r', update_task) :=
    round (SERVICE_TO_METHOD K (service call)).1 (data call)
      (selected_by call) r in
  if update_task then async_update_ha_state r' else r'.

(** A device whose commands raise nothing but [DeviceException]. *)
Definition raises_only_DeviceException (d : miio.Device) : Prop :=
  forall c e, miio.command d c = Raise e -> e = DeviceException.

(** The entity is a target of the call, has the method of the service and
    the capability the service requires. *)
Definition supports (K : Consts) (call : ServiceCall) (e : Entity) : Prop :=
  selected_by call e = true
  /\ is_Some (entity.getattr (class_ e) (SERVICE_TO_METHOD K (service call)).1)
  /\ _device_features e &' required_capability (service call) <> 0.

(** A variant: the capability bitset, the attribute table and the mode
    vocabulary that an entity got at construction. *)
Record Variant : Type := {
  features : Z;
  attributes : gmap string string;
  speeds : list string;
}.

Definition variant_of (e : Entity) : Variant :=
  {| features := _device_features e;
     attributes := _available_attributes e;
     speeds := _speed_list e |}.











(** The mode vocabulary through which the speed change of a class resolves
    a speed name; the MiOT humidifier has its reverse mapping instead. *)
Definition mode_vocabulary (cls : EntityClass) : option PyEnum :=
  match cls with
  | XiaomiAirPurifier => Some miio.AirpurifierOperationMode
  | XiaomiAirPurifierMiot => Some miio.AirpurifierMiotOperationMode
  | XiaomiAirHumidifier => Some miio.AirhumidifierOperationMode
  | XiaomiAirHumidifierMiot => None
  | XiaomiAirFresh => Some miio.AirfreshOperationMode
  end.

(** The run after the debug record that a gated speed change writes. *)
Definition after_speed_debug (r : Run) : Run :=
  {| self := self r;
     trace := trace r ++ [Log DEBUG "Setting the operation mode to: %s"] |}.

(** A MiOT humidifier as the setup builds it. *)
Definition humidifier_miot_example : Entity :=
  XiaomiAirHumidifier.__init__ ha_consts XiaomiAirHumidifierMiot
    "fan.humidifier"
    (device_ok
       (status_with true
          ["temperature"; "humidity"; "mode"; "buzzer"; "child_lock";
           "target_humidity"; "led_brightness"; "use_time"; "actual_speed";
           "button_pressed"; "dry"; "fahrenheit"; "motor_speed"]
          (VInt 1)))
    "zhimi.humidifier.ca4".

(** A method keeps the relation [R] between the entity before and the
    entity after. *)
Definition respects (R : Entity -> Entity -> Prop) {A : Type} (m : M A)
    : Prop :=
  forall r, R (self r) (self (m r).2).

(** The on/off state and the poll-skip flag are as before. *)
Definition same_state_and_flag (e e' : Entity) : Prop :=
  _state e' = _state e /\ _skip_update e' = _skip_update e.

(** A device that answers every command with [v] and cannot report its
    status. *)
Definition device_answering (v : PyVal) : miio.Device :=
  {| miio.command := fun _ => Ret v; miio.status := Raise DeviceException |}.

(** The commands sent to the device: the vendor calls of a trace without
    the status reads of the polls. *)
Definition is_sent_command (ev : Event) : bool :=
  match ev with Command _ _ => true | _ => false end.

Definition commands_sent (t : list Event) : list Event :=
  List.filter is_sent_command t.

(** The call of [service] with the argument [x] under [key]. *)
Definition call_with (service : Service) (ids : option (list string))
    (key : string) (x : Z) : ServiceCall :=
  {| service := service; entity_ids := ids; data := [(key, x)] |}.

(** The services whose schema clamps the argument. *)
Definition CLAMPED_SERVICES : list Service :=
  [SERVICE_SET_LED_BRIGHTNESS; SERVICE_SET_FAVORITE_LEVEL;
   SERVICE_SET_FAN_LEVEL; SERVICE_SET_VOLUME; SERVICE_SET_MOTOR_SPEED].

(** ** Vocabulary of the further statements *)

(** What the host can ask of an entity: the fan commands, a poll, and the
    call of the method of a service with keyword parameters. *)
Inductive Action : Type :=
| turn_on (speed : option string)
| turn_off
| set_speed (speed : string)
| update
| call_service (service : Service) (params : list (string * Z)).

Definition act (K : Consts) (a : Action) : M unit :=
  match a with
  | turn_on speed => entity.async_turn_on K speed
  | turn_off => entity.async_turn_off
  | set_speed speed => entity.async_set_speed K speed
  | update => entity.async_update
  | call_service service params =>
      fun r =>
        match entity.getattr (class_ (self r))
                (SERVICE_TO_METHOD K service).1 with
        | None => (Ret tt, r)
        | Some entity_method => entity.call entity_method params r
        end
  end.

(** The run after a sequence of actions, whatever each of them returns or
    raises. *)
Definition run_actions (K : Consts) (actions : list Action) (r : Run) : Run :=
  foldl (fun r a => (act K a r).2) r actions.

(** The fourteen capability flags. *)
Definition FEATURES : list Z :=
  [FEATURE_SET_BUZZER; FEATURE_SET_LED; FEATURE_SET_CHILD_LOCK;
   FEATURE_SET_LED_BRIGHTNESS; FEATURE_SET_FAVORITE_LEVEL;
   FEATURE_SET_AUTO_DETECT; FEATURE_SET_LEARN_MODE; FEATURE_SET_VOLUME;
   FEATURE_RESET_FILTER; FEATURE_SET_EXTRA_FEATURES;
   FEATURE_SET_TARGET_HUMIDITY; FEATURE_SET_DRY; FEATURE_SET_FAN_LEVEL;
   FEATURE_SET_MOTOR_SPEED].

(** [a | b | ...] over a list of flags. *)
Definition flags_of (l : list Z) : Z := foldr Z.lor 0 l.

(** What the constructors never change: the class, the identity, the
    device, the model and the variant; and the keys that the attribute map
    has are kept. *)
Definition same_variant (e e' : Entity) : Prop :=
  class_ e' = class_ e /\ entity_id e' = entity_id e
  /\ _device e' = _device e /\ _model e' = _model e
  /\ variant_of e' = variant_of e
  /\ dom (_state_attrs e) ⊆ dom (_state_attrs e').

(** Every key of the attribute table has an entry in the attribute map. *)
Definition table_reported (e : Entity) : Prop :=
  dom (_available_attributes e) ⊆ dom (_state_attrs e).

(** A method lets no [DeviceException] out. *)
Definition contains_DeviceException {A : Type} (m : M A) : Prop :=
  forall r e, (m r).1 = Raise e -> is_DeviceException e = false.

(** All the bound methods of the class bodies. *)
Definition all_methods : list Method :=
  (entity.XiaomiGenericDevice_dict ++ entity.XiaomiAirPurifier_dict
   ++ entity.XiaomiAirPurifierMiot_dict ++ entity.XiaomiAirHumidifier_dict
   ++ entity.XiaomiAirHumidifierMiot_dict ++ entity.XiaomiAirFresh_dict).*2.

(** ASCII text: every character is below 128. *)
Definition ascii_text (s : string) : bool :=
  forallb (fun c => (nat_of_ascii c <? 128)%nat) (list_ascii_of_string s).

(** Two outcomes of a command agree in what the caller and the device see:
    the result or exception, the entity, and the vendor calls. *)
Definition same_effect (out out' : Res unit * Run) : Prop :=
  out.1 = out'.1 /\ self out.2 = self out'.2
  /\ vendor_calls (trace out.2) = vendor_calls (trace out'.2).

(** [str.lower()] on ASCII text. *)
Fixpoint lower (s : string) : string :=
  match s with
  | EmptyString => EmptyString
  | String c rest => String (to_lower c) (lower rest)
  end.

(** A device that raises [OSError] on every command. *)
Definition device_broken (state : miio.Status) : miio.Device :=
  {| miio.command := fun _ => Raise OSError; miio.status := Ret state |}.

(** The declared bitsets with the flags that their declarations list. *)
Definition DECLARED_FLAGS : list (Z * list Z) :=
  [(FEATURE_FLAGS_AIRPURIFIER,
    [FEATURE_SET_BUZZER; FEATURE_SET_CHILD_LOCK; FEATURE_SET_LED;
     FEATURE_SET_LED_BRIGHTNESS; FEATURE_SET_FAVORITE_LEVEL;
     FEATURE_SET_LEARN_MODE; FEATURE_RESET_FILTER;
     FEATURE_SET_EXTRA_FEATURES]);
   (FEATURE_FLAGS_AIRPURIFIER_PRO,
    [FEATURE_SET_CHILD_LOCK; FEATURE_SET_LED; FEATURE_SET_FAVORITE_LEVEL;
     FEATURE_SET_AUTO_DETECT; FEATURE_SET_VOLUME]);
   (FEATURE_FLAGS_AIRPURIFIER_PRO_V7,
    [FEATURE_SET_CHILD_LOCK; FEATURE_SET_LED; FEATURE_SET_FAVORITE_LEVEL;
     FEATURE_SET_VOLUME]);
   (FEATURE_FLAGS_AIRPURIFIER_2S,
    [FEATURE_SET_BUZZER; FEATURE_SET_CHILD_LOCK; FEATURE_SET_LED;
     FEATURE_SET_FAVORITE_LEVEL]);
   (FEATURE_FLAGS_AIRPURIFIER_3,
    [FEATURE_SET_BUZZER; FEATURE_SET_CHILD_LOCK; FEATURE_SET_LED;
     FEATURE_SET_FAVORITE_LEVEL; FEATURE_SET_FAN_LEVEL;
     FEATURE_SET_LED_BRIGHTNESS]);
   (FEATURE_FLAGS_AIRPURIFIER_3C,
    [FEATURE_SET_BUZZER; FEATURE_SET_CHILD_LOCK; FEATURE_SET_LED;
     FEATURE_SET_FAVORITE_LEVEL; FEATURE_SET_FAN_LEVEL;
     FEATURE_SET_LED_BRIGHTNESS]);
   (FEATURE_FLAGS_AIRPURIFIER_V3,
    [FEATURE_SET_BUZZER; FEATURE_SET_CHILD_LOCK; FEATURE_SET_LED]);
   (FEATURE_FLAGS_AIRHUMIDIFIER,
    [FEATURE_SET_BUZZER; FEATURE_SET_CHILD_LOCK; FEATURE_SET_LED;
     FEATURE_SET_LED_BRIGHTNESS; FEATURE_SET_TARGET_HUMIDITY]);
   (FEATURE_FLAGS_AIRHUMIDIFIER_CA_AND_CB,
    [FEATURE_SET_BUZZER; FEATURE_SET_CHILD_LOCK; FEATURE_SET_LED;
     FEATURE_SET_LED_BRIGHTNESS; FEATURE_SET_TARGET_HUMIDITY;
     FEATURE_SET_DRY]);
   (FEATURE_FLAGS_AIRHUMIDIFIER_CA4,
    [FEATURE_SET_BUZZER; FEATURE_SET_CHILD_LOCK; FEATURE_SET_LED_BRIGHTNESS;
     FEATURE_SET_TARGET_HUMIDITY; FEATURE_SET_DRY; FEATURE_SET_MOTOR_SPEED]);
   (FEATURE_FLAGS_AIRFRESH,
    [FEATURE_SET_BUZZER; FEATURE_SET_CHILD_LOCK; FEATURE_SET_LED;
     FEATURE_SET_LED_BRIGHTNESS; FEATURE_RESET_FILTER;
     FEATURE_SET_EXTRA_FEATURES])].

(** The state of an entity that the setup has just built. *)
Definition starts_blank (id : string) (device : miio.Device) (e : Entity) :
    Prop :=
  table_reported e
  /\ _available e = false /\ _state e = None /\ _skip_update e = false
  /\ _device e = device /\ entity_id e = id
  /\ forall key, is_Some (_available_attributes e !! key) ->
       _state_attrs e !! key = Some VNone.

(** The actions that send a command and do nothing else: a speed change,
    the method of a service, and a turn-on with a speed. *)
Definition is_command (a : Action) : bool :=
  match a with
  | set_speed _ | call_service _ _ | turn_on (Some (String _ _)) => true
  | _ => false
  end.

(** The entity is as before, or it was available and is now unavailable
    with nothing else changed. *)
Definition at_most_unavailable (e e' : Entity) : Prop :=
  e' = e \/ (_available e = true /\ e' = set__available false e).

(** An unavailable entity is still unavailable. *)
Definition stays_unavailable (e e' : Entity) : Prop :=
  _available e = false -> _available e' = false.

(** A method appends to the trace, and only events that satisfy [P]. *)
Definition emits (P : Event -> Prop) {A : Type} (m : M A) : Prop :=
  forall r, exists t, trace (m r).2 = trace r ++ t /\ Forall P t.

(** Any event but the vendor call [on]. *)
Definition not_on (ev : Event) : Prop :=
  match ev with
  | Command miio.on _ => False
  | _ => True
  end.

(** A speed change with [speed] sends the vendor call [set_mode]. *)
Definition speed_is_sent (K : Consts) (speed : string) (r : Run) : Prop :=
  exists mode,
    Command (miio.set_mode mode)
      (miio.command (_device (self r)) (miio.set_mode mode))
    ∈ trace (entity.async_set_speed K speed r).2.

(** The models for which the speed list that the constructor chooses goes
    with the mode vocabulary of the class. *)
Definition speeds_fit (K : Consts) (model : string) (cls : EntityClass)
    : Prop :=
  match cls with
  | XiaomiAirFresh => True
  | XiaomiAirPurifier =>
      model <> MODEL_AIRPURIFIER_3 K /\ model <> MODEL_AIRPURIFIER_3H K
  | XiaomiAirPurifierMiot =>
      model ∈ [MODEL_AIRPURIFIER_PRO K; MODEL_AIRPURIFIER_PRO_V7 K;
               MODEL_AIRPURIFIER_2S K; MODEL_AIRPURIFIER_3 K;
               MODEL_AIRPURIFIER_3H K; MODEL_AIRPURIFIER_3C K]
      /\ model <> MODEL_AIRPURIFIER_V3 K
  | XiaomiAirHumidifier => model <> MODEL_AIRHUMIDIFIER_CA4 K
  | XiaomiAirHumidifierMiot =>
      model = MODEL_AIRHUMIDIFIER_CA4 K
      /\ model <> MODEL_AIRHUMIDIFIER_CA1 K
      /\ model <> MODEL_AIRHUMIDIFIER_CB1 K
  end.

(** [self.speed_list], through the class of the entity. *)
Definition speed_list_of (e : Entity) : list string :=
  match class_ e with
  | XiaomiAirPurifier | XiaomiAirPurifierMiot => XiaomiAirPurifier.speed_list e
  | XiaomiAirHumidifier | XiaomiAirHumidifierMiot =>
      XiaomiAirHumidifier.speed_list e
  | XiaomiAirFresh => XiaomiAirFresh.speed_list e
  end.

(** The enumeration in which the [speed] property of a class looks up the
    reported mode. *)
Definition mode_enumeration (cls : EntityClass) : PyEnum :=
  match cls with
  | XiaomiAirPurifier => miio.AirpurifierOperationMode
  | XiaomiAirPurifierMiot => miio.AirpurifierMiotOperationMode
  | XiaomiAirHumidifier => miio.AirhumidifierOperationMode
  | XiaomiAirHumidifierMiot => miio.AirhumidifierMiotOperationMode
  | XiaomiAirFresh => miio.AirfreshOperationMode
  end.

(** What the [speed] property makes of the mode member called [name]: its
    name, and on the MiOT humidifier the speed that [MODE_MAPPING] has for
    it, if any. *)
Definition reported_speed (K : Consts) (cls : EntityClass) (name : string)
    : PyVal :=
  match cls with
  | XiaomiAirHumidifierMiot =>
      if String.eqb name "Low" then VStr (SPEED_LOW K)
      else if String.eqb name "Mid" then VStr (SPEED_MEDIUM K)
      else if String.eqb name "High" then VStr (SPEED_HIGH K)
      else VNone
  | _ => VStr name
  end.

(** The run after [n] polls in a row. *)
Definition polls (n : nat) (r : Run) : Run :=
  Nat.iter n (fun r => (entity.async_update r).2) r.

(** The services whose method the class of an entity has, its own or
    inherited. *)
Definition has_method (K : Consts) (cls : EntityClass) (service : Service)
    : bool :=
  match entity.getattr cls (SERVICE_TO_METHOD K service).1 with
  | Some _ => true
  | None => false
  end.

Definition GENERIC_SERVICES : list Service :=
  [SERVICE_SET_BUZZER_ON; SERVICE_SET_BUZZER_OFF; SERVICE_SET_CHILD_LOCK_ON;
   SERVICE_SET_CHILD_LOCK_OFF].

Definition SERVICES (cls : EntityClass) : list Service :=
  GENERIC_SERVICES
  ++ match cls with
     | XiaomiAirPurifier | XiaomiAirPurifierMiot =>
         [SERVICE_SET_FAN_LED_ON; SERVICE_SET_FAN_LED_OFF;
          SERVICE_SET_LED_BRIGHTNESS; SERVICE_SET_FAVORITE_LEVEL;
          SERVICE_SET_FAN_LEVEL; SERVICE_SET_AUTO_DETECT_ON;
          SERVICE_SET_AUTO_DETECT_OFF; SERVICE_SET_LEARN_MODE_ON;
          SERVICE_SET_LEARN_MODE_OFF; SERVICE_SET_VOLUME;
          SERVICE_SET_EXTRA_FEATURES; SERVICE_RESET_FILTER]
     | XiaomiAirHumidifier =>
         [SERVICE_SET_LED_BRIGHTNESS; SERVICE_SET_TARGET_HUMIDITY;
          SERVICE_SET_DRY_ON; SERVICE_SET_DRY_OFF]
     | XiaomiAirHumidifierMiot =>
         [SERVICE_SET_LED_BRIGHTNESS; SERVICE_SET_TARGET_HUMIDITY;
          SERVICE_SET_DRY_ON; SERVICE_SET_DRY_OFF; SERVICE_SET_MOTOR_SPEED]
     | XiaomiAirFresh =>
         [SERVICE_SET_FAN_LED_ON; SERVICE_SET_FAN_LED_OFF;
          SERVICE_SET_LED_BRIGHTNESS; SERVICE_SET_EXTRA_FEATURES;
          SERVICE_RESET_FILTER]
     end.

(** * Properties *)

(** ** The success token and [_try_command] *)

Lemma py_eqb_SUCCESS (v : PyVal) : py_eqb v SUCCESS = true <-> v = SUCCESS.
Proof.
  split; [| intros ->; reflexivity].
  unfold SUCCESS. destruct v as [| | | |xs|]; simpl; try discriminate.
  destruct xs as [|x [|y ys]]; try discriminate.
  - destruct x; simpl; try discriminate.
    rewrite andb_true_r. intros H. apply String.eqb_eq in H. by subst.
  - destruct (py_eqb x (VStr "ok")); discriminate.
Qed.

(** What [_try_command] does, by the answer of the device. *)
Lemma _try_command_unfold (mask : string) (c : miio.Call) (r : Run) :
  XiaomiGenericDevice._try_command mask c r =
  match miio.command (_device (self r)) c with
  | Ret v =>
      (Ret (py_eqb v SUCCESS),
       after_call r c [Log DEBUG "Response received from miio device: %s"])
  | Raise DeviceException =>
      if _available (self r) then
        (Ret false,
         {| self := set__available false (self r);
            trace := ((trace r ++ [Command c (Raise DeviceException)])
                      ++ [Log ERROR mask]) |})
      else
        (Ret false,
         {| self := self r;
            trace := trace r ++ [Command c (Raise DeviceException)] |})
  | Raise e =>
      (Raise e, {| self := self r; trace := trace r ++ [Command c (Raise e)] |})
  end.
Proof.
  unfold XiaomiGenericDevice._try_command, try_except, async_add_executor_job,
    after_call, bind, get, emit, lift, ret, modify, _LOGGER.debug,
    _LOGGER.error.
  simpl.
  destruct (miio.command (_device (self r)) c) as [v|e]; simpl.
  - by rewrite <- app_assoc.
  - destruct e; simpl; try reflexivity.
    destruct (_available (self r)); simpl; reflexivity.
Qed.

Lemma error_lines_app (t u : list Event) :
  error_lines (t ++ u) = error_lines t ++ error_lines u.
Proof. unfold error_lines. apply List.filter_app. Qed.

Lemma log_lines_app (t u : list Event) :
  log_lines (t ++ u) = log_lines t ++ log_lines u.
Proof. unfold log_lines. apply List.filter_app. Qed.

Lemma vendor_calls_app (t u : list Event) :
  vendor_calls (t ++ u) = vendor_calls t ++ vendor_calls u.
Proof. unfold vendor_calls. apply List.filter_app. Qed.

(** C9. A command succeeds exactly when the device returns the token
    [SUCCESS] (the list holding "ok").  For any other returned value the
    command reports failure, leaves the entity (availability, on/off state,
    poll-skip flag and everything else) as it was and writes no line to the
    log: the trace grows by the call and the debug record of the response,
    nothing at warning or error level.  Availability changes only when the
    device raises [DeviceException], and turn-on and turn-off leave the
    entity as it was when the device returns anything but the token. *)
Theorem C9_success_token (mask : string) (c : miio.Call) (r : Run) :
  let out := XiaomiGenericDevice._try_command mask c r in
  (out.1 = Ret true <-> miio.command (_device (self r)) c = Ret SUCCESS)
  /\ (forall v, miio.command (_device (self r)) c = Ret v -> v <> SUCCESS ->
        out.1 = Ret false
        /\ self out.2 = self r
        /\ trace out.2 =
             trace r ++ [Command c (Ret v);
                         Log DEBUG "Response received from miio device: %s"]
        /\ log_lines (trace out.2) = log_lines (trace r))
  /\ (_available (self out.2) <> _available (self r) ->
        miio.command (_device (self r)) c = Raise DeviceException
        /\ _available (self r) = true)
  /\ (forall K v, miio.command (_device (self r)) miio.on = Ret v ->
        v <> SUCCESS -> self (entity.async_turn_on K None r).2 = self r)
  /\ (forall v, miio.command (_device (self r)) miio.off = Ret v ->
        v <> SUCCESS -> self (entity.async_turn_off r).2 = self r).
Proof.
  intros out. subst out.
  assert (Hno : forall v, v <> SUCCESS -> py_eqb v SUCCESS = false).
  { intros v Hne. destruct (py_eqb v SUCCESS) eqn:E; [|reflexivity].
    apply py_eqb_SUCCESS in E. contradiction. }
  assert (Hon : forall K v, miio.command (_device (self r)) miio.on = Ret v ->
            v <> SUCCESS -> self (entity.async_turn_on K None r).2 = self r).
  { intros K v Hc Hne.
    unfold entity.async_turn_on, XiaomiGenericDevice.async_turn_on.
    unfold bind, ret. rewrite _try_command_unfold, Hc. simpl.
    by rewrite (Hno v Hne). }
  assert (Hoff : forall v, miio.command (_device (self r)) miio.off = Ret v ->
            v <> SUCCESS -> self (entity.async_turn_off r).2 = self r).
  { intros v Hc Hne.
    unfold entity.async_turn_off, XiaomiGenericDevice.async_turn_off.
    unfold bind, ret. rewrite _try_command_unfold, Hc. simpl.
    by rewrite (Hno v Hne). }
  cut (forall P Q R : Prop, P /\ Q /\ R -> P /\ Q /\ R /\
         (forall K v, miio.command (_device (self r)) miio.on = Ret v ->
            v <> SUCCESS -> self (entity.async_turn_on K None r).2 = self r)
         /\ (forall v, miio.command (_device (self r)) miio.off = Ret v ->
               v <> SUCCESS -> self (entity.async_turn_off r).2 = self r));
    [intros Hcut; apply Hcut|tauto].
  clear Hon Hoff.
  rewrite _try_command_unfold.
  destruct (miio.command (_device (self r)) c) as [v|e] eqn:Hc.
  - split; [|split].
    + simpl. split.
      * intros [= H]. apply py_eqb_SUCCESS in H. by subst.
      * intros [= ->]. reflexivity.
    + intros v' [= <-] Hne. simpl. repeat split.
      * destruct (py_eqb v SUCCESS) eqn:E; [|reflexivity].
        apply py_eqb_SUCCESS in E. contradiction.
      * rewrite Hc. by rewrite <- app_assoc.
      * rewrite !log_lines_app. simpl. by rewrite !app_nil_r.
    + simpl. intros H. contradiction.
  - split; [|split].
    + split; [|discriminate].
      destruct e; simpl; try discriminate.
      destruct (_available (self r)); discriminate.
    + intros v [=].
    + destruct e; simpl; try contradiction.
      destruct (_available (self r)) eqn:Ha; simpl; [done | contradiction].
Qed.

Lemma C9_witness :
  let r := entity.start
             (with_device (device_answering (VList [VStr "error"]))
                airfresh_example) in
  (XiaomiGenericDevice._try_command "failed" miio.reset_filter r).1 = Ret false
  /\ self (XiaomiGenericDevice._try_command "failed" miio.reset_filter r).2
     = self r.
Proof.
  intros r.
  destruct (C9_success_token "failed" miio.reset_filter r) as (_ & H & _).
  destruct (H (VList [VStr "error"]) eq_refl) as (H1 & H2 & _).
  - discriminate.
  - split; assumption.
Defined.

(** ** The poll *)

Lemma async_update_same :
  XiaomiAirHumidifier.async_update = XiaomiAirPurifier.async_update
  /\ XiaomiAirFresh.async_update = XiaomiAirPurifier.async_update.
Proof. split; reflexivity. Qed.

Lemma entity_async_update (r : Run) :
  entity.async_update r = XiaomiAirPurifier.async_update r.
Proof.
  unfold entity.async_update, bind, get. simpl.
  destruct (class_ (self r)); reflexivity.
Qed.

Section Comprehension.
Context {A B : Type} (f : A -> Res B).

Lemma dict_comprehension_Ret (items : list (string * A)) :
  forall (acc m : gmap string B),
  NoDup items.*1 ->
  dict_comprehension f items acc = Ret m ->
  forall k,
    (forall a, (k, a) ∈ items -> exists v, f a = Ret v /\ m !! k = Some v)
    /\ (k ∉ items.*1 -> m !! k = acc !! k).
Proof.
  induction items as [|[k0 a0] items IH]; intros acc m Hnd Hm k.
  - simpl in Hm. injection Hm as <-. split.
    + intros a Ha. by apply elem_of_nil in Ha.
    + done.
  - simpl in Hm. destruct (f a0) as [v0|e0] eqn:Hf; [|discriminate].
    apply NoDup_cons in Hnd as [Hk0 Hnd].
    destruct (IH _ _ Hnd Hm k) as [IH1 IH2]. split.
    + intros a Ha. apply elem_of_cons in Ha as [[= -> ->]|Ha].
      * exists v0. split; [done|].
        rewrite IH2 by done. apply lookup_insert_eq.
      * by apply IH1.
    + intros Hk. simpl in Hk. apply not_elem_of_cons in Hk as [Hne Hk].
      rewrite IH2 by done. by apply lookup_insert_ne.
Qed.

Lemma dict_comprehension_Raise (items : list (string * A)) :
  forall (acc : gmap string B) e,
  dict_comprehension f items acc = Raise e ->
  exists k a, (k, a) ∈ items /\ f a = Raise e.
Proof.
  induction items as [|[k0 a0] items IH]; intros acc e He; [discriminate|].
  simpl in He. destruct (f a0) as [v0|e0] eqn:Hf.
  - destruct (IH _ _ He) as (k & a & Hin & Hfa).
    exists k, a. split; [by apply elem_of_cons; right | done].
  - injection He as ->. exists k0, a0. split; [apply elem_of_cons; by left|done].
Qed.

Lemma dict_comprehension_total (items : list (string * A)) :
  forall (acc : gmap string B),
  (forall k a, (k, a) ∈ items -> exists v, f a = Ret v) ->
  exists m, dict_comprehension f items acc = Ret m.
Proof.
  induction items as [|[k0 a0] items IH]; intros acc Hall; [by eexists|].
  simpl. destruct (Hall k0 a0) as [v Hv]; [apply elem_of_cons; by left|].
  rewrite Hv. apply IH. intros k a Hin. apply (Hall k a).
  apply elem_of_cons. by right.
Qed.

End Comprehension.

Lemma extract_Raise (st : miio.Status) (attribute : string) (e : PyExc) :
  XiaomiGenericDevice._extract_value_from_attribute st attribute = Raise e ->
  e = AttributeError attribute /\ miio.fields st !! attribute = None.
Proof.
  unfold XiaomiGenericDevice._extract_value_from_attribute.
  destruct (miio.fields st !! attribute) as [[]|]; try discriminate.
  by intros [= <-].
Qed.

Lemma projection_not_device_fault st r e :
  projection st r = Raise e -> is_DeviceException e = false.
Proof.
  intros H. apply dict_comprehension_Raise in H as (k & a & _ & H).
  apply extract_Raise in H as [-> _]. reflexivity.
Qed.

(** What a poll does, by the skip flag and the answer of the device. *)
Lemma async_update_unfold (r : Run) :
  entity.async_update r =
  if _skip_update (self r) then
    (Ret tt, {| self := set__skip_update false (self r); trace := trace r |})
  else
    match miio.status (_device (self r)) with
    | Ret st =>
        let t := (trace r ++ [StatusRead (Ret st)])
                 ++ [Log DEBUG "Got new state: %s"] in
        let e := set__state (Some (miio.is_on st))
                   (set__available true (self r)) in
        match projection st r with
        | Ret values =>
            (Ret tt,
             {| self := set__state_attrs
                          (dict_update values (_state_attrs (self r))) e;
                trace := t |})
        | Raise ex => (Raise ex, {| self := e; trace := t |})
        end
    | Raise DeviceException =>
        if _available (self r) then
          (Ret tt,
           {| self := set__available false (self r);
              trace := (trace r ++ [StatusRead (Raise DeviceException)])
                       ++ [Log ERROR
                             "Got exception while fetching the state: %s"] |})
        else
          (Ret tt,
           {| self := self r;
              trace := trace r ++ [StatusRead (Raise DeviceException)] |})
    | Raise ex =>
        (Raise ex,
         {| self := self r; trace := trace r ++ [StatusRead (Raise ex)] |})
    end.
Proof.
  rewrite entity_async_update.
  unfold XiaomiAirPurifier.async_update, bind at 1. unfold get at 1.
  destruct (_skip_update (self r)) eqn:Hskip; [reflexivity|].
  unfold try_except, async_add_executor_job_status, bind, get, emit, lift,
    modify, _LOGGER.debug, _LOGGER.error, ret. simpl.
  destruct (miio.status (_device (self r))) as [st|ex] eqn:Hst; simpl.
  - fold (projection st r).
    destruct (projection st r) as [values|ex] eqn:Hp; simpl; [reflexivity|].
    by rewrite (projection_not_device_fault _ _ _ Hp).
  - destruct ex; simpl; try reflexivity.
    destruct (_available (self r)); reflexivity.
Qed.

(** ** Availability *)

Lemma perform_fault_available (o : Operation) (r : Run) :
  device_fault o r -> _available (self r) = true ->
  _available (self (perform o r)) = false
  /\ length (error_lines (trace (perform o r)))
     = S (length (error_lines (trace r)))
  /\ _device (self (perform o r)) = _device (self r)
  /\ _skip_update (self (perform o r)) = _skip_update (self r).
Proof.
  destruct o as [mask c|]; simpl.
  - intros Hf Ha. rewrite _try_command_unfold, Hf, Ha. simpl.
    rewrite !error_lines_app, !length_app. simpl. repeat split; try done; lia.
  - intros [Hs Hf] Ha. rewrite async_update_unfold, Hs, Hf, Ha. simpl.
    rewrite !error_lines_app, !length_app. simpl. repeat split; try done; lia.
Qed.

Lemma perform_fault_unavailable (o : Operation) (r : Run) :
  device_fault o r -> _available (self r) = false ->
  self (perform o r) = self r
  /\ exists call, is_vendor_call call = true
                  /\ trace (perform o r) = trace r ++ [call].
Proof.
  destruct o as [mask c|]; simpl.
  - intros Hf Ha. rewrite _try_command_unfold, Hf, Ha. simpl.
    split; [done|]. eexists; split; [|reflexivity]; reflexivity.
  - intros [Hs Hf] Ha. rewrite async_update_unfold, Hs, Hf, Ha. simpl.
    split; [done|]. eexists; split; [|reflexivity]; reflexivity.
Qed.

Lemma perform_logs_error (o : Operation) (r : Run) :
  error_lines (trace (perform o r)) <> error_lines (trace r) ->
  _available (self r) = true /\ _available (self (perform o r)) = false.
Proof.
  destruct o as [mask c|]; simpl.
  - rewrite _try_command_unfold.
    destruct (miio.command (_device (self r)) c) as [v|[]]; simpl;
      rewrite ?error_lines_app; simpl; rewrite ?app_nil_r; try done.
    destruct (_available (self r)); simpl;
      rewrite ?error_lines_app; simpl; rewrite ?app_nil_r; done.
  - rewrite async_update_unfold.
    destruct (_skip_update (self r)); simpl; [done|].
    destruct (miio.status (_device (self r))) as [st|[]]; simpl;
      rewrite ?error_lines_app; simpl; rewrite ?app_nil_r; try done.
    + destruct (projection st r); simpl;
        rewrite ?error_lines_app; simpl; rewrite ?app_nil_r; done.
    + destruct (_available (self r)); simpl;
        rewrite ?error_lines_app; simpl; rewrite ?app_nil_r; done.
Qed.

(** A run of operations against a device that stays out of reach. *)
Lemma faults_while_unavailable (ops : list Operation) :
  forall r,
  unreachable (_device (self r)) -> _skip_update (self r) = false ->
  _available (self r) = false ->
  self (foldl (fun r o => perform o r) r ops) = self r
  /\ error_lines (trace (foldl (fun r o => perform o r) r ops))
     = error_lines (trace r).
Proof.
  induction ops as [|o ops IH]; intros r Hu Hs Ha; [done|].
  simpl.
  assert (Hf : device_fault o r).
  { destruct Hu as [Hc Hst]. destruct o; simpl; auto. }
  destruct (perform_fault_unavailable o r Hf Ha) as (Hself & call & Hcall & Ht).
  destruct (IH (perform o r)) as [IH1 IH2]; rewrite ?Hself; try done.
  split; [by rewrite IH1|].
  rewrite IH2, Ht, error_lines_app. simpl.
  destruct call; simpl in *; try discriminate; by rewrite app_nil_r.
Qed.

(** C3. While the device is available, the first command or poll that
    meets a [DeviceException] makes it unavailable and writes exactly one
    error record; a fault met while it is unavailable changes nothing in the
    entity and writes no log record at all; a poll whose status read returns
    makes it available again.  Any number of faults in a row, starting from
    an available device, write one error record in total, and an operation
    writes an error record only if the device was available just before and
    is unavailable after. *)
Theorem C3_log_once_per_transition (o : Operation) (r : Run) :
  (device_fault o r -> _available (self r) = true ->
     _available (self (perform o r)) = false
     /\ length (error_lines (trace (perform o r)))
        = S (length (error_lines (trace r))))
  /\ (device_fault o r -> _available (self r) = false ->
        _available (self (perform o r)) = false
        /\ exists call, is_vendor_call call = true
                        /\ trace (perform o r) = trace r ++ [call])
  /\ (forall st, _skip_update (self r) = false ->
        miio.status (_device (self r)) = Ret st ->
        _available (self (perform poll_op r)) = true)
  /\ (forall ops, unreachable (_device (self r)) ->
        _skip_update (self r) = false -> _available (self r) = true ->
        let r' := foldl (fun r o => perform o r) r (o :: ops) in
        _available (self r') = false
        /\ length (error_lines (trace r')) = S (length (error_lines (trace r))))
  /\ (error_lines (trace (perform o r)) <> error_lines (trace r) ->
        _available (self r) = true
        /\ _available (self (perform o r)) = false).
Proof.
  split; [|split; [|split; [|split]]].
  - intros Hf Ha. by destruct (perform_fault_available o r Hf Ha) as (?&?&_).
  - intros Hf Ha.
    destruct (perform_fault_unavailable o r Hf Ha) as (Hself & Hcall).
    by rewrite Hself.
  - intros st Hs Hst. simpl. rewrite async_update_unfold, Hs, Hst. simpl.
    by destruct (projection st r).
  - intros ops Hu Hs Ha. simpl.
    assert (Hf : device_fault o r).
    { destruct Hu as [Hc Hst]. destruct o; simpl; auto. }
    destruct (perform_fault_available o r Hf Ha) as (Ha' & Hlen & Hdev & Hskip).
    destruct (faults_while_unavailable ops (perform o r)) as [H1 H2];
      rewrite ?Hdev, ?Hskip; try done.
    rewrite H1, H2. done.
  - apply perform_logs_error.
Qed.

Lemma C3_witness :
  let r := entity.start
             (set__available true
                (with_device device_unreachable airfresh_example)) in
  _available (self (perform poll_op r)) = false
  /\ length (error_lines (trace (perform poll_op r))) = 1%nat.
Proof.
  intros r.
  destruct (C3_log_once_per_transition poll_op r) as (H & _).
  apply H.
  - split; reflexivity.
  - reflexivity.
Defined.

(** ** Local state after a command *)

Lemma _try_command_keeps (mask : string) (c : miio.Call) (r : Run) :
  let r' := (XiaomiGenericDevice._try_command mask c r).2 in
  _state (self r') = _state (self r)
  /\ _skip_update (self r') = _skip_update (self r)
  /\ _state_attrs (self r') = _state_attrs (self r)
  /\ _device (self r') = _device (self r).
Proof.
  simpl. rewrite _try_command_unfold.
  destruct (miio.command (_device (self r)) c) as [v|[]]; simpl; try done.
  destruct (_available (self r)); done.
Qed.

Ltac unfold_method :=
  unfold bind, get, lift, ret, emit, modify, raise,
    XiaomiGenericDevice.supported_features, _LOGGER.debug, _LOGGER.error;
  simpl.

(** Methods that keep a relation between the entity before and after. *)
Section Frame.
Context (R : Entity -> Entity -> Prop).
Hypothesis R_refl : forall e, R e e.
Hypothesis R_trans : forall e1 e2 e3, R e1 e2 -> R e2 e3 -> R e1 e3.

Lemma respects_ret {A} (a : A) : respects R (ret a).
Proof. intros r. apply R_refl. Qed.

Lemma respects_raise {A} (e : PyExc) : respects R (@raise A e).
Proof. intros r. apply R_refl. Qed.

Lemma respects_lift {A} (x : Res A) : respects R (lift x).
Proof. intros r. apply R_refl. Qed.

Lemma respects_get {A} (f : Entity -> A) : respects R (get f).
Proof. intros r. apply R_refl. Qed.

Lemma respects_emit (ev : Event) : respects R (emit ev).
Proof. intros r. apply R_refl. Qed.

Lemma respects_bind {A B} (m : M A) (k : A -> M B) :
  respects R m -> (forall a, respects R (k a)) -> respects R (bind m k).
Proof.
  intros Hm Hk r. unfold bind. specialize (Hm r).
  destruct (m r) as [[a|e] r1]; simpl in *; [|done].
  eapply R_trans; [exact Hm|apply Hk].
Qed.

Lemma respects_try_command (mask : string) (c : miio.Call) :
  (forall e, R e (set__available false e)) ->
  respects R (XiaomiGenericDevice._try_command mask c).
Proof.
  intros Hav r. rewrite _try_command_unfold.
  destruct (miio.command (_device (self r)) c) as [v|[]]; simpl;
    try apply R_refl.
  destruct (_available (self r)); simpl; [apply Hav|apply R_refl].
Qed.

End Frame.

Ltac respects_step :=
  first
    [ apply respects_ret | apply respects_raise | apply respects_lift
    | apply respects_get | apply respects_emit
    | apply respects_try_command; try assumption
    | apply respects_bind; try assumption; [|intros ?]
    | match goal with
      | |- respects _ (if ?c then _ else _) => destruct c
      | |- respects _ (match ?c with _ => _ end) => destruct c
      end ].

Lemma async_set_speed_keeps (K : Consts) (speed : string) :
  respects same_state_and_flag (entity.async_set_speed K speed).
Proof.
  assert (Hrefl : forall e, same_state_and_flag e e) by (by split).
  assert (Htrans : forall e1 e2 e3, same_state_and_flag e1 e2 ->
            same_state_and_flag e2 e3 -> same_state_and_flag e1 e3).
  { intros e1 e2 e3 [? ?] [? ?]. split; congruence. }
  unfold entity.async_set_speed, XiaomiAirPurifier.async_set_speed,
    XiaomiAirPurifierMiot.async_set_speed, XiaomiAirHumidifier.async_set_speed,
    XiaomiAirHumidifierMiot.async_set_speed, XiaomiAirFresh.async_set_speed,
    XiaomiGenericDevice.supported_features, _LOGGER.debug.
  repeat respects_step; by intros e.
Qed.

(** C4 (as the code has it). When the vendor call of a turn-on without a
    speed argument, or of a turn-off, returns the success token, the command
    returns with the on/off state set and the poll-skip flag armed after
    exactly one vendor call, and the next poll reads nothing from the
    device, clears the flag and leaves every other attribute of the entity
    as it was.  A speed change never touches the on/off state or the
    poll-skip flag. *)
Theorem C4_skip_flag_after_turn_on_off (K : Consts) (r : Run) :
  (miio.command (_device (self r)) miio.on = Ret SUCCESS ->
     let out := entity.async_turn_on K None r in
     out.1 = Ret tt
     /\ _state (self out.2) = Some true
     /\ _skip_update (self out.2) = true
     /\ vendor_calls (trace out.2)
        = vendor_calls (trace r) ++ [Command miio.on (Ret SUCCESS)]
     /\ entity.async_update out.2
        = (Ret tt, {| self := set__skip_update false (self out.2);
                      trace := trace out.2 |}))
  /\ (miio.command (_device (self r)) miio.off = Ret SUCCESS ->
        let out := entity.async_turn_off r in
        out.1 = Ret tt
        /\ _state (self out.2) = Some false
        /\ _skip_update (self out.2) = true
        /\ vendor_calls (trace out.2)
           = vendor_calls (trace r) ++ [Command miio.off (Ret SUCCESS)]
        /\ entity.async_update out.2
           = (Ret tt, {| self := set__skip_update false (self out.2);
                         trace := trace out.2 |}))
  /\ (forall speed,
        let out := entity.async_set_speed K speed r in
        _state (self out.2) = _state (self r)
        /\ _skip_update (self out.2) = _skip_update (self r)).
Proof.
  split; [|split].
  - intros Hon. simpl.
    unfold entity.async_turn_on, XiaomiGenericDevice.async_turn_on.
    unfold_method. rewrite _try_command_unfold, Hon. simpl.
    rewrite async_update_unfold. simpl.
    rewrite !vendor_calls_app, Hon. simpl. rewrite app_nil_r. done.
  - intros Hoff. simpl.
    unfold entity.async_turn_off, XiaomiGenericDevice.async_turn_off.
    unfold_method. rewrite _try_command_unfold, Hoff. simpl.
    rewrite async_update_unfold. simpl.
    rewrite !vendor_calls_app, Hoff. simpl. rewrite app_nil_r. done.
  - intros speed. apply (async_set_speed_keeps K speed r).
Qed.

(** The statement of the specification fails for the speed change: on a fresh-air device that
    answers with the success token, [async_set_speed "auto"] returns after
    one successful vendor call with the poll-skip flag still clear, and the
    next poll reads the status from the device. *)
Lemma C4_counterexample :
  let out := entity.async_set_speed ha_consts "auto"
               (entity.start airfresh_example) in
  out.1 = Ret tt
  /\ vendor_calls (trace out.2)
     = [Command
          (miio.set_mode (VEnum "miio.airfresh.OperationMode" "Auto"
                            (VStr "auto")))
          (Ret SUCCESS)]
  /\ _skip_update (self out.2) = false
  /\ length (vendor_calls (trace (entity.async_update out.2).2)) = 2%nat.
Proof. vm_compute. repeat split. Qed.

Lemma C4_witness :
  let r := entity.start airfresh_example in
  let out := entity.async_turn_on ha_consts None r in
  _state (self out.2) = Some true /\ _skip_update (self out.2) = true.
Proof.
  intros r out.
  destruct (C4_skip_flag_after_turn_on_off ha_consts r) as [H _].
  destruct (H eq_refl) as (_ & Hs & Hk & _). split; assumption.
Defined.

(** Turn-on with a speed argument goes through [async_set_speed], whose
    call evaluates to [None]: the state is not set and the flag is not
    armed although the vendor call succeeded. *)
Example async_turn_on_with_speed :
  let out := entity.async_turn_on ha_consts (Some "auto")
               (entity.start airfresh_example) in
  out.1 = Ret tt
  /\ length (vendor_calls (trace out.2)) = 1%nat
  /\ _state (self out.2) = None
  /\ _skip_update (self out.2) = false.
Proof. vm_compute. repeat split. Qed.

(** ** Projection of the status *)

Lemma extract_Ret (st : miio.Status) (attribute : string) (v : PyVal) :
  XiaomiGenericDevice._extract_value_from_attribute st attribute = Ret v ->
  exists raw, miio.fields st !! attribute = Some raw
              /\ v = scalar_normalization raw.
Proof.
  unfold XiaomiGenericDevice._extract_value_from_attribute.
  destruct (miio.fields st !! attribute) as [raw|]; [|discriminate].
  intros H. exists raw. split; [done|].
  destruct raw; simpl; by injection H.
Qed.

Lemma status_value_scalar (raw : PyVal) :
  status_value raw = true -> is_scalar (scalar_normalization raw) = true.
Proof. by destruct raw. Qed.

(** The keys of the table after a projection that returned. *)
Lemma projection_lookup (st : miio.Status) (r : Run) (values : gmap string PyVal) :
  projection st r = Ret values ->
  forall key,
    match _available_attributes (self r) !! key with
    | Some field =>
        exists raw, miio.fields st !! field = Some raw
                    /\ values !! key = Some (scalar_normalization raw)
    | None => values !! key = None
    end.
Proof.
  intros Hp key. unfold projection in Hp.
  pose proof (dict_comprehension_Ret _ _ _ _
                (NoDup_fst_map_to_list _) Hp key) as [Hin Hout].
  destruct (_available_attributes (self r) !! key) as [field|] eqn:Hk.
  - destruct (Hin field) as (v & Hv & Hm); [by apply elem_of_map_to_list|].
    apply extract_Ret in Hv as (raw & Hraw & ->). eauto.
  - rewrite Hout; [apply lookup_empty|].
    intros Hel. apply list_elem_of_fmap in Hel as ([k a] & -> & Hel).
    apply elem_of_map_to_list in Hel. simpl in Hk. congruence.
Qed.

Lemma projection_total (st : miio.Status) (r : Run) :
  (forall key field, _available_attributes (self r) !! key = Some field ->
     is_Some (miio.fields st !! field)) ->
  exists values, projection st r = Ret values.
Proof.
  intros Hall. apply dict_comprehension_total. intros k a Hin.
  apply elem_of_map_to_list in Hin. destruct (Hall k a Hin) as [raw Hraw].
  unfold XiaomiGenericDevice._extract_value_from_attribute. rewrite Hraw.
  destruct raw; eauto.
Qed.

Lemma projection_missing (st : miio.Status) (r : Run) (key field : string) :
  _available_attributes (self r) !! key = Some field ->
  miio.fields st !! field = None ->
  exists name, projection st r = Raise (AttributeError name)
               /\ miio.fields st !! name = None.
Proof.
  intros Hk Hf. destruct (projection st r) as [values|e] eqn:Hp.
  - pose proof (projection_lookup _ _ _ Hp key) as H. rewrite Hk in H.
    destruct H as (raw & Hraw & _). congruence.
  - unfold projection in Hp.
    apply dict_comprehension_Raise in Hp as (k & a & _ & He).
    apply extract_Raise in He as [-> Hnone]. eauto.
Qed.

(** C5. After a poll that read the status object [st] and returned, every
    key of the entity's attribute table holds the raw value of its status
    property after scalar normalization (a member of an enumeration is
    replaced by its value), and that value is a plain scalar whenever the
    raw value is a scalar or a member with a scalar value.  If the attribute
    map held only plain scalars before the poll, it holds only plain scalars
    after it. *)
Theorem C5_projection_round_trip (r : Run) (st : miio.Status) :
  _skip_update (self r) = false ->
  miio.status (_device (self r)) = Ret st ->
  (entity.async_update r).1 = Ret tt ->
  let attrs := _state_attrs (self (entity.async_update r).2) in
  (forall key field,
     _available_attributes (self r) !! key = Some field ->
     exists raw,
       miio.fields st !! field = Some raw
       /\ attrs !! key = Some (scalar_normalization raw)
       /\ (status_value raw = true ->
           is_scalar (scalar_normalization raw) = true))
  /\ ((forall field raw, miio.fields st !! field = Some raw ->
         status_value raw = true) ->
      (forall key v, _state_attrs (self r) !! key = Some v ->
         is_scalar v = true) ->
      forall key v, attrs !! key = Some v -> is_scalar v = true).
Proof.
  intros Hs Hst. rewrite async_update_unfold, Hs, Hst. simpl.
  destruct (projection st r) as [values|e] eqn:Hp; simpl; [|discriminate].
  intros _. unfold dict_update. split.
  - intros key field Hk.
    pose proof (projection_lookup _ _ _ Hp key) as H. rewrite Hk in H.
    destruct H as (raw & Hraw & Hv). exists raw.
    split; [done|]. split; [|apply status_value_scalar].
    by apply lookup_union_Some_l.
  - intros Hvendor Hbefore key v Hv.
    apply lookup_union_Some_raw in Hv as [Hv|[_ Hv]]; [|by eapply Hbefore].
    pose proof (projection_lookup _ _ _ Hp key) as H.
    destruct (_available_attributes (self r) !! key) as [field|];
      [|congruence].
    destruct H as (raw & Hraw & Hv'). rewrite Hv in Hv'. injection Hv' as ->.
    apply status_value_scalar. by eapply Hvendor.
Qed.

Lemma C5_witness :
  let r := entity.start airfresh_example in
  exists raw,
    _state_attrs (self (entity.async_update r).2) !! "co2"
    = Some (scalar_normalization raw).
Proof.
  intros r.
  destruct (C5_projection_round_trip r
              (status_with true airfresh_properties (VInt 1))
              eq_refl eq_refl) as [H _].
  - vm_compute. reflexivity.
  - destruct (H "co2" "co2") as (raw & _ & Hraw & _).
    + vm_compute. reflexivity.
    + exists raw. exact Hraw.
Defined.

(** ** Faults during a poll *)

(** C6 (as the code has it). In a poll that reads the status object [st]:
    when every property of the table can be read the poll returns, the
    device is available and a property whose value is [None] is reported
    as [None]; when some property of the table is absent the poll raises
    [AttributeError], with the device marked available, the attribute map
    exactly as before the poll and no error record written.  A
    [DeviceException] from the status read makes the poll return with the
    device unavailable, and a poll takes availability away in no other
    case. *)
Theorem C6_poll_faults (r : Run) :
  _skip_update (self r) = false ->
  let out := entity.async_update r in
  (forall st, miio.status (_device (self r)) = Ret st ->
     (forall key field, _available_attributes (self r) !! key = Some field ->
        is_Some (miio.fields st !! field)) ->
     out.1 = Ret tt
     /\ _available (self out.2) = true
     /\ forall key field,
          _available_attributes (self r) !! key = Some field ->
          miio.fields st !! field = Some VNone ->
          _state_attrs (self out.2) !! key = Some VNone)
  /\ (forall st key field, miio.status (_device (self r)) = Ret st ->
        _available_attributes (self r) !! key = Some field ->
        miio.fields st !! field = None ->
        (exists name, out.1 = Raise (AttributeError name)
                      /\ miio.fields st !! name = None)
        /\ _state_attrs (self out.2) = _state_attrs (self r)
        /\ _available (self out.2) = true
        /\ error_lines (trace out.2) = error_lines (trace r))
  /\ (miio.status (_device (self r)) = Raise DeviceException ->
        out.1 = Ret tt /\ _available (self out.2) = false)
  /\ (_available (self r) = true -> _available (self out.2) = false ->
        miio.status (_device (self r)) = Raise DeviceException).
Proof.
  intros Hs out. subst out. rewrite async_update_unfold, Hs.
  split; [|split; [|split]].
  - intros st -> Hall. simpl.
    destruct (projection_total st r Hall) as [values Hp]. rewrite Hp. simpl.
    split; [done|]. split; [done|].
    intros key field Hk Hnone.
    pose proof (projection_lookup _ _ _ Hp key) as H. rewrite Hk in H.
    destruct H as (raw & Hraw & Hv). rewrite Hnone in Hraw.
    injection Hraw as <-. unfold dict_update. by apply lookup_union_Some_l.
  - intros st key field -> Hk Hnone. simpl.
    destruct (projection_missing st r key field Hk Hnone) as (name & -> & Hn).
    simpl. split; [eauto|]. split; [done|]. split; [done|].
    rewrite !error_lines_app. simpl. by rewrite !app_nil_r.
  - intros ->. destruct (_available (self r)) eqn:Ha; simpl; done.
  - intros Ha. rewrite Ha.
    destruct (miio.status (_device (self r))) as [st|[]]; simpl; try done;
      try congruence.
    destruct (projection st r); simpl; done.
Qed.

(** The statement of the specification fails when one property is absent: on a fresh-air device
    whose status object lacks [co2] and has every other property equal to 1,
    the poll raises [AttributeError] and no other attribute is projected
    ([aqi] is still [None]). *)
Lemma C6_counterexample :
  let r := entity.start
             (with_device (device_ok status_without_co2) airfresh_example) in
  let out := entity.async_update r in
  out.1 = Raise (AttributeError "co2")
  /\ miio.fields status_without_co2 !! "aqi" = Some (VInt 1)
  /\ _state_attrs (self out.2) !! "aqi" = Some VNone
  /\ _available (self out.2) = true.
Proof. vm_compute. repeat split. Qed.

Lemma C6_witness :
  let r := entity.start
             (with_device device_unreachable airfresh_example) in
  (entity.async_update r).1 = Ret tt
  /\ _available (self (entity.async_update r).2) = false.
Proof.
  intros r.
  destruct (C6_poll_faults r eq_refl) as (_ & _ & H & _).
  apply H. reflexivity.
Defined.

(** ** Schemas *)

Lemma validate_Clamp (lo hi x x' : Z) :
  vol.validate (vol.Clamp lo hi) x = Ret x' ->
  x' = Z.min hi (Z.max lo x)
  /\ (lo <= hi -> lo <= x' <= hi)
  /\ (lo <= x <= hi -> x' = x).
Proof.
  simpl. intros [= <-].
  destruct (Z.ltb_spec x lo); destruct (Z.ltb_spec hi lo);
    destruct (Z.ltb_spec hi x); lia.
Qed.

Lemma validate_items_nil (data params : list (string * Z)) :
  validate_items [] data = Ret params -> data = [] /\ params = [].
Proof. destruct data as [|[k x] rest]; simpl; [by intros [= <-]|done]. Qed.

Lemma validate_items_single key validator (data params : list (string * Z)) :
  NoDup data.*1 ->
  validate_items [(key, validator)] data = Ret params ->
  (data = [] /\ params = [])
  \/ exists x x', data = [(key, x)] /\ vol.validate validator x = Ret x'
                  /\ params = [(key, x')].
Proof.
  intros Hnd. destruct data as [|[k x] rest]; simpl; [intros [= <-]; by left|].
  destruct (String.eqb_spec key k) as [<-|]; simpl; [|done].
  destruct (vol.validate validator x) as [x'|] eqn:Hx; [|done].
  destruct rest as [|[k2 x2] rest]; simpl.
  - intros [= <-]. right. eauto.
  - destruct (String.eqb_spec key k2) as [<-|]; simpl; [|done].
    simpl in Hnd. apply NoDup_cons in Hnd as [Hnd _].
    exfalso. apply Hnd. apply elem_of_cons. by left.
Qed.

(** The data of a call that its schema accepts. *)
Lemma apply_schema_validated (K : Consts) (service : Service)
    (data params : list (string * Z)) :
  NoDup data.*1 ->
  apply_schema (schema_of K service) data = Ret params ->
  validated K service params.
Proof.
  intros Hnd. unfold apply_schema, schema_of, validated.
  destruct (SERVICE_TO_METHOD K service).2 as [schema|] eqn:Hs; simpl.
  - assert (exists key validator, required schema = [(key, validator)])
      as (key & validator & Hreq).
    { destruct service; simpl in Hs; try discriminate;
        injection Hs as <-; simpl; eauto. }
    rewrite Hreq. simpl. rewrite andb_true_r.
    destruct (existsb _ data) eqn:Hex; [|done].
    intros Hv.
    apply validate_items_single in Hv as [[-> _]|(x & x' & -> & Hx & ->)];
      [discriminate| |done].
    exists key, validator, x, x'. done.
  - intros Hv. by apply validate_items_nil in Hv as [_ ->].
Qed.

(** ** Command methods *)

Create HintDb methods discriminated.

#[local] Hint Unfold
  XiaomiGenericDevice.async_set_buzzer_on
  XiaomiGenericDevice.async_set_buzzer_off
  XiaomiGenericDevice.async_set_child_lock_on
  XiaomiGenericDevice.async_set_child_lock_off
  XiaomiAirPurifier.async_set_led_on XiaomiAirPurifier.async_set_led_off
  XiaomiAirPurifier.async_set_led_brightness
  XiaomiAirPurifier.async_set_favorite_level
  XiaomiAirPurifier.async_set_fan_level
  XiaomiAirPurifier.async_set_auto_detect_on
  XiaomiAirPurifier.async_set_auto_detect_off
  XiaomiAirPurifier.async_set_learn_mode_on
  XiaomiAirPurifier.async_set_learn_mode_off
  XiaomiAirPurifier.async_set_volume
  XiaomiAirPurifier.async_set_extra_features
  XiaomiAirPurifier.async_reset_filter
  XiaomiAirPurifierMiot.async_set_led_brightness
  XiaomiAirHumidifier.async_set_led_brightness
  XiaomiAirHumidifier.async_set_target_humidity
  XiaomiAirHumidifier.async_set_dry_on XiaomiAirHumidifier.async_set_dry_off
  XiaomiAirHumidifierMiot.async_set_led_brightness
  XiaomiAirHumidifierMiot.async_set_motor_speed
  XiaomiAirFresh.async_set_led_on XiaomiAirFresh.async_set_led_off
  XiaomiAirFresh.async_set_led_brightness
  XiaomiAirFresh.async_set_extra_features
  XiaomiAirFresh.async_reset_filter : methods.

Lemma bind_try_command (mask : string) (c : miio.Call) (r : Run) :
  (XiaomiGenericDevice._try_command mask c ;;; ret tt) r = run_command mask c r.
Proof.
  unfold run_command, bind, ret.
  by destruct (XiaomiGenericDevice._try_command mask c r) as [[b|e] r'].
Qed.

Ltac resolve_getattr H :=
  cbv [entity.getattr entity.mro entity.lookup_mro entity.lookup_dict
       entity.XiaomiGenericDevice_dict entity.XiaomiAirPurifier_dict
       entity.XiaomiAirPurifierMiot_dict entity.XiaomiAirHumidifier_dict
       entity.XiaomiAirHumidifierMiot_dict entity.XiaomiAirFresh_dict
       SERVICE_TO_METHOD find option_map String.eqb Ascii.eqb Bool.eqb
       fst snd] in H.

Ltac gate_closed Hf :=
  cbv [required_capability] in Hf; rewrite Hf; reflexivity.

Ltac gate_open Hf :=
  cbv [required_capability] in Hf;
  match goal with
  | |- context [(?a =? 0)%Z] =>
      destruct (Z.eqb_spec a 0) as [Heq|_]; [contradiction|]
  end.

(** Every method that a service can name is a capability gate in front of
    one [_try_command]: without the capability it returns at once, with it
    it runs one vendor call that carries the validated argument. *)
Lemma entity_call_spec (K : Consts) (cls : EntityClass) (svc : Service)
    (m : Method) (params : list (string * Z)) (r : Run) :
  entity.getattr cls (SERVICE_TO_METHOD K svc).1 = Some m ->
  validated K svc params ->
  (_device_features (self r) &' required_capability svc = 0 ->
     entity.call m params r = (Ret tt, r))
  /\ (_device_features (self r) &' required_capability svc <> 0 ->
        exists mask c,
          entity.call m params r = run_command mask c r
          /\ forall key x', params = [(key, x')] -> call_argument c = Some x').
Proof.
  intros Hg Hv.
  destruct cls, svc; resolve_getattr Hg; try discriminate Hg;
    injection Hg as <-;
    unfold validated in Hv; cbn [SERVICE_TO_METHOD snd] in Hv;
    try (destruct Hv as (key & validator & x & x' & Hreq & Hval & ->);
         injection Hreq as <- <-);
    try subst params;
    cbn [entity.call ATTR_BRIGHTNESS ATTR_LEVEL ATTR_VOLUME ATTR_FEATURES
         ATTR_HUMIDITY ATTR_MOTOR_SPEED String.eqb Ascii.eqb Bool.eqb];
    autounfold with methods;
    (split; intros Hf; unfold bind at 1; unfold get at 1; cbv beta iota;
     [gate_closed Hf|gate_open Hf]).
  all: try (do 2 eexists; split; [apply bind_try_command|];
            intros key0 x0 [=]; subst; reflexivity).
  all: apply validate_Clamp in Hval as (_ & Hr & _);
    specialize (Hr ltac:(lia));
    assert (x' = 0 \/ x' = 1 \/ x' = 2) as [-> | [-> | ->]] by lia;
    (do 2 eexists; split;
     [unfold bind at 1; unfold lift at 1; simpl (enum_call _ _);
      cbv beta iota; apply bind_try_command
     |intros key0 x0 [=]; subst; reflexivity]).
Qed.

Lemma run_command_returned (mask : string) (c : miio.Call) (r : Run) v :
  miio.command (_device (self r)) c = Ret v ->
  run_command mask c r
  = (Ret tt, after_call r c [Log DEBUG "Response received from miio device: %s"]).
Proof. intros H. unfold run_command. by rewrite _try_command_unfold, H. Qed.

Lemma run_command_returns (mask : string) (c : miio.Call) (r : Run) :
  raises_only_DeviceException (_device (self r)) ->
  (run_command mask c r).1 = Ret tt.
Proof.
  intros Hd. unfold run_command. rewrite _try_command_unfold.
  destruct (miio.command (_device (self r)) c) as [v|e] eqn:Hc; [done|].
  rewrite (Hd _ _ Hc). by destruct (_available (self r)).
Qed.

(** With validated parameters a method raises only what the device
    raises. *)
Lemma entity_call_returns (K : Consts) (cls : EntityClass) (svc : Service)
    (m : Method) (params : list (string * Z)) (r : Run) :
  entity.getattr cls (SERVICE_TO_METHOD K svc).1 = Some m ->
  validated K svc params ->
  raises_only_DeviceException (_device (self r)) ->
  (entity.call m params r).1 = Ret tt.
Proof.
  intros Hg Hv Hd.
  destruct (entity_call_spec K cls svc m params r Hg Hv) as [Hclosed Hopen].
  destruct (Z.eq_dec (_device_features (self r) &' required_capability svc) 0)
    as [Hf|Hf].
  - by rewrite (Hclosed Hf).
  - destruct (Hopen Hf) as (mask & c & -> & _). by apply run_command_returns.
Qed.

(** ** The loop of the service handler *)

Lemma for_entity_in_returns (K : Consts) (svc : Service)
    (params : list (string * Z)) (selected : Entity -> bool)
    (entities : Registry) :
  validated K svc params ->
  (forall host r, (host, r) ∈ entities ->
     raises_only_DeviceException (_device (self r))) ->
  for_entity_in (SERVICE_TO_METHOD K svc).1 params selected entities
  = (Ret tt,
     map (fun hr : string * Run =>
            (hr.1, (round (SERVICE_TO_METHOD K svc).1 params selected hr.2).1,
             (round (SERVICE_TO_METHOD K svc).1 params selected hr.2).2))
       entities).
Proof.
  intros Hv. induction entities as [|[host r] rest IH]; intros Hd; [done|].
  simpl. unfold round at 1 2.
  rewrite IH by (intros h' r' Hin; apply (Hd h' r'); apply elem_of_cons;
                 by right).
  destruct (selected (self r)); [|done].
  destruct (entity.getattr (class_ (self r)) (SERVICE_TO_METHOD K svc).1)
    as [m|] eqn:Hg; [|done].
  pose proof (entity_call_returns K _ svc m params r Hg Hv) as Hret.
  destruct (entity.call m params r) as [[[]|e] r'] eqn:Hcall; simpl in *.
  - done.
  - discriminate Hret. apply (Hd host r). apply elem_of_cons. by left.
Qed.

(** The handler serves every entity on its own when no device raises
    anything but [DeviceException]. *)
Lemma async_service_handler_map (K : Consts) (call : ServiceCall)
    (registry : Registry) :
  validated K (service call) (data call) ->
  (forall host r, (host, r) ∈ registry ->
     raises_only_DeviceException (_device (self r))) ->
  async_service_handler K call registry
  = (Ret tt, map (fun hr : string * Run => (hr.1, served K call hr.2)) registry).
Proof.
  intros Hv Hd. unfold async_service_handler.
  fold (selected_by call).
  rewrite (for_entity_in_returns K (service call) _ _ _ Hv Hd).
  f_equal. rewrite map_map. apply map_ext. intros [host r]. simpl.
  unfold served. by destruct (round _ _ _ r) as [r' []].
Qed.

(** ** Capability gate *)

(** C1. When the feature bitset of an entity lacks the capability that a
    named action requires, the handler's call of the action on that entity
    returns without an exception and leaves the run as it was: no vendor
    call, no log record, no change of the entity, and no update task when
    the class has no such method.  The parameters are those that the schema
    of the action lets through. *)
Theorem C1_capability_gate (K : Consts) (svc : Service)
    (raw params : list (string * Z)) (host : string) (r : Run) :
  NoDup raw.*1 ->
  apply_schema (schema_of K svc) raw = Ret params ->
  _device_features (self r) &' required_capability svc = 0 ->
  exists update_task,
    for_entity_in (SERVICE_TO_METHOD K svc).1 params (fun _ => true)
      [(host, r)]
    = (Ret tt, [(host, r, update_task)]).
Proof.
  intros Hnd Hraw Hf.
  pose proof (apply_schema_validated K svc raw params Hnd Hraw) as Hv.
  simpl.
  destruct (entity.getattr (class_ (self r)) (SERVICE_TO_METHOD K svc).1)
    as [m|] eqn:Hg; [|by eexists].
  destruct (entity_call_spec K _ svc m params r Hg Hv) as [Hclosed _].
  rewrite (Hclosed Hf). by eexists.
Qed.

(** Set-favorite-level on a fresh-air device: the bitset lacks the
    capability, and nothing is sent to the device. *)
Lemma C1_witness :
  exists update_task,
    for_entity_in "async_set_favorite_level" [("level", 5)] (fun _ => true)
      [("192.168.1.2", entity.start airfresh_example)]
    = (Ret tt, [("192.168.1.2", entity.start airfresh_example, update_task)]).
Proof.
  apply (C1_capability_gate ha_consts SERVICE_SET_FAVORITE_LEVEL
           [("level", 5)] [("level", 5)]).
  - apply NoDup_cons. split; [apply not_elem_of_nil|apply NoDup_nil_2].
  - reflexivity.
  - reflexivity.
Defined.

(** ** Argument domains *)

Lemma commands_sent_app (t u : list Event) :
  commands_sent (t ++ u) = commands_sent t ++ commands_sent u.
Proof. apply List.filter_app. Qed.

Lemma commands_sent_poll (r : Run) :
  commands_sent (trace (async_update_ha_state r)) = commands_sent (trace r).
Proof.
  unfold async_update_ha_state. rewrite async_update_unfold.
  destruct (_skip_update (self r)); [done|].
  destruct (miio.status (_device (self r))) as [st|[]]; simpl;
    try destruct (projection st r); try destruct (_available (self r));
    simpl; rewrite ?commands_sent_app; simpl; by rewrite ?app_nil_r.
Qed.

Lemma commands_sent_run_command (mask : string) (c : miio.Call) (r : Run) :
  commands_sent (trace (run_command mask c r).2)
  = commands_sent (trace r) ++ [Command c (miio.command (_device (self r)) c)].
Proof.
  unfold run_command. rewrite _try_command_unfold.
  destruct (miio.command (_device (self r)) c) as [v|e] eqn:Hc; simpl;
    [|destruct e; simpl; try destruct (_available (self r))]; simpl;
    rewrite ?commands_sent_app; simpl; rewrite ?app_nil_r, ?Hc; done.
Qed.

Lemma validate_Clamp_min_max (lo hi x : Z) :
  vol.validate (vol.Clamp lo hi) x = Ret (Z.min hi (Z.max lo x)).
Proof.
  simpl. f_equal.
  destruct (Z.ltb_spec x lo); destruct (Z.ltb_spec hi lo);
    destruct (Z.ltb_spec hi x); lia.
Qed.

(** A call with one argument that the validator of its schema lets
    through reaches the handler with the validated value. *)
Lemma async_call_validated (K : Consts) (svc : Service) (key : string)
    (validator : vol.Validator) (x x' : Z) (ids : option (list string))
    (registry : Registry) :
  (SERVICE_TO_METHOD K svc).2 = Some {| required := [(key, validator)] |} ->
  vol.validate validator x = Ret x' ->
  async_call K (call_with svc ids key x) registry
  = async_service_handler K (call_with svc ids key x') registry.
Proof.
  intros Hs Hx. unfold async_call, call_with. simpl. rewrite Hs. simpl.
  unfold apply_schema. simpl. rewrite String.eqb_refl. simpl.
  by rewrite Hx.
Qed.

Lemma async_call_rejected (K : Consts) (svc : Service) (key : string)
    (validator : vol.Validator) (x : Z) (e : PyExc)
    (ids : option (list string)) (registry : Registry) :
  (SERVICE_TO_METHOD K svc).2 = Some {| required := [(key, validator)] |} ->
  vol.validate validator x = Raise e ->
  async_call K (call_with svc ids key x) registry = (Raise e, registry).
Proof.
  intros Hs Hx. unfold async_call, call_with. simpl. rewrite Hs. simpl.
  unfold apply_schema. simpl. rewrite String.eqb_refl. simpl.
  by rewrite Hx.
Qed.

(** C2 (as the code has it). For a named action with a parameter: the
    validator of its schema is [Clamp] for led brightness, favorite level,
    fan level, volume and motor speed, [In] for the target humidity and
    [cv.positive_int] for the extra features.  An argument that the
    validator refuses is rejected with the validator's exception before the
    handler runs, so the registry is untouched and no entity sees the call.
    A target humidity outside 30, 40, 50, 60, 70, 80 is refused with
    [Invalid] and one of these values goes through unchanged; with
    [cv.positive_int] being [Range(min=0)], a negative extra-features value
    is refused with [Invalid] and a non-negative one goes through
    unchanged.  A [Clamp] validator refuses nothing: the five clamped
    services accept every argument, moving one outside the range to the
    nearest bound and letting one inside through unchanged.  An argument
    that the validator lets through reaches a selected entity that has the
    method and the capability as exactly one command to the device, which
    carries the validated value; the poll that follows sends no command. *)
Theorem C2_argument_domains (K : Consts) (svc : Service) (key : string)
    (validator : vol.Validator) (x : Z) :
  (SERVICE_TO_METHOD K svc).2 = Some {| required := [(key, validator)] |} ->
  validator
  = match svc with
    | SERVICE_SET_LED_BRIGHTNESS => vol.Clamp 0 2
    | SERVICE_SET_FAVORITE_LEVEL => vol.Clamp 0 17
    | SERVICE_SET_FAN_LEVEL => vol.Clamp 1 3
    | SERVICE_SET_VOLUME => vol.Clamp 0 100
    | SERVICE_SET_MOTOR_SPEED => vol.Clamp 200 2000
    | SERVICE_SET_TARGET_HUMIDITY => vol.In [30; 40; 50; 60; 70; 80]
    | SERVICE_SET_EXTRA_FEATURES => positive_int K
    | _ => validator
    end
  /\ (forall e ids registry,
     vol.validate validator x = Raise e ->
     async_call K {| service := svc; entity_ids := ids; data := [(key, x)] |}
       registry
     = (Raise e, registry))
  /\ (forall lo hi, validator = vol.Clamp lo hi -> lo <= hi ->
        exists x', vol.validate validator x = Ret x'
                   /\ lo <= x' <= hi
                   /\ x' = Z.min hi (Z.max lo x)
                   /\ (lo <= x <= hi -> x' = x))
  /\ (forall x' host r m,
        vol.validate validator x = Ret x' ->
        entity.getattr (class_ (self r)) (SERVICE_TO_METHOD K svc).1 = Some m ->
        _device_features (self r) &' required_capability svc <> 0 ->
        exists mask c,
          call_argument c = Some x'
          /\ for_entity_in (SERVICE_TO_METHOD K svc).1 [(key, x')]
               (fun _ => true) [(host, r)]
             = ((run_command mask c r).1,
                [(host, (run_command mask c r).2,
                  match (run_command mask c r).1 with
                  | Ret _ => true
                  | Raise _ => false
                  end)])
          /\ vendor_calls (trace (run_command mask c r).2)
             = vendor_calls (trace r)
               ++ [Command c (miio.command (_device (self r)) c)])
  /\ (svc = SERVICE_SET_TARGET_HUMIDITY ->
      (x ∈ [30; 40; 50; 60; 70; 80] -> vol.validate validator x = Ret x)
      /\ (x ∉ [30; 40; 50; 60; 70; 80] ->
          forall ids registry,
            async_call K (call_with svc ids key x) registry
            = (Raise Invalid, registry)))
  /\ (svc = SERVICE_SET_EXTRA_FEATURES -> positive_int K = vol.Range 0 ->
      (0 <= x -> vol.validate validator x = Ret x)
      /\ (x < 0 ->
          forall ids registry,
            async_call K (call_with svc ids key x) registry
            = (Raise Invalid, registry)))
  /\ (svc ∈ CLAMPED_SERVICES ->
      exists lo hi,
        validator = vol.Clamp lo hi /\ lo <= hi
        /\ vol.validate validator x = Ret (Z.min hi (Z.max lo x)))
  /\ (forall x' ids host r,
        vol.validate validator x = Ret x' ->
        selected_by (call_with svc ids key x) (self r) = true ->
        is_Some (entity.getattr (class_ (self r)) (SERVICE_TO_METHOD K svc).1) ->
        _device_features (self r) &' required_capability svc <> 0 ->
        exists c r',
          call_argument c = Some x'
          /\ (async_call K (call_with svc ids key x) [(host, r)]).2
             = [(host, r')]
          /\ commands_sent (trace r')
             = commands_sent (trace r)
               ++ [Command c (miio.command (_device (self r)) c)]
          /\ (raises_only_DeviceException (_device (self r)) ->
              (async_call K (call_with svc ids key x) [(host, r)]).1 = Ret tt)).
Proof.
  intros Hs.
  assert (Htable : validator
            = match svc with
              | SERVICE_SET_LED_BRIGHTNESS => vol.Clamp 0 2
              | SERVICE_SET_FAVORITE_LEVEL => vol.Clamp 0 17
              | SERVICE_SET_FAN_LEVEL => vol.Clamp 1 3
              | SERVICE_SET_VOLUME => vol.Clamp 0 100
              | SERVICE_SET_MOTOR_SPEED => vol.Clamp 200 2000
              | SERVICE_SET_TARGET_HUMIDITY => vol.In [30; 40; 50; 60; 70; 80]
              | SERVICE_SET_EXTRA_FEATURES => positive_int K
              | _ => validator
              end).
  { destruct svc; simpl in Hs; try discriminate; by injection Hs as <- <-. }
  split; [exact Htable|]. split; [|split; [|split; [|split; [|split; [|split]]]]].
  - intros e ids registry Hx.
    by apply (async_call_rejected K svc key validator x e ids registry).
  - intros lo hi -> Hle. eexists. split; [reflexivity|].
    destruct (validate_Clamp lo hi x _ eq_refl) as (H1 & H2 & H3). auto.
  - intros x' host r m Hx Hg Hf.
    assert (Hv : validated K svc [(key, x')]).
    { unfold validated. rewrite Hs. exists key, validator, x, x'. done. }
    destruct (entity_call_spec K _ svc m _ r Hg Hv) as [_ Hopen].
    destruct (Hopen Hf) as (mask & c & Hcall & Harg).
    exists mask, c. split; [by eapply Harg|]. split.
    + simpl. rewrite Hg, Hcall.
      unfold run_command.
      by destruct (XiaomiGenericDevice._try_command mask c r) as [[b|e] r'].
    + unfold run_command. rewrite _try_command_unfold.
      destruct (miio.command (_device (self r)) c) as [v|e] eqn:Hc; simpl;
        [|destruct e; simpl; try destruct (_available (self r))]; simpl;
        rewrite ?vendor_calls_app; simpl; rewrite ?app_nil_r, ?Hc; done.
  - intros ->. rewrite Htable. split.
    + intros Hin. simpl.
      repeat (apply elem_of_cons in Hin as [->|Hin]; [done|]).
      by apply elem_of_nil in Hin.
    + intros Hout ids registry.
      apply (async_call_rejected K _ key validator x Invalid ids registry Hs).
      rewrite Htable. cbn [vol.validate].
      destruct (existsb (Z.eqb x) [30; 40; 50; 60; 70; 80]) eqn:Hex; [|done].
      exfalso. apply Hout. apply existsb_exists in Hex as (y & Hy & Heq).
      apply Z.eqb_eq in Heq as ->. by apply list_elem_of_In.
  - intros -> Hpos. rewrite Htable, Hpos. split.
    + intros Hx. simpl. by destruct (Z.ltb_spec x 0); [lia|].
    + intros Hx ids registry.
      apply (async_call_rejected K _ key validator x Invalid ids registry Hs).
      rewrite Htable, Hpos. simpl. by destruct (Z.ltb_spec x 0); [|lia].
  - intros Hin. unfold CLAMPED_SERVICES in Hin.
    repeat (apply elem_of_cons in Hin as [->|Hin];
            [rewrite Htable; eexists _, _; split; [reflexivity|];
             split; [lia|apply validate_Clamp_min_max]
            |]).
    by apply elem_of_nil in Hin.
  - intros x' ids host r Hx Hsel [m Hg] Hf.
    assert (Hv : validated K svc [(key, x')]).
    { unfold validated. rewrite Hs. exists key, validator, x, x'. done. }
    destruct (entity_call_spec K _ svc m _ r Hg Hv) as [_ Hopen].
    destruct (Hopen Hf) as (mask & c & Hcall & Harg).
    rewrite (async_call_validated K svc key validator x x' ids _ Hs Hx).
    assert (Hsel' : selected_by (call_with svc ids key x') (self r) = true)
      by exact Hsel.
    unfold async_service_handler. fold (selected_by (call_with svc ids key x')).
    cbn [for_entity_in call_with service data]. rewrite Hsel', Hg, Hcall.
    pose proof (commands_sent_run_command mask c r) as Hsent.
    pose proof (run_command_returns mask c r) as Hret.
    destruct (run_command mask c r) as [[[]|e] r1]; simpl in *.
    + exists c, (async_update_ha_state r1).
      split; [by eapply Harg|]. split; [done|]. split; [|done].
      by rewrite commands_sent_poll.
    + exists c, r1. split; [by eapply Harg|]. split; [done|].
      split; [done|]. intros Hd. by specialize (Hret Hd).
Qed.

(** The statement of the specification fails for a clamped range: set-led-brightness with level 5 on
    a purifier 3 is not rejected; the handler returns, and the device is
    sent [set_led_brightness] with the member of value 2. *)
Lemma C2_counterexample :
  let out :=
    async_call ha_consts
      {| service := SERVICE_SET_LED_BRIGHTNESS; entity_ids := None;
         data := [("brightness", 5)] |}
      [("192.168.1.3", entity.start purifier3_example)] in
  out.1 = Ret tt
  /\ exists r, out.2 = [("192.168.1.3", r)]
      /\ List.filter (fun ev => match ev with Command _ _ => true | _ => false end)
           (trace r)
         = [Command
              (miio.set_led_brightness
                 (VEnum "miio.airpurifier_miot.LedBrightness" "Off" (VInt 2)))
              (Ret SUCCESS)].
Proof. vm_compute. split; [reflexivity|]. eexists. split; reflexivity. Qed.

Lemma C2_witness :
  async_call ha_consts
    (call_with SERVICE_SET_TARGET_HUMIDITY None "humidity" 45)
    [("192.168.1.4", entity.start humidifier_miot_example)]
  = (Raise Invalid, [("192.168.1.4", entity.start humidifier_miot_example)])
  /\ async_call ha_consts
       (call_with SERVICE_SET_EXTRA_FEATURES None "features" (-1))
       [("192.168.1.1", entity.start airfresh_example)]
     = (Raise Invalid, [("192.168.1.1", entity.start airfresh_example)])
  /\ (exists c r',
        call_argument c = Some 2
        /\ (async_call ha_consts
              (call_with SERVICE_SET_LED_BRIGHTNESS None "brightness" 5)
              [("192.168.1.3", entity.start purifier3_example)]).2
           = [("192.168.1.3", r')]
        /\ commands_sent (trace r') = [Command c (Ret SUCCESS)])
  /\ (exists c r',
        call_argument c = Some 1
        /\ (async_call ha_consts
              (call_with SERVICE_SET_LED_BRIGHTNESS None "brightness" 1)
              [("192.168.1.3", entity.start purifier3_example)]).2
           = [("192.168.1.3", r')]
        /\ commands_sent (trace r') = [Command c (Ret SUCCESS)]).
Proof.
  split; [|split; [|split]].
  - destruct (C2_argument_domains ha_consts SERVICE_SET_TARGET_HUMIDITY
                "humidity" (vol.In [30; 40; 50; 60; 70; 80]) 45 eq_refl)
      as (_ & _ & _ & _ & H & _).
    apply H; [reflexivity|]. rewrite !elem_of_cons, elem_of_nil. lia.
  - destruct (C2_argument_domains ha_consts SERVICE_SET_EXTRA_FEATURES
                "features" (vol.Range 0) (-1) eq_refl)
      as (_ & _ & _ & _ & _ & H & _).
    apply H; [reflexivity|reflexivity|lia].
  - destruct (C2_argument_domains ha_consts SERVICE_SET_LED_BRIGHTNESS
                "brightness" (vol.Clamp 0 2) 5 eq_refl)
      as (_ & _ & _ & _ & _ & _ & _ & H).
    destruct (H 2 None "192.168.1.3" (entity.start purifier3_example))
      as (c & r' & Harg & Hout & Hcmd & _).
    + reflexivity.
    + reflexivity.
    + vm_compute. by eexists.
    + vm_compute. discriminate.
    + exists c, r'. split; [exact Harg|]. split; [exact Hout|]. exact Hcmd.
  - destruct (C2_argument_domains ha_consts SERVICE_SET_LED_BRIGHTNESS
                "brightness" (vol.Clamp 0 2) 1 eq_refl)
      as (_ & _ & _ & _ & _ & _ & _ & H).
    destruct (H 1 None "192.168.1.3" (entity.start purifier3_example))
      as (c & r' & Harg & Hout & Hcmd & _).
    + reflexivity.
    + reflexivity.
    + vm_compute. by eexists.
    + vm_compute. discriminate.
    + exists c, r'. split; [exact Harg|]. split; [exact Hout|]. exact Hcmd.
Defined.

(** Level 1 on the purifier 3: one vendor call, answered with the success
    token. *)
Example set_led_brightness_1 :
  let out :=
    for_entity_in "async_set_led_brightness" [("brightness", 1)]
      (fun _ => true) [("192.168.1.3", entity.start purifier3_example)] in
  out.1 = Ret tt
  /\ exists r, out.2 = [("192.168.1.3", r, true)]
      /\ vendor_calls (trace r)
         = [Command
              (miio.set_led_brightness
                 (VEnum "miio.airpurifier_miot.LedBrightness" "Dim" (VInt 1)))
              (Ret SUCCESS)].
Proof. vm_compute. split; [reflexivity|]. eexists. split; reflexivity. Qed.

(** ** Broadcast *)

(** The poll only appends to the trace. *)
Lemma poll_keeps_trace (r : Run) (ev : Event) :
  ev ∈ trace r -> ev ∈ trace (async_update_ha_state r).
Proof.
  intros Hin. unfold async_update_ha_state. rewrite async_update_unfold.
  destruct (_skip_update (self r)); [done|].
  destruct (miio.status (_device (self r))) as [st|[]]; simpl;
    try destruct (projection st r); try destruct (_available (self r));
    simpl; rewrite ?elem_of_app; tauto.
Qed.

Lemma served_supported (K : Consts) (call : ServiceCall) (r : Run) :
  validated K (service call) (data call) ->
  supports K call (self r) ->
  (forall c, miio.command (_device (self r)) c = Ret SUCCESS) ->
  exists c,
    served K call r
    = async_update_ha_state
        (after_call r c [Log DEBUG "Response received from miio device: %s"])
    /\ Command c (Ret SUCCESS)
       ∈ trace (after_call r c
                  [Log DEBUG "Response received from miio device: %s"]).
Proof.
  intros Hv (Hsel & [m Hg] & Hf) Hok.
  destruct (entity_call_spec K _ _ m _ r Hg Hv) as [_ Hopen].
  destruct (Hopen Hf) as (mask & c & Hcall & _).
  exists c. unfold served, round. rewrite Hsel, Hg, Hcall.
  rewrite (run_command_returned mask c r SUCCESS (Hok c)). split; [done|].
  unfold after_call. simpl. rewrite Hok.
  apply elem_of_app. left. apply elem_of_app. right. apply list_elem_of_singleton.
  done.
Qed.

Lemma served_unreachable (K : Consts) (call : ServiceCall) (r : Run) :
  validated K (service call) (data call) ->
  supports K call (self r) ->
  unreachable (_device (self r)) ->
  _available (self (served K call r)) = false
  /\ exists c, Command c (Raise DeviceException) ∈ trace (served K call r).
Proof.
  intros Hv (Hsel & [m Hg] & Hf) [Hbad Hst].
  destruct (entity_call_spec K _ _ m _ r Hg Hv) as [_ Hopen].
  destruct (Hopen Hf) as (mask & c & Hcall & _).
  unfold served, round. rewrite Hsel, Hg, Hcall.
  unfold run_command. rewrite _try_command_unfold, Hbad. split.
  - unfold async_update_ha_state.
    destruct (_available (self r)) eqn:Ha; simpl;
      rewrite async_update_unfold; simpl;
      destruct (_skip_update (self r)); simpl; rewrite ?Hst, ?Ha; done.
  - exists c. destruct (_available (self r)); simpl;
      apply poll_keeps_trace; simpl; rewrite !elem_of_app;
      rewrite !list_elem_of_singleton; tauto.
Qed.

(** C7. A call is broadcast to three entities; the device of the second
    raises [DeviceException] on every call, the devices of the first and the
    third answer every command with the success token.  The handler returns
    without an exception, and the first and the third entity end exactly as
    when each is served alone: the failure of the second changes nothing in
    them.  When such an entity supports the action, it ends with the vendor
    call answered with the success token in its trace, followed by the poll;
    the second entity, when it supports the action, ends unavailable with
    the vendor call that raised in its trace. *)
Theorem C7_broadcast_isolation (K : Consts) (call : ServiceCall)
    (h1 h2 h3 : string) (r1 r2 r3 : Run) :
  validated K (service call) (data call) ->
  (forall c, miio.command (_device (self r1)) c = Ret SUCCESS) ->
  unreachable (_device (self r2)) ->
  (forall c, miio.command (_device (self r3)) c = Ret SUCCESS) ->
  async_service_handler K call [(h1, r1); (h2, r2); (h3, r3)]
  = (Ret tt,
     [(h1, served K call r1); (h2, served K call r2); (h3, served K call r3)])
  /\ async_service_handler K call [(h1, r1)] = (Ret tt, [(h1, served K call r1)])
  /\ async_service_handler K call [(h3, r3)] = (Ret tt, [(h3, served K call r3)])
  /\ (forall r, (r = r1 \/ r = r3) -> supports K call (self r) ->
        exists c,
          served K call r
          = async_update_ha_state
              (after_call r c
                 [Log DEBUG "Response received from miio device: %s"])
          /\ Command c (Ret SUCCESS)
             ∈ trace (after_call r c
                        [Log DEBUG "Response received from miio device: %s"])
          /\ Command c (Ret SUCCESS) ∈ trace (served K call r)
          /\ commands_sent (trace (served K call r))
             = commands_sent (trace r) ++ [Command c (Ret SUCCESS)])
  /\ (supports K call (self r2) ->
      _available (self (served K call r2)) = false
      /\ exists c,
           Command c (Raise DeviceException) ∈ trace (served K call r2)).
Proof.
  intros Hv Hok1 [Hbad2 Hst2] Hok3.
  assert (Hd1 : raises_only_DeviceException (_device (self r1))).
  { intros c e. rewrite Hok1. discriminate. }
  assert (Hd2 : raises_only_DeviceException (_device (self r2))).
  { intros c e. rewrite Hbad2. by intros [= <-]. }
  assert (Hd3 : raises_only_DeviceException (_device (self r3))).
  { intros c e. rewrite Hok3. discriminate. }
  split; [|split; [|split; [|split]]].
  - apply (async_service_handler_map K call [(h1, r1); (h2, r2); (h3, r3)] Hv).
    intros host r Hin.
    repeat (apply elem_of_cons in Hin as [[= -> ->]|Hin]; [done|]).
    by apply elem_of_nil in Hin.
  - apply (async_service_handler_map K call [(h1, r1)] Hv).
    intros host r Hin. apply list_elem_of_singleton in Hin as [= -> ->]. done.
  - apply (async_service_handler_map K call [(h3, r3)] Hv).
    intros host r Hin. apply list_elem_of_singleton in Hin as [= -> ->]. done.
  - intros r Hr Hsup.
    assert (Hok : forall c, miio.command (_device (self r)) c = Ret SUCCESS)
      by (by destruct Hr as [-> | ->]).
    destruct (served_supported K call r Hv Hsup Hok) as (c & Heq & Hin).
    exists c. split; [exact Heq|]. split; [exact Hin|]. split.
    + rewrite Heq. by apply poll_keeps_trace.
    + rewrite Heq, commands_sent_poll. unfold after_call. simpl.
      rewrite !commands_sent_app, Hok. simpl. by rewrite app_nil_r.
  - intros Hsup. by apply served_unreachable.
Qed.

Lemma C7_witness :
  let mk := fun d => entity.start (with_device d airfresh_example) in
  let ok := device_ok (status_with true airfresh_properties (VInt 1)) in
  let out :=
    async_service_handler ha_consts
      {| service := SERVICE_SET_BUZZER_ON; entity_ids := None; data := [] |}
      [("192.168.1.1", mk ok); ("192.168.1.2", mk device_unreachable);
       ("192.168.1.3", mk ok)] in
  out.1 = Ret tt
  /\ (exists c r, out.2 !! 0%nat = Some ("192.168.1.1", r)
                  /\ commands_sent (trace r) = [Command c (Ret SUCCESS)])
  /\ (exists c r, out.2 !! 1%nat = Some ("192.168.1.2", r)
                  /\ _available (self r) = false
                  /\ Command c (Raise DeviceException) ∈ trace r)
  /\ (exists c r, out.2 !! 2%nat = Some ("192.168.1.3", r)
                  /\ commands_sent (trace r) = [Command c (Ret SUCCESS)])
  /\ map (fun hr : string * Run => commands_sent (trace hr.2)) out.2
     = [[Command (miio.set_buzzer true) (Ret SUCCESS)];
        [Command (miio.set_buzzer true) (Raise DeviceException)];
        [Command (miio.set_buzzer true) (Ret SUCCESS)]].
Proof.
  intros mk ok out.
  destruct (C7_broadcast_isolation ha_consts
              {| service := SERVICE_SET_BUZZER_ON; entity_ids := None;
                 data := [] |}
              "192.168.1.1" "192.168.1.2" "192.168.1.3"
              (mk ok) (mk device_unreachable) (mk ok))
    as (Hout & _ & _ & Hok & Hbad).
  - reflexivity.
  - intros c. reflexivity.
  - split; [intros c|]; reflexivity.
  - intros c. reflexivity.
  - assert (Hsup : forall d,
              supports ha_consts
                {| service := SERVICE_SET_BUZZER_ON; entity_ids := None;
                   data := [] |} (self (mk d))).
    { intros d. split; [reflexivity|]. split; [by eexists|].
      vm_compute. discriminate. }
    destruct (Hok (mk ok) (or_introl eq_refl) (Hsup ok))
      as (c & _ & _ & _ & Hsent).
    destruct (Hbad (Hsup device_unreachable)) as (Hav & c2 & Hin2).
    subst out. rewrite Hout. split; [reflexivity|].
    split; [exists c; eexists; split; [reflexivity|exact Hsent]|].
    split; [exists c2; eexists; split; [reflexivity|]; split; assumption|].
    split; [exists c; eexists; split; [reflexivity|exact Hsent]|].
    vm_compute. reflexivity.
Defined.

(** The three-device scenario run on the code: both healthy devices
    receive [set_buzzer] answered with the success token, the broken one
    stays unavailable. *)
Example broadcast_three_devices :
  let mk := fun d => entity.start (with_device d airfresh_example) in
  let ok := device_ok (status_with true airfresh_properties (VInt 1)) in
  let out :=
    async_service_handler ha_consts
      {| service := SERVICE_SET_BUZZER_ON; entity_ids := None; data := [] |}
      [("192.168.1.1", mk ok); ("192.168.1.2", mk device_unreachable);
       ("192.168.1.3", mk ok)] in
  out.1 = Ret tt
  /\ map (fun hr : string * Run =>
            (_available (self hr.2),
             List.filter (fun ev => match ev with
                                    | Command _ _ => true
                                    | _ => false
                                    end) (trace hr.2)))
       out.2
     = [(true, [Command (miio.set_buzzer true) (Ret SUCCESS)]);
        (false, [Command (miio.set_buzzer true) (Raise DeviceException)]);
        (true, [Command (miio.set_buzzer true) (Ret SUCCESS)])].
Proof. vm_compute. split; reflexivity. Qed.

(** ** Variant resolution *)

Lemma py_in_spec (x : string) (l : list string) :
  py_in x l = true <-> x ∈ l.
Proof.
  unfold py_in. rewrite existsb_exists. split.
  - intros (y & Hin & Heq). apply String.eqb_eq in Heq as ->.
    by apply list_elem_of_In.
  - intros Hin. exists x. split; [by apply list_elem_of_In|apply String.eqb_refl].
Qed.



Lemma purifier_init_fields (K : Consts) cls id device model :
  class_ (XiaomiAirPurifier.__init__ K cls id device model) = cls
  /\ _model (XiaomiAirPurifier.__init__ K cls id device model) = model.
Proof.
  unfold XiaomiAirPurifier.__init__. simpl.
  repeat match goal with
         | |- context [String.eqb model ?c] =>
             destruct (String.eqb model c); simpl; try done
         end.
Qed.

Lemma humidifier_init_fields (K : Consts) cls id device model :
  class_ (XiaomiAirHumidifier.__init__ K cls id device model) = cls
  /\ _model (XiaomiAirHumidifier.__init__ K cls id device model) = model.
Proof.
  unfold XiaomiAirHumidifier.__init__, py_in. simpl.
  repeat match goal with
         | |- context [String.eqb model ?c] =>
             destruct (String.eqb model c); simpl; try done
         end.
Qed.



(** ** Speed change *)

Lemma REVERSE_MODE_MAPPING_is_Some (K : Consts) (speed : string) :
  is_Some (XiaomiAirHumidifierMiot.REVERSE_MODE_MAPPING K !! speed)
  <-> speed ∈ [SPEED_LOW K; SPEED_MEDIUM K; SPEED_HIGH K].
Proof.
  unfold XiaomiAirHumidifierMiot.REVERSE_MODE_MAPPING,
    XiaomiAirHumidifierMiot.MODE_MAPPING.
  simpl. rewrite !lookup_insert_is_Some, lookup_empty, !elem_of_cons.
  split.
  - intros [->|[_ [->|[_ [->|[_ H]]]]]]; auto. by destruct H.
  - intros [->|[->|[->|H]]]; [| |by left|by apply elem_of_nil in H].
    + destruct (decide (SPEED_HIGH K = SPEED_LOW K)) as [?|?]; [by left|].
      destruct (decide (SPEED_MEDIUM K = SPEED_LOW K)) as [?|?];
        [right; split; [done|by left]|].
      right. split; [done|]. right. split; [done|]. by left.
    + destruct (decide (SPEED_HIGH K = SPEED_MEDIUM K)) as [?|?]; [by left|].
      right. split; [done|]. by left.
Qed.

(** C10. On the MiOT humidifier a speed change with one of the three speed
    names [SPEED_LOW], [SPEED_MEDIUM], [SPEED_HIGH] is one [set_mode] vendor
    call; with any other string the lookup in the reverse mapping raises
    [KeyError] and the run is as before, so nothing was sent to the device.
    On every other class the method first tests the set-speed capability
    and returns at once without it; with it, it writes a debug record and
    resolves the title-cased name in the mode enumeration of the class,
    sending one [set_mode] call with the member found. *)
Theorem C10_speed_names (K : Consts) (speed : string) (r : Run) :
  (class_ (self r) = XiaomiAirHumidifierMiot ->
     (speed ∈ [SPEED_LOW K; SPEED_MEDIUM K; SPEED_HIGH K] ->
        exists mode,
          XiaomiAirHumidifierMiot.REVERSE_MODE_MAPPING K !! speed = Some mode
          /\ entity.async_set_speed K speed r
             = run_command "Setting operation mode of the miio device failed."
                 (miio.set_mode mode) r)
     /\ (speed ∉ [SPEED_LOW K; SPEED_MEDIUM K; SPEED_HIGH K] ->
           entity.async_set_speed K speed r = (Raise (KeyError speed), r)))
  /\ (forall E, mode_vocabulary (class_ (self r)) = Some E ->
        (SUPPORT_SET_SPEED K &' SUPPORT_SET_SPEED K = 0 ->
           entity.async_set_speed K speed r = (Ret tt, r))
        /\ (SUPPORT_SET_SPEED K &' SUPPORT_SET_SPEED K <> 0 ->
              entity.async_set_speed K speed r
              = match enum_getitem E (title speed) with
                | Ret mode =>
                    run_command
                      "Setting operation mode of the miio device failed."
                      (miio.set_mode mode) (after_speed_debug r)
                | Raise e => (Raise e, after_speed_debug r)
                end)).
Proof.
  split.
  - intros Hcls.
    split; [intros Hin|intros Hnot];
      unfold entity.async_set_speed; unfold bind at 1; unfold get at 1;
      cbv beta iota; rewrite Hcls;
      unfold XiaomiAirHumidifierMiot.async_set_speed;
      unfold bind at 1; unfold lift at 1.
    + apply REVERSE_MODE_MAPPING_is_Some in Hin as [mode Hm].
      exists mode. split; [done|]. rewrite Hm. apply bind_try_command.
    + destruct (XiaomiAirHumidifierMiot.REVERSE_MODE_MAPPING K !! speed)
        as [mode|] eqn:Hm; [|reflexivity].
      exfalso. apply Hnot. apply REVERSE_MODE_MAPPING_is_Some. by eexists.
  - intros E HE.
    destruct (class_ (self r)) eqn:Hcls; simpl in HE; try discriminate;
      injection HE as <-;
      (split; intros Hs;
       unfold entity.async_set_speed; unfold bind at 1; unfold get at 1;
       cbv beta iota; rewrite Hcls;
       unfold XiaomiAirPurifier.async_set_speed,
         XiaomiAirPurifierMiot.async_set_speed,
         XiaomiAirHumidifier.async_set_speed,
         XiaomiAirFresh.async_set_speed,
         XiaomiGenericDevice.supported_features;
       unfold bind at 1; unfold ret at 1; cbv beta iota;
       [by rewrite Hs
       |destruct (Z.eqb_spec (SUPPORT_SET_SPEED K &' SUPPORT_SET_SPEED K) 0)
          as [?|_]; [contradiction|];
        unfold _LOGGER.debug; unfold bind at 1; unfold emit at 1;
        cbv beta iota; unfold bind at 1; unfold lift at 1;
        fold (after_speed_debug r);
        destruct (enum_getitem _ (title speed)) as [mode|e];
        [apply bind_try_command|reflexivity]]).
Qed.

Lemma C10_witness :
  entity.async_set_speed ha_consts "auto" (entity.start humidifier_miot_example)
  = (Raise (KeyError "auto"), entity.start humidifier_miot_example).
Proof.
  destruct (C10_speed_names ha_consts "auto"
              (entity.start humidifier_miot_example)) as [H _].
  destruct (H eq_refl) as [_ Hnot]. apply Hnot.
  intros Hin. simpl in Hin.
  repeat (apply elem_of_cons in Hin as [Hin|Hin]; [discriminate Hin|]).
  by apply elem_of_nil in Hin.
Defined.

(** * Further properties of the platform *)

(** ** The capability bitsets *)

Lemma feature_land (a b : Z) :
  a ∈ FEATURES -> b ∈ FEATURES -> (a &' b <> 0 <-> a = b).
Proof.
  unfold FEATURES. intros Ha Hb.
  repeat (apply elem_of_cons in Ha as [->|Ha]);
    try (by apply elem_of_nil in Ha);
    repeat (apply elem_of_cons in Hb as [->|Hb]);
    try (by apply elem_of_nil in Hb);
    vm_compute; split; congruence.
Qed.

Lemma flags_of_land (l : list Z) (F : Z) :
  Forall (fun a => a ∈ FEATURES) l -> F ∈ FEATURES ->
  (flags_of l &' F <> 0 <-> F ∈ l).
Proof.
  intros Hl HF. induction Hl as [|a l Ha Hl IH]; simpl.
  - split; [done|]. intros H. by apply elem_of_nil in H.
  - rewrite Z.land_lor_distr_l, elem_of_cons. split.
    + intros H. destruct (Z.eq_dec (a &' F) 0) as [H0|H0].
      * right. apply IH. intros H1. apply H. by apply Z.lor_eq_0_iff.
      * left. symmetry. by apply feature_land.
    + intros [->|Hin] H; apply Z.lor_eq_0_iff in H as [H1 H2].
      * by apply (feature_land a a Ha Ha).
      * by apply IH.
Qed.

(** X1. The capability flags are independent bits: for a set of flags
    combined with [|], and for each declared bitset in particular, the test
    [bits & FLAG] of a command handler is nonzero exactly when [FLAG] is
    one of the flags that the declaration lists. *)
Theorem X1_bitset_membership (F : Z) :
  F ∈ FEATURES ->
  (forall l, Forall (fun a => a ∈ FEATURES) l ->
     (flags_of l &' F <> 0 <-> F ∈ l))
  /\ (forall bits l, (bits, l) ∈ DECLARED_FLAGS ->
        (bits &' F <> 0 <-> F ∈ l)).
Proof.
  intros HF. split; [intros l Hl; by apply flags_of_land|].
  assert (Hall : Forall (fun bl : Z * list Z =>
                           bl.1 = flags_of bl.2
                           /\ Forall (fun a => a ∈ FEATURES) bl.2)
                   DECLARED_FLAGS).
  { unfold DECLARED_FLAGS.
    repeat (apply Forall_cons; split;
            [split; [reflexivity|];
             repeat (apply Forall_cons; split;
                     [unfold FEATURES;
                      repeat (first [apply list_elem_of_here
                                    |apply list_elem_of_further])|]);
             apply Forall_nil_2|]).
    apply Forall_nil_2. }
  intros bits l Hin. rewrite Forall_forall in Hall.
  destruct (Hall _ Hin) as [Hbits Hl]. simpl in Hbits, Hl. subst bits.
  by apply flags_of_land.
Qed.

Lemma X1_witness :
  FEATURE_FLAGS_AIRFRESH &' FEATURE_RESET_FILTER <> 0.
Proof.
  destruct (X1_bitset_membership FEATURE_RESET_FILTER) as [_ H].
  - unfold FEATURES. do 8 apply list_elem_of_further. apply list_elem_of_here.
  - eapply H.
    + unfold DECLARED_FLAGS. do 10 apply list_elem_of_further.
      apply list_elem_of_here.
    + do 4 apply list_elem_of_further. apply list_elem_of_here.
Defined.

(** ** What the operations keep *)

Section MoreFrame.
Context (R : Entity -> Entity -> Prop).
Hypothesis R_refl : forall e, R e e.
Hypothesis R_trans : forall e1 e2 e3, R e1 e2 -> R e2 e3 -> R e1 e3.

Lemma respects_modify (f : Entity -> Entity) :
  (forall e, R e (f e)) -> respects R (modify f).
Proof. intros Hf r. apply Hf. Qed.

Lemma respects_try_except {A} (body : M A) catches (handler : PyExc -> M A) :
  respects R body -> (forall e, respects R (handler e)) ->
  respects R (try_except body catches handler).
Proof.
  intros Hb Hh r. unfold try_except. specialize (Hb r).
  destruct (body r) as [[a|e] r1]; simpl in *; [done|].
  destruct (catches e); simpl; [|done].
  eapply R_trans; [exact Hb|apply Hh].
Qed.

Lemma respects_call (m : Method) (params : list (string * Z)) :
  match m with
  | Method0 body => respects R body
  | Method1 _ _ body => forall x, respects R (body x)
  end ->
  respects R (entity.call m params).
Proof.
  intros Hm. destruct m as [body|param default body];
    destruct params as [|[k v] [|p ps]]; simpl;
    try (intros r; apply R_refl); try done.
  destruct (String.eqb k param); [done|]. intros r. apply R_refl.
Qed.

End MoreFrame.

Lemma lookup_dict_in (name : string) (d : list (string * Method)) (m : Method) :
  entity.lookup_dict name d = Some m -> m ∈ d.*2.
Proof.
  unfold entity.lookup_dict. destruct (find _ d) as [[n m']|] eqn:Hf; [|done].
  simpl. intros [= <-]. destruct (List.find_some _ _ Hf) as [Hin _].
  apply list_elem_of_fmap. exists (n, m'). split; [done|].
  by apply list_elem_of_In.
Qed.

Lemma getattr_all_methods (cls : EntityClass) (name : string) (m : Method) :
  entity.getattr cls name = Some m -> m ∈ all_methods.
Proof.
  unfold entity.getattr, all_methods. rewrite !fmap_app, !elem_of_app.
  destruct cls; simpl;
    repeat match goal with
           | |- context [entity.lookup_dict name ?d] =>
               let H := fresh "H" in
               destruct (entity.lookup_dict name d) eqn:H;
               [apply lookup_dict_in in H|clear H]
           end;
    intros [=]; subst; tauto.
Qed.

(** A property of every bound method, proved method by method. *)
Ltac each_method :=
  unfold all_methods, entity.XiaomiGenericDevice_dict,
    entity.XiaomiAirPurifier_dict, entity.XiaomiAirPurifierMiot_dict,
    entity.XiaomiAirHumidifier_dict, entity.XiaomiAirHumidifierMiot_dict,
    entity.XiaomiAirFresh_dict;
  simpl;
  repeat (apply Forall_cons; split; [|]); [..|apply Forall_nil_2];
  try intros ?; autounfold with methods.

Ltac frame_step solve_modify :=
  first
    [ apply respects_ret; assumption | apply respects_raise; assumption
    | apply respects_lift; assumption | apply respects_get; assumption
    | apply respects_emit; assumption
    | apply respects_modify; solve_modify
    | apply respects_try_command; try assumption; try solve_modify
    | apply respects_bind; try assumption; [|intros ?]
    | apply respects_try_except; try assumption; [|intros ?]
    | match goal with
      | |- respects _ (if ?c then _ else _) => destruct c
      | |- respects _ (match ?c with _ => _ end) => destruct c
      end ].

Lemma same_variant_refl (e : Entity) : same_variant e e.
Proof. by repeat split. Qed.

Lemma same_variant_trans (e1 e2 e3 : Entity) :
  same_variant e1 e2 -> same_variant e2 e3 -> same_variant e1 e3.
Proof.
  intros (?&?&?&?&?&?) (?&?&?&?&?&?).
  repeat split; try congruence. set_solver.
Qed.

Ltac same_variant_modify := intros e; by repeat split.

Lemma methods_same_variant :
  Forall (fun m => forall params, respects same_variant (entity.call m params))
    all_methods.
Proof.
  pose proof same_variant_refl as Hrefl.
  pose proof same_variant_trans as Htrans.
  each_method; apply respects_call; try assumption; simpl;
    try lazymatch goal with |- forall _, _ => intros ? end;
    repeat frame_step same_variant_modify.
Qed.

Lemma async_update_same_variant : respects same_variant entity.async_update.
Proof.
  intros r. rewrite async_update_unfold.
  destruct (_skip_update (self r)); simpl; [by repeat split|].
  destruct (miio.status (_device (self r))) as [st|[]]; simpl;
    try (by repeat split).
  - destruct (projection st r); simpl; [|by repeat split].
    repeat split; try done. simpl. unfold dict_update. set_solver.
  - destruct (_available (self r)); simpl; by repeat split.
Qed.

Lemma act_same_variant (K : Consts) (a : Action) :
  respects same_variant (act K a).
Proof.
  pose proof same_variant_refl as Hrefl.
  pose proof same_variant_trans as Htrans.
  destruct a as [speed| |speed| |svc params]; simpl.
  - unfold entity.async_turn_on, XiaomiGenericDevice.async_turn_on,
      entity.async_set_speed, XiaomiAirPurifier.async_set_speed,
      XiaomiAirPurifierMiot.async_set_speed,
      XiaomiAirHumidifier.async_set_speed,
      XiaomiAirHumidifierMiot.async_set_speed,
      XiaomiAirFresh.async_set_speed,
      XiaomiGenericDevice.supported_features, _LOGGER.debug.
    repeat frame_step same_variant_modify.
  - unfold entity.async_turn_off, XiaomiGenericDevice.async_turn_off.
    repeat frame_step same_variant_modify.
  - unfold entity.async_set_speed, XiaomiAirPurifier.async_set_speed,
      XiaomiAirPurifierMiot.async_set_speed,
      XiaomiAirHumidifier.async_set_speed,
      XiaomiAirHumidifierMiot.async_set_speed,
      XiaomiAirFresh.async_set_speed,
      XiaomiGenericDevice.supported_features, _LOGGER.debug.
    repeat frame_step same_variant_modify.
  - apply async_update_same_variant.
  - intros r.
    destruct (entity.getattr _ _) as [m|] eqn:Hg; [|apply same_variant_refl].
    apply getattr_all_methods in Hg.
    pose proof methods_same_variant as Hall. rewrite Forall_forall in Hall.
    apply (Hall m Hg params r).
Qed.

Lemma init_table_reported (attributes : gmap string string)
    (attrs : gmap string PyVal) :
  dom attributes ⊆ dom (dict_update ((fun _ => VNone) <$> attributes) attrs).
Proof. unfold dict_update. rewrite dom_union, dom_fmap. set_solver. Qed.

Ltac init_starts_blank :=
  unfold starts_blank, table_reported; cbv zeta;
  try match goal with
      | |- context [match ?t with (_, _) => _ end] => destruct t as [[f a] s]
      end;
  cbn [class_ entity_id _device _model _available _state _state_attrs
       _device_features _skip_update _available_attributes _speed_list
       XiaomiGenericDevice.__init__];
  split; [apply init_table_reported|]; repeat (split; [done|]);
  intros key [x Hx]; unfold dict_update;
  apply lookup_union_Some_l; by rewrite lookup_fmap, Hx.

Lemma purifier_init_starts_blank (K : Consts) cls id device model :
  starts_blank id device (XiaomiAirPurifier.__init__ K cls id device model).
Proof. unfold XiaomiAirPurifier.__init__. init_starts_blank. Qed.

Lemma humidifier_init_starts_blank (K : Consts) cls id device model :
  starts_blank id device (XiaomiAirHumidifier.__init__ K cls id device model).
Proof. unfold XiaomiAirHumidifier.__init__. init_starts_blank. Qed.

Lemma airfresh_init_starts_blank (K : Consts) cls id device model :
  starts_blank id device (XiaomiAirFresh.__init__ K cls id device model).
Proof. unfold XiaomiAirFresh.__init__. init_starts_blank. Qed.

Lemma setup_table_reported (K : Consts) id device model dc e :
  (async_setup_entry K id device model).1 = Some (dc, e) ->
  starts_blank id device e.
Proof.
  unfold async_setup_entry.
  repeat match goal with
         | |- context [if ?c then _ else _] => destruct c
         end; cbn [fst]; intros [= <- <-];
    first [ apply purifier_init_starts_blank
          | apply humidifier_init_starts_blank
          | apply airfresh_init_starts_blank ].
Qed.

(** X2. An entity built by the setup starts unavailable, with unknown
    state, a clear poll-skip flag and [None] under every key of its
    attribute table.  Whatever sequence of turn-on, turn-off, speed change,
    poll and service method calls follows, and whatever each of them returns
    or raises: its class, identity, device, model, capability bitset,
    attribute table and speed list stay as constructed, no key ever leaves
    the attribute map, and every key of the attribute table is reported. *)
Theorem X2_variant_is_immutable (K : Consts) (id : string)
    (device : miio.Device) (model : string) (dc : miio.DeviceClass)
    (e : Entity) (actions : list Action) :
  (async_setup_entry K id device model).1 = Some (dc, e) ->
  let r' := run_actions K actions (entity.start e) in
  (_available e = false /\ _state e = None /\ _skip_update e = false
   /\ forall key, is_Some (_available_attributes e !! key) ->
        _state_attrs e !! key = Some VNone)
  /\ same_variant e (self r')
  /\ table_reported (self r').
Proof.
  intros Hsetup r'.
  destruct (setup_table_reported K id device model dc e Hsetup)
    as (Htable & Ha & Hs & Hk & _ & _ & Hnone).
  split; [done|].
  assert (Hsame : forall r, same_variant (self r)
                              (self (run_actions K actions r))).
  { unfold run_actions. induction actions as [|a actions IH]; intros r.
    - apply same_variant_refl.
    - simpl. eapply same_variant_trans; [apply (act_same_variant K a r)|].
      apply IH. }
  specialize (Hsame (entity.start e)). split; [exact Hsame|].
  destruct Hsame as (_ & _ & _ & _ & Hv & Hdom).
  unfold table_reported in *. fold r' in Hv, Hdom |- *.
  assert (_available_attributes (self r') = _available_attributes e) as ->.
  { by injection Hv. }
  simpl in Hdom. set_solver.
Qed.

Lemma X2_witness :
  let r' := run_actions ha_consts
              [turn_on (Some "auto"); update; turn_off;
               call_service SERVICE_SET_BUZZER_ON []]
              (entity.start airfresh_example) in
  same_variant airfresh_example (self r') /\ table_reported (self r').
Proof.
  intros r'.
  destruct (X2_variant_is_immutable ha_consts "fan.air_fresh"
              (device_ok (status_with true airfresh_properties (VInt 1)))
              "zhimi.airfresh.va2" miio.AirFresh airfresh_example
              [turn_on (Some "auto"); update; turn_off;
               call_service SERVICE_SET_BUZZER_ON []] eq_refl)
    as (_ & H1 & H2).
  split; assumption.
Defined.

(** ** The poll that follows a service call *)

Lemma vendor_calls_poll (r : Run) :
  _skip_update (self r) = false ->
  vendor_calls (trace (entity.async_update r).2)
  = vendor_calls (trace r) ++ [StatusRead (miio.status (_device (self r)))].
Proof.
  intros Hskip. rewrite async_update_unfold, Hskip.
  destruct (miio.status (_device (self r))) as [st|[]]; simpl;
    try (destruct (projection st r)); try (destruct (_available (self r)));
    simpl; rewrite ?vendor_calls_app; simpl; by rewrite ?app_nil_r.
Qed.

(** X3. The handler polls an entity after every method it has called on it,
    also when the method returned at its capability test: for a target whose
    class has the method of the service but whose bitset lacks the
    capability, the call does nothing and the entity is then polled, which
    with a clear poll-skip flag is one status read of the device.  A target
    whose class has no such method is neither called nor polled. *)
Theorem X3_gated_action_is_polled (K : Consts) (svc : Service)
    (params : list (string * Z)) (ids : option (list string))
    (host : string) (r : Run) :
  let call := {| service := svc; entity_ids := ids; data := params |} in
  validated K svc params ->
  selected_by call (self r) = true ->
  (entity.getattr (class_ (self r)) (SERVICE_TO_METHOD K svc).1 = None ->
     async_service_handler K call [(host, r)] = (Ret tt, [(host, r)]))
  /\ (is_Some (entity.getattr (class_ (self r)) (SERVICE_TO_METHOD K svc).1) ->
      _device_features (self r) &' required_capability svc = 0 ->
      async_service_handler K call [(host, r)]
      = (Ret tt, [(host, (entity.async_update r).2)])
      /\ (_skip_update (self r) = false ->
          vendor_calls (trace (entity.async_update r).2)
          = vendor_calls (trace r)
            ++ [StatusRead (miio.status (_device (self r)))])).
Proof.
  intros call Hv Hsel. unfold async_service_handler.
  fold (selected_by call). simpl. rewrite Hsel. split.
  - by intros ->.
  - intros [m Hg] Hf. rewrite Hg.
    destruct (entity_call_spec K _ svc m params r Hg Hv) as [Hclosed _].
    rewrite (Hclosed Hf). simpl. split; [done|]. apply vendor_calls_poll.
Qed.

Lemma X3_witness :
  async_service_handler ha_consts
    {| service := SERVICE_SET_VOLUME; entity_ids := Some ["fan.purifier_3"];
       data := [("volume", 50)] |}
    [("192.168.1.3", entity.start purifier3_example)]
  = (Ret tt,
     [("192.168.1.3",
       (entity.async_update (entity.start purifier3_example)).2)]).
Proof.
  refine (proj1 (proj2 (X3_gated_action_is_polled ha_consts SERVICE_SET_VOLUME
                          [("volume", 50)] (Some ["fan.purifier_3"])
                          "192.168.1.3" (entity.start purifier3_example)
                          _ _) _ _)).
  - exists "volume", (vol.Clamp 0 100), 50, 50. by repeat split.
  - vm_compute. reflexivity.
  - vm_compute. by eexists.
  - vm_compute. reflexivity.
Defined.

(** ** The targets of a service call *)

Lemma map_fmap {A B : Type} (f : A -> B) (l : list A) : map f l = f <$> l.
Proof. induction l as [|a l IH]; simpl; by f_equal. Qed.

Lemma for_entity_in_hosts (method : string) (params : list (string * Z))
    (selected : Entity -> bool) (entities : Registry) :
  map (fun hrt : string * Run * bool => hrt.1.1)
    (for_entity_in method params selected entities).2
  = entities.*1.
Proof.
  induction entities as [|[host r] rest IH]; [done|]. simpl.
  destruct (for_entity_in method params selected rest) as [res rest'].
  simpl in IH.
  destruct (selected (self r)); [|by simpl; f_equal].
  destruct (entity.getattr (class_ (self r)) method) as [m|];
    [|by simpl; f_equal].
  destruct (entity.call m params r) as [[[]|e] r']; simpl; f_equal;
    [done|]. rewrite map_map. simpl. apply map_fmap.
Qed.

Lemma for_entity_in_unselected (method : string) (params : list (string * Z))
    (selected : Entity -> bool) (entities : Registry) :
  forall (i : nat) host r,
  entities !! i = Some (host, r) -> selected (self r) = false ->
  (for_entity_in method params selected entities).2 !! i
  = Some (host, r, false).
Proof.
  induction entities as [|[host0 r0] rest IH]; intros i host r Hi Hsel;
    [done|].
  simpl. destruct (for_entity_in method params selected rest)
    as [res rest'] eqn:Hrest.
  destruct i as [|i]; simpl in Hi.
  - injection Hi as -> ->. by rewrite Hsel.
  - specialize (IH i host r Hi Hsel). simpl in IH.
    destruct (selected (self r0)); [|done].
    destruct (entity.getattr (class_ (self r0)) method) as [m|]; [|done].
    destruct (entity.call m params r0) as [[[]|e] r']; simpl; [done|].
    by rewrite map_fmap, list_lookup_fmap, Hi.
Qed.

(** X4. The handler never adds, drops or reorders an entity of the
    registry, and an entity that the call does not select comes back as it
    was, whatever the other entities do.  A call selects the entities whose
    id is in its non-empty list of ids; a call without ids and a call with
    an empty list of ids both select every entity. *)
Theorem X4_targets_of_a_call (K : Consts) (call : ServiceCall)
    (registry : Registry) :
  (async_service_handler K call registry).2.*1 = registry.*1
  /\ (forall (i : nat) host r,
        registry !! i = Some (host, r) -> selected_by call (self r) = false ->
        (async_service_handler K call registry).2 !! i = Some (host, r))
  /\ (forall id ids e, entity_ids call = Some (id :: ids) ->
        (selected_by call e = true <-> entity_id e ∈ id :: ids))
  /\ (entity_ids call = None \/ entity_ids call = Some [] ->
        (forall e, selected_by call e = true)
        /\ async_service_handler K call registry
           = async_service_handler K
               {| service := service call; entity_ids := None;
                  data := data call |} registry).
Proof.
  unfold async_service_handler. fold (selected_by call).
  pose proof (for_entity_in_hosts (SERVICE_TO_METHOD K (service call)).1
                (data call) (selected_by call) registry) as Hhosts.
  pose proof (for_entity_in_unselected (SERVICE_TO_METHOD K (service call)).1
                (data call) (selected_by call) registry) as Hun.
  destruct (for_entity_in _ _ (selected_by call) registry)
    as [res entities] eqn:Hloop.
  simpl in *. rewrite !map_fmap in *. split; [|split; [|split]].
  - rewrite <- Hhosts. rewrite <- list_fmap_compose.
    apply list_fmap_ext. by intros _ [[host r] task] _.
  - intros i host r Hi Hsel. unfold Registry.
    by rewrite map_fmap, list_lookup_fmap, (Hun i host r Hi Hsel).
  - intros id ids e Hids. unfold selected_by. rewrite Hids.
    apply py_in_spec.
  - intros Hids. split.
    + intros e. unfold selected_by. by destruct Hids as [-> | ->].
    + assert (selected_by call = fun _ => true) as Hall
        by (unfold selected_by; by destruct Hids as [-> | ->]).
      rewrite Hall in Hloop. by rewrite Hloop.
Qed.

Lemma X4_witness :
  (async_service_handler ha_consts
     {| service := SERVICE_SET_BUZZER_ON; entity_ids := Some ["fan.purifier_3"];
        data := [] |}
     [("192.168.1.1", entity.start airfresh_example);
      ("192.168.1.3", entity.start purifier3_example)]).2 !! 0%nat
  = Some ("192.168.1.1", entity.start airfresh_example).
Proof.
  refine (proj1 (proj2 (X4_targets_of_a_call ha_consts _ _)) 0%nat _ _ _ _).
  - reflexivity.
  - vm_compute. reflexivity.
Defined.

(** ** An exception that is not caught *)

Lemma for_entity_in_app (method : string) (params : list (string * Z))
    (selected : Entity -> bool) (before after : Registry) :
  for_entity_in method params selected (before ++ after)
  = match for_entity_in method params selected before with
    | (Ret _, done) =>
        ((for_entity_in method params selected after).1,
         done ++ (for_entity_in method params selected after).2)
    | (Raise e, done) =>
        (Raise e, done ++ map (fun hr => (hr, false)) after)
    end.
Proof.
  induction before as [|[host r] rest IH]; simpl.
  - by destruct (for_entity_in method params selected after).
  - rewrite IH.
    destruct (for_entity_in method params selected rest) as [[[]|e] rest'];
      destruct (selected (self r)); simpl; try done;
      destruct (entity.getattr (class_ (self r)) method) as [m|]; simpl;
      try done;
      destruct (entity.call m params r) as [[[]|e'] r']; simpl; try done;
      by rewrite map_app.
Qed.

Lemma run_command_raises (mask : string) (c : miio.Call) (r : Run) (e : PyExc) :
  miio.command (_device (self r)) c = Raise e ->
  is_DeviceException e = false ->
  run_command mask c r
  = (Raise e, {| self := self r; trace := trace r ++ [Command c (Raise e)] |}).
Proof.
  intros Hc He. unfold run_command. rewrite _try_command_unfold, Hc.
  by destruct e.
Qed.

(** X5. Only [DeviceException] is caught around a vendor call.  When the
    device of a target raises another exception, the handler raises it and
    its loop ends there: the entities before the target have been served and
    are polled, the target keeps its state and shows the failed vendor call
    (it is not marked unavailable, nothing is logged, it is not polled), and
    the entities after it are neither called nor polled. *)
Theorem X5_loop_ends_at_foreign_exception (K : Consts) (call : ServiceCall)
    (before after : Registry) (host : string) (r : Run) (e : PyExc) :
  validated K (service call) (data call) ->
  (forall h r0, (h, r0) ∈ before ->
     raises_only_DeviceException (_device (self r0))) ->
  supports K call (self r) ->
  (forall c, miio.command (_device (self r)) c = Raise e) ->
  is_DeviceException e = false ->
  exists c,
    async_service_handler K call (before ++ (host, r) :: after)
    = (Raise e,
       map (fun hr : string * Run => (hr.1, served K call hr.2)) before
       ++ (host, {| self := self r;
                    trace := trace r ++ [Command c (Raise e)] |})
       :: after).
Proof.
  intros Hv Hbefore (Hsel & [m Hg] & Hf) Hraise He.
  destruct (entity_call_spec K _ (service call) m (data call) r Hg Hv)
    as [_ Hopen].
  destruct (Hopen Hf) as (mask & c & Hcall & _).
  exists c. unfold async_service_handler. fold (selected_by call).
  rewrite for_entity_in_app.
  rewrite (for_entity_in_returns K (service call) _ _ _ Hv Hbefore).
  simpl. rewrite Hsel, Hg, Hcall.
  rewrite (run_command_raises mask c r e (Hraise c) He). simpl.
  f_equal. rewrite map_app. f_equal.
  - rewrite map_map. apply map_ext. intros [h r0]. simpl.
    unfold served. by destruct (round _ _ _ r0) as [r' []].
  - simpl. f_equal. rewrite map_map. simpl.
    rewrite <- (map_id after) at 2. apply map_ext. by intros [h r0].
Qed.

Lemma X5_witness :
  let ok := device_ok (status_with true airfresh_properties (VInt 1)) in
  let broken := device_broken (status_with true airfresh_properties (VInt 1)) in
  let mk := fun d => entity.start (with_device d airfresh_example) in
  exists c,
    async_service_handler ha_consts
      {| service := SERVICE_SET_BUZZER_ON; entity_ids := None; data := [] |}
      ([("192.168.1.1", mk ok)] ++ ("192.168.1.2", mk broken)
       :: [("192.168.1.3", mk ok)])
    = (Raise OSError,
       map (fun hr : string * Run =>
              (hr.1,
               served ha_consts
                 {| service := SERVICE_SET_BUZZER_ON; entity_ids := None;
                    data := [] |} hr.2))
         [("192.168.1.1", mk ok)]
       ++ ("192.168.1.2",
           {| self := self (mk broken);
              trace := trace (mk broken) ++ [Command c (Raise OSError)] |})
       :: [("192.168.1.3", mk ok)]).
Proof.
  intros ok broken mk.
  apply (X5_loop_ends_at_foreign_exception ha_consts
           {| service := SERVICE_SET_BUZZER_ON; entity_ids := None;
              data := [] |}).
  - reflexivity.
  - intros h r0 Hin. apply list_elem_of_singleton in Hin.
    injection Hin as -> ->. intros c e. simpl. discriminate.
  - repeat split; [by eexists|]. vm_compute. discriminate.
  - reflexivity.
  - reflexivity.
Defined.

(** ** Polling twice *)

Lemma dict_update_twice {V : Type} (values attrs : gmap string V) :
  dict_update values (dict_update values attrs) = dict_update values attrs.
Proof.
  unfold dict_update. apply map_eq. intros key.
  rewrite !lookup_union. by destruct (values !! key), (attrs !! key).
Qed.

Lemma projection_table (st : miio.Status) (r r' : Run) :
  _available_attributes (self r') = _available_attributes (self r) ->
  projection st r' = projection st r.
Proof. unfold projection. by intros ->. Qed.

(** X6. A poll that reads the device is idempotent: while the device
    reports the same status (or fails in the same way), a second poll ends
    as the first one did and leaves the entity exactly as the first poll
    left it.  The poll-skip flag must be clear: with the flag set the first
    poll only clears the flag and the second one is the first to read. *)
Theorem X6_poll_is_idempotent (r : Run) :
  _skip_update (self r) = false ->
  let r1 := (entity.async_update r).2 in
  self (entity.async_update r1).2 = self r1
  /\ (entity.async_update r1).1 = (entity.async_update r).1.
Proof.
  intros Hskip r1. subst r1.
  rewrite (async_update_unfold (entity.async_update r).2).
  rewrite (async_update_unfold r), Hskip.
  destruct (miio.status (_device (self r))) as [st|ex] eqn:Hst.
  - cbv zeta.
    destruct (projection st r) as [values|ex] eqn:Hp; simpl;
      rewrite Hskip, Hst; simpl;
      rewrite (projection_table st r) by reflexivity; rewrite Hp; simpl;
      [|done].
    split; [|done]. unfold set__state_attrs, set__state, set__available.
    simpl. by rewrite dict_update_twice.
  - destruct ex; simpl; rewrite ?Hskip, ?Hst; simpl; try done.
    destruct (_available (self r)) eqn:Hav; simpl; rewrite Hskip, Hst; simpl;
      by rewrite ?Hav.
Qed.

Lemma X6_witness :
  let r1 := (entity.async_update (entity.start airfresh_example)).2 in
  self (entity.async_update r1).2 = self r1
  /\ (entity.async_update r1).1
     = (entity.async_update (entity.start airfresh_example)).1.
Proof.
  apply (X6_poll_is_idempotent (entity.start airfresh_example)).
  reflexivity.
Defined.

(** ** What an unreachable device cannot do *)

Section Contains.

Lemma contains_ret {A} (a : A) : contains_DeviceException (ret a).
Proof. by intros r e. Qed.

Lemma contains_raise {A} (e : PyExc) :
  is_DeviceException e = false -> contains_DeviceException (@raise A e).
Proof. intros He r e' [= <-]. exact He. Qed.

Lemma contains_lift {A} (x : Res A) :
  (forall e, x = Raise e -> is_DeviceException e = false) ->
  contains_DeviceException (lift x).
Proof. intros Hx r e He. by apply Hx. Qed.

Lemma contains_get {A} (f : Entity -> A) : contains_DeviceException (get f).
Proof. by intros r e. Qed.

Lemma contains_modify (f : Entity -> Entity) :
  contains_DeviceException (modify f).
Proof. by intros r e. Qed.

Lemma contains_emit (ev : Event) : contains_DeviceException (emit ev).
Proof. by intros r e. Qed.

Lemma contains_bind {A B} (m : M A) (k : A -> M B) :
  contains_DeviceException m -> (forall a, contains_DeviceException (k a)) ->
  contains_DeviceException (bind m k).
Proof.
  intros Hm Hk r e. unfold bind. specialize (Hm r).
  destruct (m r) as [[a|e'] r1]; simpl in *.
  - apply Hk.
  - intros [= <-]. by apply Hm.
Qed.

Lemma contains_try_except {A} (body : M A) (handler : PyExc -> M A) :
  (forall e, contains_DeviceException (handler e)) ->
  contains_DeviceException (try_except body is_DeviceException handler).
Proof.
  intros Hh r e. unfold try_except.
  destruct (body r) as [[a|e'] r1]; simpl; [done|].
  destruct (is_DeviceException e') eqn:He'; simpl.
  - apply Hh.
  - by intros [= <-].
Qed.

Lemma contains_call (m : Method) (params : list (string * Z)) :
  match m with
  | Method0 body => contains_DeviceException body
  | Method1 _ _ body => forall x, contains_DeviceException (body x)
  end ->
  contains_DeviceException (entity.call m params).
Proof.
  intros Hm. destruct m as [body|param default body];
    destruct params as [|[k v] [|p ps]]; simpl;
    try (by apply contains_raise); try done.
  destruct (String.eqb k param); [done|]. by apply contains_raise.
Qed.

End Contains.

Lemma enum_getitem_raises (E : PyEnum) (name : string) (e : PyExc) :
  enum_getitem E name = Raise e -> is_DeviceException e = false.
Proof. unfold enum_getitem. destruct (find _ _); by intros [= <-]. Qed.

Lemma enum_call_raises (E : PyEnum) (v : PyVal) (e : PyExc) :
  enum_call E v = Raise e -> is_DeviceException e = false.
Proof. unfold enum_call. destruct (find _ _); by intros [= <-]. Qed.

Ltac contains_step :=
  first
    [ apply contains_ret | apply contains_get | apply contains_modify
    | apply contains_emit
    | apply contains_try_except; intros ?
    | apply contains_lift; intros ?;
      first [ apply enum_getitem_raises | apply enum_call_raises
            | destruct (_ !! _); by intros [= <-] ]
    | apply contains_bind; [|intros ?]
    | match goal with
      | |- contains_DeviceException (if ?c then _ else _) => destruct c
      | |- contains_DeviceException (match ?c with _ => _ end) => destruct c
      end ].

Lemma methods_contain_DeviceException :
  Forall (fun m => forall params,
            contains_DeviceException (entity.call m params)) all_methods.
Proof.
  each_method; apply contains_call; simpl;
    try lazymatch goal with |- forall _, _ => intros ? end;
    unfold XiaomiGenericDevice._try_command;
    repeat contains_step.
Qed.

Lemma act_contains_DeviceException (K : Consts) (a : Action) :
  contains_DeviceException (act K a).
Proof.
  destruct a as [speed| |speed| |svc params]; simpl.
  - unfold entity.async_turn_on, XiaomiGenericDevice.async_turn_on,
      entity.async_set_speed, XiaomiAirPurifier.async_set_speed,
      XiaomiAirPurifierMiot.async_set_speed,
      XiaomiAirHumidifier.async_set_speed,
      XiaomiAirHumidifierMiot.async_set_speed,
      XiaomiAirFresh.async_set_speed,
      XiaomiGenericDevice.supported_features, _LOGGER.debug,
      XiaomiGenericDevice._try_command.
    repeat contains_step.
  - unfold entity.async_turn_off, XiaomiGenericDevice.async_turn_off,
      XiaomiGenericDevice._try_command.
    repeat contains_step.
  - unfold entity.async_set_speed, XiaomiAirPurifier.async_set_speed,
      XiaomiAirPurifierMiot.async_set_speed,
      XiaomiAirHumidifier.async_set_speed,
      XiaomiAirHumidifierMiot.async_set_speed,
      XiaomiAirFresh.async_set_speed,
      XiaomiGenericDevice.supported_features, _LOGGER.debug,
      XiaomiGenericDevice._try_command.
    repeat contains_step.
  - unfold entity.async_update, XiaomiAirPurifier.async_update,
      XiaomiAirHumidifier.async_update, XiaomiAirFresh.async_update.
    repeat contains_step.
  - intros r e.
    destruct (entity.getattr _ _) as [m|] eqn:Hg; [|done].
    apply getattr_all_methods in Hg.
    pose proof methods_contain_DeviceException as Hall.
    rewrite Forall_forall in Hall. apply (Hall m Hg params r).
Qed.

Lemma for_entity_in_contains (method : string) (params : list (string * Z))
    (selected : Entity -> bool) (entities : Registry) (e : PyExc) :
  (for_entity_in method params selected entities).1 = Raise e ->
  is_DeviceException e = false.
Proof.
  induction entities as [|[host r] rest IH]; simpl; [done|].
  destruct (for_entity_in method params selected rest) as [res rest'].
  simpl in IH. destruct (selected (self r)); [|done].
  destruct (entity.getattr (class_ (self r)) method) as [m|] eqn:Hg; [|done].
  apply getattr_all_methods in Hg.
  pose proof methods_contain_DeviceException as Hall.
  rewrite Forall_forall in Hall. specialize (Hall m Hg params r e).
  destruct (entity.call m params r) as [[[]|e'] r']; simpl in *; [done|].
  intros [= <-]. by apply Hall.
Qed.

(** X7. No [DeviceException] leaves an entity: whatever the device does,
    a turn-on, a turn-off, a speed change, a poll or the method of a service
    that raises, raises something else (a key, value, attribute or type
    error, or what the vendor library raised besides [DeviceException]).
    Hence the service handler never raises [DeviceException] either, for any
    call and any registry. *)
Theorem X7_DeviceException_is_contained (K : Consts) :
  (forall a r e, (act K a r).1 = Raise e -> is_DeviceException e = false)
  /\ (forall call registry e,
        (async_service_handler K call registry).1 = Raise e ->
        is_DeviceException e = false).
Proof.
  split.
  - intros a. apply act_contains_DeviceException.
  - intros call registry e. unfold async_service_handler.
    pose proof (for_entity_in_contains (SERVICE_TO_METHOD K (service call)).1
                  (data call)
                  match entity_ids call with
                  | Some ((_ :: _) as entity_ids) =>
                      fun e => py_in (entity_id e) entity_ids
                  | _ => fun _ => true
                  end registry e) as Hloop.
    by destruct (for_entity_in _ _ _ registry) as [res entities].
Qed.

Lemma X7_witness :
  match (act ha_consts (set_speed "turbo")
           (entity.start (with_device device_unreachable airfresh_example))).1
  with
  | Raise e => is_DeviceException e = false
  | Ret _ => True
  end.
Proof.
  destruct (act ha_consts (set_speed "turbo") _).1 as [[]|e] eqn:Hact;
    [exact I|].
  exact (proj1 (X7_DeviceException_is_contained ha_consts) _ _ _ Hact).
Defined.

(** ** Commands and the local state *)

Lemma at_most_unavailable_refl (e : Entity) : at_most_unavailable e e.
Proof. by left. Qed.

Lemma at_most_unavailable_trans (e1 e2 e3 : Entity) :
  at_most_unavailable e1 e2 -> at_most_unavailable e2 e3 ->
  at_most_unavailable e1 e3.
Proof.
  intros [->|[Ha ->]] [->|[Hb ->]]; try (by left); try (by right).
Qed.

Lemma at_most_unavailable_set (e : Entity) :
  at_most_unavailable e (set__available false e).
Proof.
  destruct (_available e) eqn:Ha; [by right|]. left.
  destruct e. simpl in Ha. by subst.
Qed.

Lemma stays_unavailable_refl (e : Entity) : stays_unavailable e e.
Proof. by intros H. Qed.

Lemma stays_unavailable_trans (e1 e2 e3 : Entity) :
  stays_unavailable e1 e2 -> stays_unavailable e2 e3 ->
  stays_unavailable e1 e3.
Proof. unfold stays_unavailable. tauto. Qed.

Ltac no_modify := fail.
Ltac stays_unavailable_modify := intros e; unfold stays_unavailable; by simpl.

Lemma methods_at_most_unavailable :
  Forall (fun m => forall params,
            respects at_most_unavailable (entity.call m params)) all_methods.
Proof.
  pose proof at_most_unavailable_refl as Hrefl.
  pose proof at_most_unavailable_trans as Htrans.
  pose proof at_most_unavailable_set as Hset.
  each_method; apply respects_call; try assumption; simpl;
    try lazymatch goal with |- forall _, _ => intros ? end;
    repeat frame_step no_modify.
Qed.

Lemma methods_stay_unavailable :
  Forall (fun m => forall params,
            respects stays_unavailable (entity.call m params)) all_methods.
Proof.
  pose proof stays_unavailable_refl as Hrefl.
  pose proof stays_unavailable_trans as Htrans.
  each_method; apply respects_call; try assumption; simpl;
    try lazymatch goal with |- forall _, _ => intros ? end;
    repeat frame_step stays_unavailable_modify.
Qed.

Ltac unfold_set_speed :=
  unfold entity.async_set_speed, XiaomiAirPurifier.async_set_speed,
    XiaomiAirPurifierMiot.async_set_speed, XiaomiAirHumidifier.async_set_speed,
    XiaomiAirHumidifierMiot.async_set_speed, XiaomiAirFresh.async_set_speed,
    XiaomiGenericDevice.supported_features, _LOGGER.debug.

Lemma async_set_speed_at_most_unavailable (K : Consts) (speed : string) :
  respects at_most_unavailable (entity.async_set_speed K speed).
Proof.
  pose proof at_most_unavailable_refl as Hrefl.
  pose proof at_most_unavailable_trans as Htrans.
  pose proof at_most_unavailable_set as Hset.
  unfold_set_speed. repeat frame_step no_modify.
Qed.

(** A turn-on with a speed is the speed change: [result] is [None]. *)
Lemma async_turn_on_is_set_speed (K : Consts) (c : ascii) (s : string) (r : Run) :
  entity.async_turn_on K (Some (String c s)) r
  = entity.async_set_speed K (String c s) r.
Proof.
  unfold entity.async_turn_on, XiaomiGenericDevice.async_turn_on, bind.
  by destruct (entity.async_set_speed K (String c s) r) as [[[]|e] r'].
Qed.

Lemma act_stays_unavailable (K : Consts) (a : Action) :
  a <> update -> respects stays_unavailable (act K a).
Proof.
  pose proof stays_unavailable_refl as Hrefl.
  pose proof stays_unavailable_trans as Htrans.
  intros Ha. destruct a as [speed| |speed| |svc params]; simpl; try done.
  - unfold entity.async_turn_on, XiaomiGenericDevice.async_turn_on.
    unfold_set_speed. repeat frame_step stays_unavailable_modify.
  - unfold entity.async_turn_off, XiaomiGenericDevice.async_turn_off.
    repeat frame_step stays_unavailable_modify.
  - unfold_set_speed. repeat frame_step stays_unavailable_modify.
  - intros r.
    destruct (entity.getattr _ _) as [m|] eqn:Hg; [|done].
    apply getattr_all_methods in Hg.
    pose proof methods_stay_unavailable as Hall.
    rewrite Forall_forall in Hall. apply (Hall m Hg params r).
Qed.

(** X8. A speed change, the method of a service and a turn-on with a speed
    change nothing in the entity but its availability: the entity comes
    back as it was, or it was available and comes back unavailable with all
    the rest as it was.  No action but the poll makes an unavailable entity
    available again, and the poll always leaves the poll-skip flag clear. *)
Theorem X8_commands_touch_availability_only (K : Consts) (a : Action)
    (r : Run) :
  let e' := self (act K a r).2 in
  (is_command a = true ->
     e' = self r
     \/ (_available (self r) = true /\ e' = set__available false (self r)))
  /\ (a <> update -> _available (self r) = false -> _available e' = false)
  /\ (a = update -> _skip_update e' = false).
Proof.
  intros e'. subst e'. split; [|split].
  - destruct a as [[[|c s]|]| |speed| |svc params]; try done; intros _.
    + simpl. rewrite async_turn_on_is_set_speed.
      apply async_set_speed_at_most_unavailable.
    + apply async_set_speed_at_most_unavailable.
    + simpl.
      destruct (entity.getattr _ _) as [m|] eqn:Hg; [|by left].
      apply getattr_all_methods in Hg.
      pose proof methods_at_most_unavailable as Hall.
      rewrite Forall_forall in Hall. apply (Hall m Hg params r).
  - intros Ha. apply (act_stays_unavailable K a Ha r).
  - intros ->. simpl. rewrite async_update_unfold.
    destruct (_skip_update (self r)) eqn:Hskip; [done|].
    destruct (miio.status (_device (self r))) as [st|[]]; simpl; try done.
    + by destruct (projection st r).
    + by destruct (_available (self r)).
Qed.

Lemma X8_witness :
  let r := entity.start (with_device device_unreachable airfresh_example) in
  _available (self (act ha_consts (call_service SERVICE_SET_BUZZER_ON []) r).2)
  = false.
Proof.
  intros r.
  refine (proj1 (proj2 (X8_commands_touch_availability_only ha_consts
                          (call_service SERVICE_SET_BUZZER_ON []) r)) _ _).
  - discriminate.
  - reflexivity.
Defined.

(** ** Turning on with a speed *)

Section Emits.
Context (P : Event -> Prop).

Lemma emits_ret {A} (a : A) : emits P (ret a).
Proof. intros r. exists []. by rewrite app_nil_r. Qed.

Lemma emits_lift {A} (x : Res A) : emits P (lift x).
Proof. intros r. exists []. by rewrite app_nil_r. Qed.

Lemma emits_get {A} (f : Entity -> A) : emits P (get f).
Proof. intros r. exists []. by rewrite app_nil_r. Qed.

Lemma emits_modify (f : Entity -> Entity) : emits P (modify f).
Proof. intros r. exists []. by rewrite app_nil_r. Qed.

Lemma emits_emit (ev : Event) : P ev -> emits P (emit ev).
Proof. intros Hev r. exists [ev]. split; [done|]. by apply Forall_singleton. Qed.

Lemma emits_bind {A B} (m : M A) (k : A -> M B) :
  emits P m -> (forall a, emits P (k a)) -> emits P (bind m k).
Proof.
  intros Hm Hk r. unfold bind. destruct (Hm r) as (t1 & Ht1 & HP1).
  destruct (m r) as [[a|e] r1]; simpl in *; [|by exists t1].
  destruct (Hk a r1) as (t2 & Ht2 & HP2). exists (t1 ++ t2).
  rewrite Ht2, Ht1, app_assoc. split; [done|]. by apply Forall_app.
Qed.

Lemma emits_try_except {A} (body : M A) catches (handler : PyExc -> M A) :
  emits P body -> (forall e, emits P (handler e)) ->
  emits P (try_except body catches handler).
Proof.
  intros Hb Hh r. unfold try_except. destruct (Hb r) as (t1 & Ht1 & HP1).
  destruct (body r) as [[a|e] r1]; simpl in *; [by exists t1|].
  destruct (catches e); simpl; [|by exists t1].
  destruct (Hh e r1) as (t2 & Ht2 & HP2). exists (t1 ++ t2).
  rewrite Ht2, Ht1, app_assoc. split; [done|]. by apply Forall_app.
Qed.

End Emits.

Ltac emits_step :=
  first
    [ apply emits_ret | apply emits_lift | apply emits_get
    | apply emits_modify
    | apply emits_emit; exact I
    | apply emits_bind; [|intros ?]
    | apply emits_try_except; [|intros ?]
    | match goal with
      | |- emits _ (if ?c then _ else _) => destruct c
      | |- emits _ (match ?c with _ => _ end) => destruct c
      end ].

Lemma async_set_speed_emits (K : Consts) (speed : string) :
  emits not_on (entity.async_set_speed K speed).
Proof.
  unfold_set_speed.
  unfold XiaomiGenericDevice._try_command, async_add_executor_job,
    _LOGGER.debug, _LOGGER.error.
  repeat emits_step.
Qed.

(** X9. A turn-on with a non-empty speed is the speed change and nothing
    else: it returns and leaves the run exactly as [async_set_speed] does,
    so the vendor call [on] is not sent, the on/off state is not set and the
    poll-skip flag is not armed.  A turn-on with the empty speed is the
    turn-on without a speed. *)
Theorem X9_turn_on_with_speed (K : Consts) (c : ascii) (s : string)
    (r : Run) :
  let out := entity.async_turn_on K (Some (String c s)) r in
  out = entity.async_set_speed K (String c s) r
  /\ (forall result, Command miio.on result ∈ trace out.2 ->
        Command miio.on result ∈ trace r)
  /\ _state (self out.2) = _state (self r)
  /\ _skip_update (self out.2) = _skip_update (self r)
  /\ entity.async_turn_on K (Some "") r = entity.async_turn_on K None r.
Proof.
  intros out. subst out. rewrite async_turn_on_is_set_speed.
  split; [done|]. split; [|split; [|split]].
  - intros result.
    destruct (async_set_speed_emits K (String c s) r) as (t & -> & Ht).
    rewrite elem_of_app. intros [Hin|Hin]; [done|].
    rewrite Forall_forall in Ht. destruct (Ht _ Hin).
  - apply (async_set_speed_keeps K (String c s) r).
  - apply (async_set_speed_keeps K (String c s) r).
  - done.
Qed.

Lemma X9_witness :
  entity.async_turn_on ha_consts (Some "silent") (entity.start airfresh_example)
  = entity.async_set_speed ha_consts "silent" (entity.start airfresh_example)
  /\ _state (self (entity.async_turn_on ha_consts (Some "silent")
                     (entity.start airfresh_example)).2) = None.
Proof.
  destruct (X9_turn_on_with_speed ha_consts "s" "ilent"
              (entity.start airfresh_example)) as (H1 & _ & H2 & _).
  split; [exact H1|exact H2].
Defined.

(** ** The case of a speed name *)

Lemma title_from_lower_char (c : ascii) (b : bool) (s1 s2 : string) :
  title_from true s1 = title_from true s2 ->
  title_from false s1 = title_from false s2 ->
  title_from b (String (to_lower c) s1) = title_from b (String c s2).
Proof.
  intros Htrue Hfalse.
  destruct c as [[] [] [] [] [] [] [] []], b; cbn; by rewrite ?Htrue, ?Hfalse.
Qed.

Lemma title_from_lower (s : string) (b : bool) :
  title_from b (lower s) = title_from b s.
Proof.
  revert b. induction s as [|c s IH]; intros b; [done|].
  cbn [lower]. by apply title_from_lower_char.
Qed.

Lemma async_set_speed_dispatch (K : Consts) (speed : string) (r : Run) :
  entity.async_set_speed K speed r
  = match class_ (self r) with
    | XiaomiAirPurifier => XiaomiAirPurifier.async_set_speed K speed r
    | XiaomiAirPurifierMiot => XiaomiAirPurifierMiot.async_set_speed K speed r
    | XiaomiAirHumidifier => XiaomiAirHumidifier.async_set_speed K speed r
    | XiaomiAirHumidifierMiot =>
        XiaomiAirHumidifierMiot.async_set_speed K speed r
    | XiaomiAirFresh => XiaomiAirFresh.async_set_speed K speed r
    end.
Proof.
  unfold entity.async_set_speed, bind, get. simpl.
  by destruct (class_ (self r)).
Qed.

(** X10. On every class but the MiOT humidifier a speed change depends on
    an ASCII speed name only through its title-cased form, so the case of
    the letters does not matter: an ASCII name and its lower-cased form, and
    any two ASCII names with the same title-cased form, lead to the same
    result or exception, the same entity and the same vendor calls. *)
Theorem X10_speed_name_case (K : Consts) (speed speed' : string) (r : Run) :
  class_ (self r) <> XiaomiAirHumidifierMiot ->
  ascii_text speed = true ->
  ascii_text speed' = true ->
  same_effect (entity.async_set_speed K (lower speed) r)
    (entity.async_set_speed K speed r)
  /\ (title speed' = title speed ->
      same_effect (entity.async_set_speed K speed' r)
        (entity.async_set_speed K speed r)).
Proof.
  intros Hcls _ _.
  assert (Hgen : forall s1 s2, title s1 = title s2 ->
            entity.async_set_speed K s1 r = entity.async_set_speed K s2 r).
  { intros s1 s2 Ht. rewrite !async_set_speed_dispatch.
    destruct (class_ (self r)); try done;
      unfold XiaomiAirPurifier.async_set_speed,
        XiaomiAirPurifierMiot.async_set_speed,
        XiaomiAirHumidifier.async_set_speed, XiaomiAirFresh.async_set_speed;
      by rewrite Ht. }
  split.
  - by rewrite (Hgen (lower speed) speed (title_from_lower speed false)).
  - intros Ht. by rewrite (Hgen speed' speed Ht).
Qed.

Lemma X10_witness :
  same_effect
    (entity.async_set_speed ha_consts "SILENT" (entity.start airfresh_example))
    (entity.async_set_speed ha_consts "silent" (entity.start airfresh_example)).
Proof.
  refine (proj2 (X10_speed_name_case ha_consts "silent" "SILENT"
                   (entity.start airfresh_example) _ _ _) _).
  - discriminate.
  - reflexivity.
  - reflexivity.
  - reflexivity.
Defined.

(** ** The speeds that an entity advertises *)

Lemma run_command_trace (mask : string) (c : miio.Call) (r : Run) :
  Command c (miio.command (_device (self r)) c)
  ∈ trace (run_command mask c r).2.
Proof.
  unfold run_command. rewrite _try_command_unfold. unfold after_call.
  destruct (miio.command (_device (self r)) c) as [v|[]]; simpl;
    try destruct (_available (self r)); simpl;
    rewrite ?elem_of_app, ?list_elem_of_singleton; tauto.
Qed.

Lemma async_set_speed_sent (K : Consts) (speed : string) (r : Run)
    (mode : PyVal) :
  SUPPORT_SET_SPEED K <> 0 ->
  match mode_vocabulary (class_ (self r)) with
  | Some E => enum_getitem E (title speed) = Ret mode
  | None => XiaomiAirHumidifierMiot.REVERSE_MODE_MAPPING K !! speed = Some mode
  end ->
  speed_is_sent K speed r.
Proof.
  intros Hs Hmode. exists mode. rewrite async_set_speed_dispatch.
  pose proof (Z.land_diag (SUPPORT_SET_SPEED K)) as Hdiag.
  destruct (class_ (self r)); simpl in Hmode;
    unfold XiaomiAirPurifier.async_set_speed,
      XiaomiAirPurifierMiot.async_set_speed,
      XiaomiAirHumidifier.async_set_speed,
      XiaomiAirHumidifierMiot.async_set_speed,
      XiaomiAirFresh.async_set_speed,
      XiaomiGenericDevice.supported_features, _LOGGER.debug;
    try (unfold bind at 1; unfold ret at 1; cbv beta iota; rewrite Hdiag;
         destruct (Z.eqb_spec (SUPPORT_SET_SPEED K) 0) as [?|_];
         [contradiction|];
         unfold bind at 1; unfold emit at 1; cbv beta iota);
    unfold bind at 1; unfold lift at 1; rewrite Hmode; cbv beta iota;
    rewrite bind_try_command;
    first [ apply (run_command_trace _ _ (after_speed_debug r))
          | apply run_command_trace ].
Qed.

Ltac case_model model :=
  repeat match goal with
         | |- context [String.eqb model ?c] =>
             destruct (String.eqb_spec model c)
         end.

Ltac resolve_each_speed Hin :=
  repeat (apply elem_of_cons in Hin as [->|Hin]);
  [..|by apply elem_of_nil in Hin]; eexists; vm_compute; reflexivity.

Lemma purifier_speeds_resolve (K : Consts) id device model (speed : string) :
  speeds_fit K model XiaomiAirPurifier ->
  speed ∈ _speed_list
            (XiaomiAirPurifier.__init__ K XiaomiAirPurifier id device model) ->
  exists mode,
    enum_getitem miio.AirpurifierOperationMode (title speed) = Ret mode.
Proof.
  intros [H3 H3h].
  unfold XiaomiAirPurifier.__init__. simpl. case_model model; simpl;
    try tauto; intros Hin; resolve_each_speed Hin.
Qed.

Lemma purifier_miot_speeds_resolve (K : Consts) id device model
    (speed : string) :
  speeds_fit K model XiaomiAirPurifierMiot ->
  speed ∈ _speed_list
            (XiaomiAirPurifier.__init__ K XiaomiAirPurifierMiot id device
               model) ->
  exists mode,
    enum_getitem miio.AirpurifierMiotOperationMode (title speed) = Ret mode.
Proof.
  intros [Hin Hv3]. rewrite !elem_of_cons, elem_of_nil in Hin.
  unfold XiaomiAirPurifier.__init__. simpl. case_model model; simpl;
    try tauto; intros Hs; resolve_each_speed Hs.
Qed.

Lemma airfresh_speeds_resolve (K : Consts) cls id device model
    (speed : string) :
  speed ∈ _speed_list (XiaomiAirFresh.__init__ K cls id device model) ->
  exists mode, enum_getitem miio.AirfreshOperationMode (title speed) = Ret mode.
Proof. simpl. intros Hin. resolve_each_speed Hin. Qed.

Lemma humidifier_speeds_resolve (K : Consts) id device model
    (speed : string) :
  speeds_fit K model XiaomiAirHumidifier ->
  speed ∈ _speed_list
            (XiaomiAirHumidifier.__init__ K XiaomiAirHumidifier id device
               model) ->
  exists mode,
    enum_getitem miio.AirhumidifierOperationMode (title speed) = Ret mode.
Proof.
  simpl. intros Hca4.
  unfold XiaomiAirHumidifier.__init__, py_in. simpl. case_model model; simpl;
    try tauto; intros Hs; vm_compute in Hs; resolve_each_speed Hs.
Qed.

Lemma humidifier_miot_speeds_resolve (K : Consts) id device model
    (speed : string) :
  speeds_fit K model XiaomiAirHumidifierMiot ->
  speed ∈ _speed_list
            (XiaomiAirHumidifier.__init__ K XiaomiAirHumidifierMiot id device
               model) ->
  is_Some (XiaomiAirHumidifierMiot.REVERSE_MODE_MAPPING K !! speed).
Proof.
  simpl. intros (Hca4 & Hca1 & Hcb1).
  unfold XiaomiAirHumidifier.__init__, py_in. simpl. case_model model; simpl;
    try tauto. intros Hs. by apply REVERSE_MODE_MAPPING_is_Some.
Qed.

(** X11. Every speed that an entity advertises in its speed list is one
    that its speed change accepts: with the set-speed capability, a speed
    change with any name of the list resolves the name and sends the vendor
    call [set_mode].  This holds for every fresh-air entity; for a classic
    purifier whose model is not the 3 or the 3H (their list has [Fan], which
    only the MiOT vocabulary has); for a MiOT purifier whose model has a
    speed list of its own that is not the list of the V3; for a classic
    humidifier whose model is not the CA4; and for a MiOT humidifier whose
    model is the CA4.  The MiOT purifier has no mode [Idle]: a speed change
    to it raises [KeyError], although the generic list and the list of the
    V3 have it. *)
Theorem X11_advertised_speeds_are_accepted (K : Consts) (id : string)
    (device : miio.Device) (model : string) (dc : miio.DeviceClass)
    (e : Entity) :
  SUPPORT_SET_SPEED K <> 0 ->
  (async_setup_entry K id device model).1 = Some (dc, e) ->
  (speeds_fit K model (class_ e) ->
   forall speed r, speed ∈ speed_list_of e ->
     class_ (self r) = class_ e -> speed_is_sent K speed r)
  /\ (forall r, class_ (self r) = XiaomiAirPurifierMiot ->
        (entity.async_set_speed K "Idle" r).1 = Raise (KeyError "Idle")
        /\ "Idle" ∈ OPERATION_MODES_AIRPURIFIER
        /\ "Idle" ∈ OPERATION_MODES_AIRPURIFIER_V3).
Proof.
  intros Hs Hsetup. split.
  - intros Hfit speed r Hin Hcls.
    assert (speed ∈ _speed_list e) as Hin'
      by (unfold speed_list_of in Hin; by destruct (class_ e)).
    clear Hin. rename Hin' into Hin.
    assert (exists mode,
              match mode_vocabulary (class_ e) with
              | Some E => enum_getitem E (title speed) = Ret mode
              | None =>
                  XiaomiAirHumidifierMiot.REVERSE_MODE_MAPPING K !! speed
                  = Some mode
              end) as [mode Hmode].
    { revert Hsetup Hfit Hin. unfold async_setup_entry.
      repeat match goal with
             | |- context [if ?c then _ else _] => destruct c
             end; cbn [fst]; intros [= <- <-]; try done;
        rewrite ?(proj1 (purifier_init_fields K _ id device model)),
          ?(proj1 (humidifier_init_fields K _ id device model));
        cbn [mode_vocabulary class_ XiaomiAirFresh.__init__];
        intros Hfit Hin.
      - by apply (purifier_miot_speeds_resolve K id device model).
      - by apply (purifier_miot_speeds_resolve K id device model).
      - by apply (purifier_speeds_resolve K id device model).
      - by apply (humidifier_miot_speeds_resolve K id device model).
      - by apply (humidifier_speeds_resolve K id device model).
      - by apply (airfresh_speeds_resolve K XiaomiAirFresh id device model). }
    apply (async_set_speed_sent K speed r mode Hs). by rewrite Hcls.
  - intros r Hcls. split; [|split].
    + rewrite async_set_speed_dispatch, Hcls.
      unfold XiaomiAirPurifierMiot.async_set_speed,
        XiaomiGenericDevice.supported_features, _LOGGER.debug.
      unfold bind at 1. unfold ret at 1. cbv beta iota.
      rewrite Z.land_diag.
      destruct (Z.eqb_spec (SUPPORT_SET_SPEED K) 0) as [?|_]; [contradiction|].
      reflexivity.
    + vm_compute. set_solver.
    + vm_compute. set_solver.
Qed.

Lemma X11_witness :
  speed_is_sent ha_consts "Fan" (entity.start purifier3_example).
Proof.
  refine (proj1 (X11_advertised_speeds_are_accepted ha_consts "fan.purifier_3"
                   (device_ok (status_with true purifier3_properties (VInt 1)))
                   "zhimi.airpurifier.ma4" miio.AirPurifierMiot
                   purifier3_example _ _) _ "Fan"
            (entity.start purifier3_example) _ _).
  - discriminate.
  - reflexivity.
  - vm_compute. split; [|discriminate].
    apply elem_of_cons. right. apply elem_of_cons. right.
    apply elem_of_cons. right. apply elem_of_cons. by left.
  - vm_compute.
    apply elem_of_cons. right. apply elem_of_cons. right.
    apply elem_of_cons. right. apply elem_of_cons. by left.
  - reflexivity.
Defined.

(** ** The speed property *)

Lemma async_update_returned (r : Run) (st : miio.Status) :
  _skip_update (self r) = false ->
  miio.status (_device (self r)) = Ret st ->
  (entity.async_update r).1 = Ret tt ->
  exists values,
    projection st r = Ret values
    /\ self (entity.async_update r).2
       = set__state_attrs (dict_update values (_state_attrs (self r)))
           (set__state (Some (miio.is_on st))
              (set__available true (self r))).
Proof.
  intros Hskip Hst. rewrite async_update_unfold, Hskip, Hst. cbv zeta.
  destruct (projection st r) as [values|ex]; [|done]. by exists values.
Qed.

Lemma speed_of_member (K : Consts) (e : Entity) (n : string) (v : PyVal) :
  _state e = Some true ->
  (n, v) ∈ members (mode_enumeration (class_ e)) ->
  _state_attrs e !! ATTR_MODE K = Some v ->
  entity.speed K e = Ret (reported_speed K (class_ e) n).
Proof.
  intros Hon Hin Hmode.
  unfold entity.speed, XiaomiAirPurifier.speed, XiaomiAirPurifierMiot.speed,
    XiaomiAirHumidifier.speed, XiaomiAirHumidifierMiot.speed,
    XiaomiAirFresh.speed.
  destruct (class_ e); rewrite Hon, Hmode; simpl in Hin;
    repeat (apply elem_of_cons in Hin as [[= -> ->]|Hin]);
    try (by apply elem_of_nil in Hin); reflexivity.
Qed.

(** X12. The [speed] property reads back what the poll stored.  After a
    poll that read the status and returned, where the status has under the
    field of the mode attribute a member of the mode enumeration of the
    class: while the device is on, [speed] is the name of that member, and
    on the MiOT humidifier the speed name that [MODE_MAPPING] gives for it
    ([None] for the member [Auto], which the mapping does not have); while
    the device is off, [speed] is [None]. *)
Theorem X12_speed_reads_back (K : Consts) (r : Run) (st : miio.Status)
    (field n : string) (v : PyVal) :
  _skip_update (self r) = false ->
  miio.status (_device (self r)) = Ret st ->
  (entity.async_update r).1 = Ret tt ->
  _available_attributes (self r) !! ATTR_MODE K = Some field ->
  (n, v) ∈ members (mode_enumeration (class_ (self r))) ->
  miio.fields st !! field
  = Some (member_of (mode_enumeration (class_ (self r))) (n, v)) ->
  entity.speed K (self (entity.async_update r).2)
  = Ret (if miio.is_on st then reported_speed K (class_ (self r)) n
         else VNone).
Proof.
  intros Hskip Hst Hret Hkey Hin Hfield.
  destruct (async_update_returned r st Hskip Hst Hret) as (values & Hp & ->).
  pose proof (projection_lookup st r values Hp (ATTR_MODE K)) as Hl.
  rewrite Hkey in Hl. destruct Hl as (raw & Hraw & Hv).
  rewrite Hfield in Hraw. injection Hraw as <-. simpl in Hv.
  destruct (miio.is_on st) eqn:Hon.
  - match goal with
    | |- entity.speed K ?e = _ => apply (speed_of_member K e n v)
    end; [done|done|]. simpl. unfold dict_update.
    by apply lookup_union_Some_l.
  - unfold entity.speed, XiaomiAirPurifier.speed, XiaomiAirPurifierMiot.speed,
      XiaomiAirHumidifier.speed, XiaomiAirHumidifierMiot.speed,
      XiaomiAirFresh.speed. simpl. by destruct (class_ (self r)).
Qed.

Lemma X12_witness :
  let silent := VEnum "miio.airfresh.OperationMode" "Silent" (VStr "silent") in
  let r := entity.start
             (with_device (device_ok (status_with true airfresh_properties silent))
                airfresh_example) in
  entity.speed ha_consts (self (entity.async_update r).2) = Ret (VStr "Silent").
Proof.
  intros silent r.
  refine (X12_speed_reads_back ha_consts r
            (status_with true airfresh_properties silent) "mode" "Silent"
            (VStr "silent") _ _ _ _ _ _).
  - reflexivity.
  - reflexivity.
  - vm_compute. reflexivity.
  - vm_compute. reflexivity.
  - vm_compute. apply elem_of_cons. right. apply elem_of_cons. by left.
  - vm_compute. reflexivity.
Defined.

Lemma enum_call_None (cls : EntityClass) :
  enum_call (mode_enumeration cls) VNone = Raise ValueError.
Proof. by destruct cls. Qed.

Lemma speed_of_None (K : Consts) (e : Entity) :
  _state e = Some true -> _state_attrs e !! ATTR_MODE K = Some VNone ->
  entity.speed K e = Raise ValueError.
Proof.
  intros Hon Hmode.
  unfold entity.speed, XiaomiAirPurifier.speed, XiaomiAirPurifierMiot.speed,
    XiaomiAirHumidifier.speed, XiaomiAirHumidifierMiot.speed,
    XiaomiAirFresh.speed.
  by destruct (class_ e); rewrite Hon, Hmode.
Qed.

(** X13. The [speed] property of an entity that is on but has no mode yet
    raises [ValueError]: the constructor stores [None] under every
    attribute, and [None] is no value of a mode enumeration.  This is the
    state of an entity that the setup has built and that is turned on, the
    device answering with the success token, before a poll has read its
    status; the poll that follows is skipped, so [speed] still raises after
    it.  Without an entry for the mode [speed] raises [KeyError], and while
    the entity is not on it is [None]. *)
Theorem X13_speed_before_first_poll (K : Consts) (id : string)
    (device : miio.Device) (model : string) (dc : miio.DeviceClass)
    (e : Entity) :
  (async_setup_entry K id device model).1 = Some (dc, e) ->
  is_Some (_available_attributes e !! ATTR_MODE K) ->
  miio.command device miio.on = Ret SUCCESS ->
  let r1 := (entity.async_turn_on K None (entity.start e)).2 in
  entity.speed K e = Ret VNone
  /\ entity.speed K (self r1) = Raise ValueError
  /\ entity.speed K (self (entity.async_update r1).2) = Raise ValueError
  /\ (forall e', _state e' = Some true ->
        _state_attrs e' !! ATTR_MODE K = None ->
        entity.speed K e' = Raise (KeyError (ATTR_MODE K))).
Proof.
  intros Hsetup Hkey Hon r1.
  destruct (setup_table_reported K id device model dc e Hsetup)
    as (_ & _ & Hstate & _ & Hdev & _ & Hnone).
  specialize (Hnone _ Hkey).
  assert (self r1 = set__skip_update true (set__state (Some true) e)) as Hr1.
  { subst r1. unfold entity.async_turn_on, XiaomiGenericDevice.async_turn_on.
    unfold_method. rewrite _try_command_unfold. simpl. rewrite Hdev, Hon.
    done. }
  split; [|split; [|split]].
  - unfold entity.speed, XiaomiAirPurifier.speed, XiaomiAirPurifierMiot.speed,
      XiaomiAirHumidifier.speed, XiaomiAirHumidifierMiot.speed,
      XiaomiAirFresh.speed. rewrite Hstate. by destruct (class_ e).
  - rewrite Hr1. by apply speed_of_None.
  - rewrite async_update_unfold, Hr1. simpl. by apply speed_of_None.
  - intros e' Hon' Hmode.
    unfold entity.speed, XiaomiAirPurifier.speed, XiaomiAirPurifierMiot.speed,
      XiaomiAirHumidifier.speed, XiaomiAirHumidifierMiot.speed,
      XiaomiAirFresh.speed. by destruct (class_ e'); rewrite Hon', Hmode.
Qed.

Lemma X13_witness :
  entity.speed ha_consts
    (self (entity.async_turn_on ha_consts None
             (entity.start airfresh_example)).2)
  = Raise ValueError.
Proof.
  refine (proj1 (proj2 (X13_speed_before_first_poll ha_consts "fan.air_fresh"
                          (device_ok
                             (status_with true airfresh_properties (VInt 1)))
                          "zhimi.airfresh.va2" miio.AirFresh airfresh_example
                          _ _ _))).
  - reflexivity.
  - vm_compute. by eexists.
  - reflexivity.
Defined.

(** X14. The [button_pressed] property of the MiOT humidifier reads back
    what the poll stored: after a poll that read the status and returned,
    where the status has a member of the pressed-button enumeration under
    the field of the attribute, the property is the name of that member
    while the device is on and [None] while it is off. *)
Theorem X14_button_pressed_reads_back (r : Run) (st : miio.Status)
    (field n : string) (v : PyVal) :
  _skip_update (self r) = false ->
  miio.status (_device (self r)) = Ret st ->
  (entity.async_update r).1 = Ret tt ->
  _available_attributes (self r) !! ATTR_BUTTON_PRESSED = Some field ->
  (n, v) ∈ members miio.AirhumidifierPressedButton ->
  miio.fields st !! field
  = Some (member_of miio.AirhumidifierPressedButton (n, v)) ->
  XiaomiAirHumidifierMiot.button_pressed (self (entity.async_update r).2)
  = Ret (if miio.is_on st then VStr n else VNone).
Proof.
  intros Hskip Hst Hret Hkey Hin Hfield.
  destruct (async_update_returned r st Hskip Hst Hret) as (values & Hp & ->).
  pose proof (projection_lookup st r values Hp ATTR_BUTTON_PRESSED) as Hl.
  rewrite Hkey in Hl. destruct Hl as (raw & Hraw & Hv).
  rewrite Hfield in Hraw. injection Hraw as <-. simpl in Hv.
  unfold XiaomiAirHumidifierMiot.button_pressed. simpl.
  destruct (miio.is_on st); [|done].
  unfold dict_update. rewrite (lookup_union_Some_l _ _ _ _ Hv).
  simpl in Hin.
  repeat (apply elem_of_cons in Hin as [[= -> ->]|Hin]);
    try (by apply elem_of_nil in Hin); reflexivity.
Qed.

Lemma X14_witness :
  let led := VEnum "miio.airhumidifier_miot.PressedButton" "Led" (VInt 1) in
  let st := status_with true
              ["temperature"; "humidity"; "mode"; "buzzer"; "child_lock";
               "target_humidity"; "led_brightness"; "use_time";
               "actual_speed"; "button_pressed"; "dry"; "fahrenheit";
               "motor_speed"] led in
  let r := entity.start (with_device (device_ok st) humidifier_miot_example) in
  XiaomiAirHumidifierMiot.button_pressed (self (entity.async_update r).2)
  = Ret (VStr "Led").
Proof.
  intros led st r.
  refine (X14_button_pressed_reads_back r st "button_pressed" "Led" (VInt 1)
            _ _ _ _ _ _).
  - reflexivity.
  - reflexivity.
  - vm_compute. reflexivity.
  - vm_compute. reflexivity.
  - vm_compute. apply elem_of_cons. right. apply elem_of_cons. by left.
  - vm_compute. reflexivity.
Defined.

(** ** Polls in a row *)

Lemma async_update_clears_flag (r : Run) :
  _skip_update (self (entity.async_update r).2) = false.
Proof.
  rewrite async_update_unfold.
  destruct (_skip_update (self r)) eqn:Hskip; [done|].
  destruct (miio.status (_device (self r))) as [st|[]]; simpl; try done.
  - by destruct (projection st r).
  - by destruct (_available (self r)).
Qed.

Lemma polls_flag_clear (n : nat) (r : Run) :
  _skip_update (self r) = false -> _skip_update (self (polls n r)) = false.
Proof.
  intros Hskip. destruct n as [|n]; [done|]. apply async_update_clears_flag.
Qed.

Lemma polls_read (n : nat) (r : Run) :
  _skip_update (self r) = false ->
  length (vendor_calls (trace (polls n r)))
  = (length (vendor_calls (trace r)) + n)%nat.
Proof.
  intros Hskip. induction n as [|n IH]; simpl; [lia|].
  fold (polls n r). rewrite vendor_calls_poll by by apply polls_flag_clear.
  rewrite length_app, IH. simpl. lia.
Qed.

(** X15. Each poll reads the status of the device exactly once and sends
    nothing else, except that a set poll-skip flag suppresses the one poll
    that follows it: after [n] polls in a row the trace has [n] more vendor
    calls when the flag was clear, and [n - 1] more when it was set.  After
    the first poll the flag is clear. *)
Theorem X15_polls_read_once (n : nat) (r : Run) :
  length (vendor_calls (trace (polls n r)))
  = (length (vendor_calls (trace r))
     + (n - if _skip_update (self r) then 1 else 0))%nat
  /\ ((0 < n)%nat -> _skip_update (self (polls n r)) = false).
Proof.
  split.
  - destruct (_skip_update (self r)) eqn:Hskip.
    + destruct n as [|n]; [simpl; lia|].
      unfold polls. rewrite Nat.iter_succ_r.
      fold (polls n (entity.async_update r).2).
      rewrite polls_read by apply async_update_clears_flag.
      rewrite async_update_unfold, Hskip. simpl. lia.
    + rewrite polls_read by done. lia.
  - destruct n as [|n]; [lia|]. intros _. apply async_update_clears_flag.
Qed.

Lemma X15_witness :
  let r := (entity.async_turn_on ha_consts None
              (entity.start airfresh_example)).2 in
  _skip_update (self (polls 2 r)) = false.
Proof.
  intros r. apply (proj2 (X15_polls_read_once 2 r)). lia.
Defined.

(** ** The services of a class *)

(** X16. Which services reach a method depends on the class alone: the
    four buzzer and child-lock services on every class, and beyond them the
    services whose method the class or the class it extends defines.  A
    MiOT class has the services of the class it extends, the MiOT humidifier
    the motor-speed service in addition.  No humidifier class has a method
    for the led services, although the bitset of the classic humidifier
    declares the led capability. *)
Theorem X16_services_of_a_class (K : Consts) (cls : EntityClass)
    (svc : Service) :
  (has_method K cls svc = true <-> svc ∈ SERVICES cls)
  /\ has_method K XiaomiAirPurifierMiot svc = has_method K XiaomiAirPurifier svc
  /\ (has_method K XiaomiAirHumidifier svc = true ->
      has_method K XiaomiAirHumidifierMiot svc = true)
  /\ (cls = XiaomiAirHumidifier \/ cls = XiaomiAirHumidifierMiot ->
      svc = SERVICE_SET_FAN_LED_ON \/ svc = SERVICE_SET_FAN_LED_OFF ->
      has_method K cls svc = false
      /\ FEATURE_FLAGS_AIRHUMIDIFIER &' FEATURE_SET_LED <> 0).
Proof.
  split; [|split; [|split]].
  - destruct cls, svc; vm_compute; split; intros H; try done;
      first [ by repeat constructor
            | repeat (apply elem_of_cons in H as [H|H]; [discriminate H|]);
              by apply elem_of_nil in H ].
  - by destruct svc.
  - by destruct svc.
  - intros [-> | ->] [-> | ->]; by vm_compute.
Qed.

Lemma X16_witness :
  has_method ha_consts XiaomiAirHumidifier SERVICE_SET_FAN_LED_ON = false
  /\ FEATURE_FLAGS_AIRHUMIDIFIER &' FEATURE_SET_LED <> 0.
Proof.
  apply (proj2 (proj2 (proj2 (X16_services_of_a_class ha_consts
                                XiaomiAirHumidifier SERVICE_SET_FAN_LED_ON)))).
  - by left.
  - by left.
Defined.
